(** * ArchaeoScan analytics core: radar, spectra, preservation, broadcast hub

    A shallow embedding of the analytic and distribution code of the
    ArchaeoScan backend:

    - [backend/routers/services/preservation_service.py]
                                        (modules [Preservation], [Report])
    - [backend/app/services/radar_processing.py]
                                        (modules [Radar], [RadarScan])
    - [archaeoscan-backend/app/services/material_classification.py]
                                        (modules [Spectral], [Classifier])
    - [archaeoscan-backend/app/services/preservation_index.py]
                                        (modules [Index], [MultiPoint])
    - [archaeoscan-backend/app/websocket.py]
                                        (modules [Hub], [HubTasks])

    Python floats are modelled by exact rationals ([Q]); where the code
    itself inspects non-finite floats ([math.isnan], [math.isinf]) the value
    type is [pyfloat], which adds the two infinities and NaN.  Exceptions are
    modelled by the sum type [result].  Functions of SciPy that the code
    calls (filter design, peak finding) are parameters of the sections that
    use them. *)

From Stdlib Require Import QArith ZArith List Lia Lqa String Bool.
From Stdlib Require Import Qround Qabs Qminmax Sorted.
From stdpp Require Import gmap strings.

#[global] Set Warnings "-clear-no-such-hyp".

Open Scope Q_scope.

(** ** Python values shared by the services *)

(** Exceptions the modelled code can raise. *)
Inductive exn : Type :=
| ZeroDivisionError
| ValueError
| IndexError
| TypeError
| RuntimeError
| TimeoutError
| WebSocketDisconnect.

(** The outcome of a call that either returns a value or raises. *)
Inductive result (A : Type) : Type :=
| Ok (a : A)
| Raise (e : exn).
Arguments Ok {A} a.
Arguments Raise {A} e.

(** Sequencing of calls that may raise: [x ← r; k] runs [k] on the value
    of [r] and propagates an exception of [r]. *)
#[global] Instance result_bind : MBind result :=
  fun A B (k : A -> result B) (r : result A) =>
    match r with
    | Ok a => k a
    | Raise e => Raise e
    end.

Definition returns {A : Type} (r : result A) : bool :=
  match r with Ok _ => true | Raise _ => false end.

(** [x < y] on floats, as a boolean. *)
Definition Qltb (x y : Q) : bool := negb (Qle_bool y x).

(** Python's two-argument [max(a, b)] and [min(a, b)]: the first argument is
    kept unless the second is strictly larger (smaller). *)
Definition py_max (a b : Q) : Q := if Qltb a b then b else a.
Definition py_min (a b : Q) : Q := if Qltb b a then b else a.

(** Rounding to the nearest integer, ties to the even neighbour. *)
Definition round_half_even (q : Q) : Z :=
  let f := Qfloor q in
  match Qcompare (q - inject_Z f) (1 # 2) with
  | Lt => f
  | Gt => (f + 1)%Z
  | Eq => if Z.even f then f else (f + 1)%Z
  end.

(** Python's [round(x, 2)]. *)
Definition py_round2 (q : Q) : Q := round_half_even (q * 100) # 100.

(** A Python float: a finite value, an infinity, or NaN. *)
Inductive pyfloat : Type :=
| Finite (q : Q)
| PosInf
| NegInf
| NaN.

Definition isnan (x : pyfloat) : bool :=
  match x with NaN => true | _ => false end.

Definition isinf (x : pyfloat) : bool :=
  match x with PosInf | NegInf => true | _ => false end.

(** Truth value of a float: only zero is falsy (NaN is truthy). *)
Definition truthy (x : pyfloat) : bool :=
  match x with
  | Finite q => negb (Qeq_bool q 0)
  | _ => true
  end.

(** [x or 0]. *)
Definition or_zero (x : pyfloat) : pyfloat :=
  if truthy x then x else Finite 0.

(** The guard [if math.isnan(x) or math.isinf(x): x = d], after which the
    variable holds a finite number. *)
Definition replace_nonfinite (x : pyfloat) (d : Q) : Q :=
  if isnan x || isinf x then d
  else match x with Finite q => q | _ => d end.

(** ** Preservation scorer (preservation_service.py) *)

Module Preservation.

(** The [SensorData] dataclass. *)
Record SensorData : Type := mkSensorData {
  turbidity : pyfloat;
  temperature : pyfloat;
  tds : pyfloat;
  pressure : pyfloat;
  humidity : pyfloat;
  distance : pyfloat
}.

(** One entry of [material_database]; the display name of the entry is not
    read by any computation and is left out. *)
Record material_props : Type := mk_props {
  base_survival : Q;
  turbidity_threshold : Q;
  turbidity_penalty : Q;
  temperature_threshold : Q;
  temperature_penalty : Q;
  tds_threshold : Q;
  tds_penalty : Q
}.

Open Scope string_scope.

(** The entries of [material_database] in the order the source lists them. *)
Definition material_table : list (string * material_props) := [
  ("wood", mk_props 20 50 10 25 5 500 5);
  ("paper", mk_props 15 50 15 25 5 500 5);
  ("fabric", mk_props 20 50 10 25 5 500 5);
  ("leather", mk_props 25 50 10 25 5 500 5);
  ("bone", mk_props 25 50 5 25 5 500 5);
  ("lead", mk_props 50 80 5 30 2 1000 2);
  ("copper", mk_props 45 80 5 30 2 1000 3);
  ("brass", mk_props 45 80 5 30 2 1000 3);
  ("tin", mk_props 40 80 5 30 2 1000 3);
  ("zinc", mk_props 35 80 5 30 2 1000 3);
  ("iron", mk_props 30 50 10 30 5 800 5);
  ("steel", mk_props 40 50 5 30 3 800 5);
  ("ceramic", mk_props 70 100 5 1000 0 10000 0);
  ("clay", mk_props 60 100 5 1000 0 10000 0);
  ("soft_stone", mk_props 60 100 5 1000 0 10000 0);
  ("hard_stone", mk_props 90 150 2 1000 0 10000 0);
  ("glass", mk_props 80 100 5 1000 0 10000 0);
  ("plastic", mk_props 75 150 2 1000 0 10000 0);
  ("rubber", mk_props 65 150 2 1000 0 10000 0);
  ("quartz", mk_props 95 10000 0 10000 0 10000 0);
  ("gold", mk_props 100 10000 0 10000 0 10000 0);
  ("silver", mk_props 95 150 2 1000 0 1500 2);
  ("platinum", mk_props 100 10000 0 10000 0 10000 0);
  ("porcelain", mk_props 90 150 2 1000 0 10000 0);
  ("marble", mk_props 85 150 2 1000 0 10000 0);
  ("bronze", mk_props 75 80 5 30 2 1000 3);
  ("asphalt", mk_props 65 80 5 1000 0 1000 2);
  ("ebonite", mk_props 65 80 5 1000 0 1000 2);
  ("fired_clay", mk_props 80 150 2 1000 0 10000 0);
  ("obsidian", mk_props 95 10000 0 10000 0 10000 0)
].

Close Scope string_scope.

(** [self.material_database], a dict keyed by material name. *)
Definition material_database : gmap string material_props :=
  list_to_map material_table.

(** [calculate_material_preservation(material, sensor_data)]. *)
Definition calculate_material_preservation
  (material : string) (sensor_data : SensorData) : Q :=
  match material_database !! material with
  | None => 100
  | Some material_props =>
    let base_preservation := base_survival material_props in
    let turbidity := or_zero (turbidity sensor_data) in
    let temperature := or_zero (temperature sensor_data) in
    let tds := or_zero (tds sensor_data) in
    let turbidity := replace_nonfinite turbidity 0 in
    let temperature := replace_nonfinite temperature 20 in
    let tds := replace_nonfinite tds 0 in
    let preservation := base_preservation in
    let preservation :=
      if Qltb (turbidity_threshold material_props) turbidity
      then preservation - turbidity_penalty material_props
      else preservation in
    let preservation :=
      if Qltb (temperature_threshold material_props) temperature
      then preservation - temperature_penalty material_props
      else preservation in
    let preservation :=
      if Qltb (tds_threshold material_props) tds
      then preservation - tds_penalty material_props
      else preservation in
    let preservation_percentage := py_max 0 (py_min 100 preservation) in
    py_round2 preservation_percentage
  end.

(** [calculate_water_preservation(sensor_data)]. *)
Definition calculate_water_preservation (sensor_data : SensorData) : Q :=
  let turbidity := or_zero (turbidity sensor_data) in
  let tds := or_zero (tds sensor_data) in
  let temperature := or_zero (temperature sensor_data) in
  let turbidity := replace_nonfinite turbidity 0 in
  let tds := replace_nonfinite tds 0 in
  let temperature := replace_nonfinite temperature 20 in
  let base_quality := 100 in
  let turbidity_impact := py_max 0 (turbidity - 10) * 0.5 in
  let tds_impact := py_max 0 (tds - 50) * 0.02 in
  let temp_impact := py_max 0 (temperature - 20) * 0.3 in
  let total_impact := turbidity_impact + tds_impact + temp_impact in
  let water_preservation := py_max 0 (base_quality - total_impact) in
  py_round2 water_preservation.

(** The reading the spec describes as sanitized: every NaN or infinite
    turbidity, temperature or TDS replaced by its safe default. *)
Definition sanitized (sensor_data : SensorData) : SensorData :=
  {| turbidity := Finite (replace_nonfinite (turbidity sensor_data) 0);
     temperature := Finite (replace_nonfinite (temperature sensor_data) 20);
     tds := Finite (replace_nonfinite (tds sensor_data) 0);
     pressure := pressure sensor_data;
     humidity := humidity sensor_data;
     distance := distance sensor_data |}.

(** The water-quality formula as the spec words it, on finite readings:
    100 minus the three linear impacts, floored at 0 (no rounding). *)
Definition water_formula (turbidity temperature tds : Q) : Q :=
  Qmax 0 (100 - (Qmax 0 (turbidity - 10) * 0.5
                 + Qmax 0 (tds - 50) * 0.02
                 + Qmax 0 (temperature - 20) * 0.3)).

(** A reading whose three scored scalars are finite. *)
Definition finite_reading (turbidity temperature tds : Q) : SensorData :=
  {| turbidity := Finite turbidity;
     temperature := Finite temperature;
     tds := Finite tds;
     pressure := Finite 0;
     humidity := Finite 0;
     distance := Finite 0 |}.

End Preservation.

(** ** Radar engine (radar_processing.py) *)

(** NumPy's [np.std] is a square root, which [Q] does not have.  A [surd]
    [{| surd_coef := c; surd_rad := r |}] stands for the real number
    [c * sqrt r] (with [0 <= r]); comparisons against it are decided exactly
    by comparing squares. *)
Record surd : Type := mk_surd {
  surd_coef : Q;
  surd_rad : Q
}.

Definition surd_scale (s : surd) (c : Q) : surd :=
  {| surd_coef := surd_coef s * c; surd_rad := surd_rad s |}.

(** [g > c * sqrt r]. *)
Definition Qgt_surd (g : Q) (s : surd) : bool :=
  let c := surd_coef s in
  let sq := c * c * surd_rad s in
  if Qle_bool 0 c
  then Qle_bool 0 g && Qltb sq (g * g)
  else Qltb 0 g || Qltb (g * g) sq.

Definition Qsum (xs : list Q) : Q := fold_right Qplus 0 xs.

(** [np.mean]. *)
Definition np_mean (xs : list Q) : Q :=
  Qsum xs / inject_Z (Z.of_nat (length xs)).

(** The population variance, the square of [np.std]. *)
Definition np_var (xs : list Q) : Q :=
  let m := np_mean xs in
  np_mean (map (fun v => (v - m) * (v - m)) xs).

(** [np.std]. *)
Definition np_std (xs : list Q) : surd :=
  {| surd_coef := 1; surd_rad := np_var xs |}.

(** [np.gradient] of a one-dimensional array with unit spacing: one-sided
    differences at the two ends, central differences inside.  NumPy raises
    [ValueError] when the array has fewer than two elements. *)
Fixpoint central_differences (xs : list Q) : list Q :=
  match xs with
  | a :: ((_ :: c :: _) as rest) => (c - a) / 2 :: central_differences rest
  | _ => []
  end.

Definition np_gradient (xs : list Q) : result (list Q) :=
  match xs with
  | a :: b :: _ =>
    let n := length xs in
    Ok ((b - a) :: central_differences xs
        ++ [nth (n - 1) xs 0 - nth (n - 2) xs 0])
  | _ => Raise ValueError
  end.

(** [np.where(mask)[0]]: the positions at which the predicate holds, in
    ascending order. *)
Fixpoint np_where_from (p : Q -> bool) (xs : list Q) (i : nat) : list nat :=
  match xs with
  | [] => []
  | v :: rest =>
    if p v then i :: np_where_from p rest (S i) else np_where_from p rest (S i)
  end.

Definition np_where (p : Q -> bool) (xs : list Q) : list nat :=
  np_where_from p xs 0.

(** The slice [xs[i:j]] for [0 <= i], [0 <= j]. *)
Definition slice (xs : list Q) (i j : nat) : list Q :=
  firstn (j - i) (skipn i xs).

(** Python's [int(x)]: truncation towards zero. *)
Definition py_int (q : Q) : Z :=
  if Qltb q 0 then Qceiling q else Qfloor q.

(** Python's true division of floats. *)
Definition py_div (a b : Q) : result Q :=
  if Qeq_bool b 0 then Raise ZeroDivisionError else Ok (a / b).

Module Radar.

Inductive AnomalyType : Type :=
| METAL
| STONE
| VOID
| ORGANIC
| UNKNOWN.

Record AnomalyDetectionResult : Type := mkAnomaly {
  x : Q;
  y : Q;
  type : AnomalyType;
  confidence : Q;
  amplitude : Q;
  depth : Q
}.

(** One entry of the ['layers'] list of [analyze_depth_profile]. *)
Record Layer : Type := mkLayer {
  start_depth : Q;
  end_depth : Q;
  mean_amplitude : Q;
  std_amplitude : surd;
  thickness : Q
}.

(** The dictionary [analyze_depth_profile] returns. *)
Record LayerAnalysis : Type := mkLayerAnalysis {
  layers : list Layer;
  boundaries : list Q;
  total_depth : Q
}.

(** The parameters set by [RadarProcessor.__init__]. *)
Definition noise_threshold : Q := 0.1.
Definition signal_threshold : Q := 0.3.
Definition min_anomaly_separation : Q := 0.5.
Definition depth_resolution : Q := 0.1.
Definition frequency_band : Q * Q := (10, 1000).

(** [classify_anomaly(reflection_amplitude, signal_width, depth,
    surrounding_signals)]. *)
Definition classify_anomaly
  (reflection_amplitude signal_width depth : Q)
  (surrounding_signals : list Q) : AnomalyType * Q :=
  let abs_amplitude := Qabs reflection_amplitude in
  if Qltb 0.7 abs_amplitude && Qltb signal_width 5 then
    (METAL, py_min 0.95 abs_amplitude)
  else if (Qltb 0.3 abs_amplitude && Qltb abs_amplitude 0.7)
          && Qltb 8 signal_width then
    (STONE, py_min 0.85 (abs_amplitude * 1.1))
  else if (Qltb 0.2 abs_amplitude && Qltb abs_amplitude 0.5)
          && Qltb 10 signal_width then
    (ORGANIC, py_min 0.75 (abs_amplitude * 1.2))
  else if Qltb abs_amplitude 0.2
          && Qltb (inject_Z (Z.of_nat (length surrounding_signals)) * 0.7)
               (inject_Z (Z.of_nat (length
                  (filter (fun s => Qltb (Qabs s) 0.1) surrounding_signals))))
  then
    (VOID, 0.7)
  else
    (UNKNOWN, py_max 0.1 (abs_amplitude * 0.5)).

(** The first loop of [estimate_signal_width]:
    [while left_edge > 0 and abs(signal[left_edge]) > threshold:
       left_edge -= 1]. *)
Fixpoint left_walk (signal : list Q) (threshold : Q) (left_edge : nat) : nat :=
  match left_edge with
  | O => left_edge
  | S left_edge' =>
    if Qltb threshold (Qabs (nth left_edge signal 0))
    then left_walk signal threshold left_edge'
    else left_edge
  end.

(** The second loop of [estimate_signal_width]:
    [while right_edge < len(signal) - 1 and abs(signal[right_edge]) > threshold:
       right_edge += 1], run for at most [fuel] iterations. *)
Fixpoint right_walk (fuel : nat) (signal : list Q) (threshold : Q)
  (right_edge : nat) : nat :=
  match fuel with
  | O => right_edge
  | S fuel' =>
    if (Z.of_nat right_edge <? Z.of_nat (length signal) - 1)%Z
       && Qltb threshold (Qabs (nth right_edge signal 0))
    then right_walk fuel' signal threshold (S right_edge)
    else right_edge
  end.

(** [estimate_signal_width(signal, peak_idx, threshold_factor)]; the second
    loop advances [right_edge] at most [len(signal)] times. *)
Definition estimate_signal_width
  (signal : list Q) (peak_idx : nat) (threshold_factor : Q) : Z :=
  let peak_value := nth peak_idx signal 0 in
  let threshold := Qabs peak_value * threshold_factor in
  let left_edge := left_walk signal threshold peak_idx in
  let right_edge := right_walk (length signal) signal threshold peak_idx in
  (Z.of_nat right_edge - Z.of_nat left_edge)%Z.

(** The loop of [analyze_depth_profile] over the boundary indices, carrying
    [start_idx] and the layers emitted so far. *)
Fixpoint layer_loop (profile_array : list Q) (boundary_indices : list nat)
  (start_idx : nat) (acc : list Layer) : nat * list Layer :=
  match boundary_indices with
  | [] => (start_idx, acc)
  | boundary_idx :: rest =>
    if (5 <? Z.of_nat boundary_idx - Z.of_nat start_idx)%Z then
      let layer_data := slice profile_array start_idx boundary_idx in
      let layer_properties :=
        {| start_depth := inject_Z (Z.of_nat start_idx) * depth_resolution;
           end_depth := inject_Z (Z.of_nat boundary_idx) * depth_resolution;
           mean_amplitude := np_mean layer_data;
           std_amplitude := np_std layer_data;
           thickness :=
             inject_Z (Z.of_nat boundary_idx - Z.of_nat start_idx)
             * depth_resolution |} in
      layer_loop profile_array rest boundary_idx (acc ++ [layer_properties])
    else layer_loop profile_array rest start_idx acc
  end.

(** The boundary indices [np.where(abs_gradient > threshold)[0]] with
    [threshold = np.std(abs_gradient) * 1.5]. *)
Definition boundary_indices (abs_gradient : list Q) : list nat :=
  let threshold := surd_scale (np_std abs_gradient) 1.5 in
  np_where (fun g => Qgt_surd g threshold) abs_gradient.

(** [analyze_depth_profile(depth_profile)]. *)
Definition analyze_depth_profile (depth_profile : list Q)
  : result LayerAnalysis :=
  let profile_array := depth_profile in
  gradient ← np_gradient profile_array;
  let abs_gradient := map Qabs gradient in
  let bounds := boundary_indices abs_gradient in
  let '(start_idx, acc) := layer_loop profile_array bounds 0 [] in
  let n := length profile_array in
  let acc :=
    if (start_idx <? n)%nat then
      let layer_data := slice profile_array start_idx n in
      acc ++ [
        {| start_depth := inject_Z (Z.of_nat start_idx) * depth_resolution;
           end_depth := inject_Z (Z.of_nat n - 1) * depth_resolution;
           mean_amplitude := np_mean layer_data;
           std_amplitude := np_std layer_data;
           thickness :=
             inject_Z (Z.of_nat n - Z.of_nat start_idx) * depth_resolution |}]
    else acc in
  Ok {| layers := acc;
        boundaries :=
          map (fun idx => inject_Z (Z.of_nat idx) * depth_resolution) bounds;
        total_depth := inject_Z (Z.of_nat (length depth_profile))
                       * depth_resolution |}.

(** *** The functions that call SciPy *)

Section SciPy.

(** Filter coefficients [(b, a)] as [signal.butter] returns them. *)
Variable coefficients : Type.

(** [signal.butter(N, [low, high], btype='band', analog=False)]; it raises
    when it rejects the band. *)
Variable butter : nat -> Q * Q -> result coefficients.

(** [signal.filtfilt(b, a, x)]; it raises, for one, when [x] is shorter than
    its padding. *)
Variable filtfilt : coefficients -> list Q -> result (list Q).

(** [signal.savgol_filter(x, window_length, polyorder)]. *)
Variable savgol_filter : list Q -> nat -> nat -> result (list Q).

(** [signal.find_peaks(x, height=h, distance=d)[0]]: the peak positions. *)
Variable find_peaks : list Q -> Q -> Z -> list nat.

(** The [try: ... except Exception:] around the filter design and the
    zero-phase filtering. *)
Definition bandpass_or_original
  (low_freq high_freq : Q) (signal_array : list Q) : list Q :=
  match (ba ← butter 4 (low_freq, high_freq); filtfilt ba signal_array) with
  | Ok filtered_signal => filtered_signal
  | Raise _ => signal_array
  end.

(** The clamped and ordered normalized cutoffs. *)
Definition cutoffs (nyquist : Q) : result (Q * Q) :=
  low ← py_div (fst frequency_band) nyquist;
  let low_freq := py_max 0.01 (py_min 0.99 low) in
  high ← py_div (snd frequency_band) nyquist;
  let high_freq := py_max 0.01 (py_min 0.99 high) in
  if Qle_bool high_freq low_freq then Ok (0.01, 0.99)
  else Ok (low_freq, high_freq).

(** The Savitzky-Golay pass at the end of [preprocess_signal]. *)
Definition smooth (filtered_signal : list Q) : result (list Q) :=
  if (5 <? length filtered_signal)%nat then
    let window_length := Nat.min 5 (length filtered_signal) in
    let window_length :=
      if (window_length mod 2 =? 0)%nat then (window_length - 1)%nat
      else window_length in
    let window_length :=
      if (window_length <? 3)%nat then 3%nat else window_length in
    if (window_length <=? length filtered_signal)%nat
    then savgol_filter filtered_signal window_length 3
    else Ok filtered_signal
  else Ok filtered_signal.

(** [preprocess_signal(raw_signal, sampling_rate)]. *)
Definition preprocess_signal (raw_signal : list Q) (sampling_rate : Q)
  : result (list Q) :=
  let signal_array := raw_signal in
  if (length signal_array <? 3)%nat then Ok signal_array
  else
    let nyquist := sampling_rate / 2 in
    '(low_freq, high_freq) ← cutoffs nyquist;
    let filtered_signal :=
      if (8 <? length signal_array)%nat
      then bandpass_or_original low_freq high_freq signal_array
      else signal_array in
    smooth filtered_signal.

(** Conditioning as the spec words it: profiles of length at most 3 pass
    through, every longer one is band-pass filtered (falling back to the
    unfiltered signal when filtering fails), and the smoothing pass follows
    for lengths above 5. *)
Definition preprocess_signal_spec (raw_signal : list Q) (sampling_rate : Q)
  : result (list Q) :=
  if (length raw_signal <=? 3)%nat then Ok raw_signal
  else
    '(low_freq, high_freq) ← cutoffs (sampling_rate / 2);
    smooth (bandpass_or_original low_freq high_freq raw_signal).

(** [detect_reflections(processed_signal)]. *)
Definition detect_reflections (processed_signal : list Q) : list (nat * Q) :=
  let peaks :=
    find_peaks (map Qabs processed_signal) signal_threshold
      (py_int (min_anomaly_separation / depth_resolution)) in
  map (fun peak_idx => (peak_idx, nth peak_idx processed_signal 0)) peaks.

(** The body of the loop of [detect_anomalies] for one reflection. *)
Definition anomaly_of_reflection (processed_signal : list Q)
  (x_position y_position : Q) (reflection : nat * Q)
  : AnomalyDetectionResult :=
  let '(idx, amplitude) := reflection in
  let signal_width := estimate_signal_width processed_signal idx 0.5 in
  let depth := inject_Z (Z.of_nat idx) * depth_resolution in
  let start_idx := Z.to_nat (Z.max 0 (Z.of_nat idx - 10)) in
  let end_idx := Nat.min (length processed_signal) (idx + 10) in
  let surrounding_signals := slice processed_signal start_idx end_idx in
  let '(anomaly_type, confidence) :=
    classify_anomaly amplitude (inject_Z signal_width) depth
      surrounding_signals in
  {| x := x_position;
     y := y_position;
     type := anomaly_type;
     confidence := confidence;
     amplitude := amplitude;
     depth := depth |}.

(** [detect_anomalies(depth_profile, x_position, y_position)]; it conditions
    the profile at the default sampling rate of 1000. *)
Definition detect_anomalies (depth_profile : list Q)
  (x_position y_position : Q) : result (list AnomalyDetectionResult) :=
  match depth_profile with
  | [] => Ok []
  | _ =>
    processed_signal ← preprocess_signal depth_profile 1000;
    let reflections := detect_reflections processed_signal in
    Ok (map (anomaly_of_reflection processed_signal x_position y_position)
          reflections)
  end.

End SciPy.

(** *** What a partition into layers is *)

(** The depth of sample [i]. *)
Definition depth_of (i : nat) : Q := inject_Z (Z.of_nat i) * depth_resolution.

(** Each layer ends where the next one starts. *)
Fixpoint contiguous (ls : list Layer) : Prop :=
  match ls with
  | a :: ((b :: _) as rest) => end_depth a = start_depth b /\ contiguous rest
  | _ => True
  end.

(** [chain acc s]: the layers [acc] emitted so far start at depth 0, each
    spans a non-empty index range, each starts where its predecessor ends,
    and the last one ends at sample [s], the current [start_idx]. *)
Inductive chain : list Layer -> nat -> Prop :=
| chain_nil : chain [] 0
| chain_snoc (acc : list Layer) (s b : nat) (l : Layer) :
    chain acc s -> (s < b)%nat ->
    start_depth l = depth_of s -> end_depth l = depth_of b ->
    chain (acc ++ [l]) b.

(** [covered acc s]: the layers [acc] emitted so far cover the samples
    before [s] without a gap.  The first one starts at sample 0; each spans
    more than five samples, from where its predecessor ended; and its two
    depths and its thickness are its two sample indices and the number of
    samples it spans, each multiplied by the depth resolution. *)
Inductive covered : list Layer -> nat -> Prop :=
| covered_nil : covered [] 0
| covered_snoc (acc : list Layer) (s b : nat) (l : Layer) :
    covered acc s -> (5 < Z.of_nat b - Z.of_nat s)%Z ->
    start_depth l = inject_Z (Z.of_nat s) * depth_resolution ->
    end_depth l = inject_Z (Z.of_nat b) * depth_resolution ->
    thickness l = inject_Z (Z.of_nat b - Z.of_nat s) * depth_resolution ->
    covered (acc ++ [l]) b.

(** *** Stand-ins for SciPy

    Simple total functions of the right types, used to run the functions
    above on concrete profiles: a filter design that accepts every band, a
    zero-phase "filter" that removes the mean (the DC component a band-pass
    rejects) and, as [signal.filtfilt] does with the padding of 27 samples
    this filter needs, raises on a signal of 27 samples or fewer, a
    smoothing pass that returns its input, and a peak finder that reports
    the interior samples that exceed both neighbours and the height. *)

Definition accept_band (order : nat) (band : Q * Q) : result unit := Ok tt.

Definition remove_mean (ba : unit) (xs : list Q) : result (list Q) :=
  if (27 <? length xs)%nat
  then Ok (map (fun v => Qred (v - np_mean xs)) xs)
  else Raise ValueError.

Definition no_smoothing (xs : list Q) (window_length polyorder : nat)
  : result (list Q) := Ok xs.

Fixpoint interior_maxima_from (xs : list Q) (height : Q) (i : nat) : list nat :=
  match xs with
  | a :: ((b :: c :: _) as rest) =>
    if Qltb a b && Qltb c b && Qle_bool height b
    then S i :: interior_maxima_from rest height (S i)
    else interior_maxima_from rest height (S i)
  | _ => []
  end.

Definition interior_maxima (xs : list Q) (height : Q) (distance : Z)
  : list nat := interior_maxima_from xs height 0.

End Radar.

(** ** Spectral feature extraction (material_classification.py) *)

(** [np.max] and [np.min]; NumPy raises [ValueError] on an empty array. *)
Definition np_max (xs : list Q) : result Q :=
  match xs with
  | [] => Raise ValueError
  | v :: rest => Ok (fold_left py_max rest v)
  end.

Definition np_min (xs : list Q) : result Q :=
  match xs with
  | [] => Raise ValueError
  | v :: rest => Ok (fold_left py_min rest v)
  end.

(** Sorting, for [np.median]. *)
Fixpoint insert_sorted (v : Q) (xs : list Q) : list Q :=
  match xs with
  | [] => [v]
  | h :: t => if Qle_bool v h then v :: xs else h :: insert_sorted v t
  end.

Definition sort_ascending (xs : list Q) : list Q :=
  fold_right insert_sorted [] xs.

(** [np.median]: the middle element of the sorted array, or the mean of
    the two middle elements. *)
Definition np_median (xs : list Q) : Q :=
  let sorted := sort_ascending xs in
  let n := length xs in
  if Nat.even n
  then (nth (n / 2 - 1) sorted 0 + nth (n / 2) sorted 0) / 2
  else nth (n / 2) sorted 0.

(** The boolean-mask index [xs[mask]]; NumPy raises [IndexError] when the
    mask and the array differ in length. *)
Fixpoint select_masked (xs : list Q) (mask : list bool) : list Q :=
  match xs, mask with
  | v :: xs', m :: mask' =>
    if m then v :: select_masked xs' mask' else select_masked xs' mask'
  | _, _ => []
  end.

Definition boolean_index (xs : list Q) (mask : list bool) : result (list Q) :=
  if (length xs =? length mask)%nat then Ok (select_masked xs mask)
  else Raise IndexError.

(** [np.any]. *)
Definition np_any (mask : list bool) : bool := existsb id mask.

(** NumPy's float division: dividing by zero yields an infinity or NaN
    (with a warning, which the module silences), not an exception. *)
Definition np_divide (a b : Q) : pyfloat :=
  if Qeq_bool b 0 then
    if Qltb 0 a then PosInf else if Qltb a 0 then NegInf else NaN
  else Finite (a / b).

Module Spectral.

(** One entry of the feature vector: a float, or the square root that
    [np.std] returns. *)
Inductive feature : Type :=
| FNum (v : pyfloat)
| FRoot (s : surd).

Definition feature_of_Q (q : Q) : feature := FNum (Finite q).

(** Whether a feature is zero. *)
Definition is_zero (f : feature) : bool :=
  match f with
  | FNum (Finite q) => Qeq_bool q 0
  | FNum _ => false
  | FRoot s => Qeq_bool (surd_coef s) 0 || Qeq_bool (surd_rad s) 0
  end.

Open Scope string_scope.

(** The wavelength bands of [self.reference_signatures], per material in the
    order of the source; the ['overall_shape'] entries, which hold a string
    and are never read, are left out. *)
Definition reference_signatures : list (string * gmap string (Q * Q)) := [
  ("metal", {[ "fe_peak" := (290, 310); "cu_peak" := (650, 670) ]});
  ("ceramic", {[ "si_peak" := (900, 1000); "al_peak" := (450, 470) ]});
  ("organic", {[ "ch_peak" := (1600, 1700); "oh_peak" := (3200, 3600) ]});
  ("stone", {[ "ca_co3" := (1400, 1500); "si_o" := (1000, 1200) ]})
].

Close Scope string_scope.

(** [find_peaks(intensities, threshold)]. *)
Definition find_peaks (intensities : list Q) (threshold : Q) : list nat :=
  filter
    (fun i =>
       Qltb (nth (i - 1) intensities 0) (nth i intensities 0)
       && Qltb (nth (i + 1) intensities 0) (nth i intensities 0)
       && Qltb threshold (nth i intensities 0))
    (seq 1 (length intensities - 2)).

(** [get_peak_intensity(wavelengths, intensities, start, end)]. *)
Definition get_peak_intensity (wavelengths intensities : list Q)
  (band_start band_end : Q) : result Q :=
  let mask :=
    map (fun w => Qle_bool band_start w && Qle_bool w band_end) wavelengths in
  if np_any mask then
    selected ← boolean_index intensities mask;
    np_max selected
  else Ok 0.

(** The feature for one band key of one signature: the peak intensity in
    the band when the signature has the key, and 0 otherwise. *)
Definition band_feature (wavelengths intensities : list Q)
  (signature : gmap string (Q * Q)) (key : string) : result Q :=
  match signature !! key with
  | Some (band_start, band_end) =>
    get_peak_intensity wavelengths intensities band_start band_end
  | None => Ok 0
  end.

(** The loop of [extract_material_features] over the signatures. *)
Fixpoint material_features_loop (wavelengths intensities : list Q)
  (signatures : list (string * gmap string (Q * Q))) (features : list Q)
  : result (list Q) :=
  match signatures with
  | [] => Ok features
  | (mat_type, signature) :: rest =>
    fe_intensity ← band_feature wavelengths intensities signature "fe_peak";
    si_intensity ← band_feature wavelengths intensities signature "si_peak";
    ch_intensity ← band_feature wavelengths intensities signature "ch_peak";
    material_features_loop wavelengths intensities rest
      (features ++ [fe_intensity; si_intensity; ch_intensity])
  end.

(** [extract_material_features(wavelengths, intensities)]. *)
Definition extract_material_features (wavelengths intensities : list Q)
  : result (list Q) :=
  features ← material_features_loop wavelengths intensities
               reference_signatures [];
  Ok (firstn 9 features).

(** The normalization of the intensities to the range 0 to 1. *)
Definition normalize (intensities : list Q) : result (list Q) :=
  hi ← np_max intensities;
  lo ← np_min intensities;
  if negb (Qeq_bool hi lo)
  then Ok (map (fun v => (v - lo) / (hi - lo)) intensities)
  else Ok (map (fun _ => 0) intensities).

(** [preprocess_spectrum(wavelengths, intensities)]: the feature vector. *)
Definition preprocess_spectrum (wavelengths intensities : list Q)
  : result (list feature) :=
  intensities ← normalize intensities;
  hi ← np_max intensities;
  lo ← np_min intensities;
  let statistics := [
    feature_of_Q (np_mean intensities);
    FRoot (np_std intensities);
    feature_of_Q hi;
    feature_of_Q lo;
    feature_of_Q (np_median intensities) ] in
  let peaks := find_peaks intensities 0.3 in
  let positions := map (fun i => inject_Z (Z.of_nat i)) peaks in
  let peak_features := [
    feature_of_Q (inject_Z (Z.of_nat (length peaks)));
    match peaks with [] => feature_of_Q 0 | _ => feature_of_Q (np_mean positions) end;
    match peaks with [] => feature_of_Q 0 | _ => FRoot (np_std positions) end ] in
  let slope :=
    if (1 <? length wavelengths)%nat
    then FNum (np_divide (List.last intensities 0 - List.hd 0 intensities)
                         (List.last wavelengths 0 - List.hd 0 wavelengths))
    else feature_of_Q 0 in
  material_features ← extract_material_features wavelengths intensities;
  Ok (statistics ++ peak_features ++ [slope]
      ++ map feature_of_Q material_features).

(** Whether some wavelength lies in one of the bands the material features
    read ([fe_peak], [si_peak], [ch_peak]). *)
Definition in_signature_band (w : Q) : bool :=
  (Qle_bool 290 w && Qle_bool w 310)
  || (Qle_bool 900 w && Qle_bool w 1000)
  || (Qle_bool 1600 w && Qle_bool w 1700).

End Spectral.

(** ** Broadcast hub (websocket.py) *)

Module Hub.

(** A WebSocket connection, known to the hub by its identity. *)
Definition WebSocket : Type := nat.

(** An asyncio event loop, as far as dispatch can tell loops apart: running,
    created but not running, or closed. *)
Inductive EventLoop : Type :=
| RunningLoop
| IdleLoop
| ClosedLoop.

(** What the hub writes to its logger. *)
Inductive log_record : Type :=
| InfoConnected (active : nat)
| InfoDisconnected (active : nat)
| InfoAttempting (clients : nat)
| WarningSendFailed (e : exn)
| InfoCompleted (successful_sends clients : nat)
| ErrorNoEventLoop
| InfoSentFromThread
| ErrorSendFromThread (e : exn).

(** What the completion of a dispatched broadcast looks like from the
    calling thread: it completes or fails after some seconds, or never. *)
Inductive dispatch_outcome : Type :=
| Completes (seconds : Q)
| Fails (e : exn) (seconds : Q)
| Never.

Section Manager.

(** The dictionaries a payload carries. *)
Variable pydict : Type.

(** The pydantic model [SensorData]. *)
Record SensorData : Type := mkSensorData {
  timestamp : Z;
  sensors : pydict;
  spectrometer : pydict;
  radar : pydict;
  camera : pydict
}.

(** [ConnectionManager]; the handle of the background task is kept as a
    flag. *)
Record ConnectionManager : Type := mkManager {
  active_connections : gset WebSocket;
  buffer_size : nat;
  message_buffer : list SensorData;
  is_broadcasting : bool;
  broadcast_task : bool;
  loop : option EventLoop
}.

(** The world outside the hub: every [send_text] call made, with its
    outcome, and the log. *)
Record World : Type := mkWorld {
  transcript : list (WebSocket * string * result unit);
  log : list log_record
}.

Definition logged (w : World) (r : log_record) : World :=
  {| transcript := transcript w; log := log w ++ [r] |}.

Definition sent (w : World) (connection : WebSocket) (message : string)
  (outcome : result unit) : World :=
  {| transcript := transcript w ++ [(connection, message, outcome)];
     log := log w |}.

(** [connection.send_text(message)]: whether the transport delivers. *)
Variable send_text : WebSocket -> string -> result unit.

(** The connections whose send of [message] succeeds, and those whose send
    raises. *)
Definition delivers (message : string) (c : WebSocket) : Prop :=
  returns (send_text c message) = true.

Definition fails (message : string) (c : WebSocket) : Prop :=
  returns (send_text c message) = false.

#[global] Instance delivers_dec message c : Decision (delivers message c).
Proof. unfold delivers. apply _. Defined.

#[global] Instance fails_dec message c : Decision (fails message c).
Proof. unfold fails. apply _. Defined.

(** [json.dumps]: it raises [TypeError] on a value it cannot serialize. *)
Variable json_dumps : SensorData -> result string.

(** [asyncio.get_event_loop_policy().get_event_loop()] in the calling
    thread. *)
Variable policy_get_event_loop : result EventLoop.

(** How the broadcast handed to a running loop ends. *)
Variable dispatched : dispatch_outcome.

(** [ConnectionManager()] constructed outside a running loop. *)
Definition init : ConnectionManager :=
  {| active_connections := ∅;
     buffer_size := 100;
     message_buffer := [];
     is_broadcasting := false;
     broadcast_task := false;
     loop := None |}.

(** [connect(websocket)], run inside the event loop [running], once
    [websocket.accept()] has returned. *)
Definition connect (self : ConnectionManager) (w : World)
  (websocket : WebSocket) (running : EventLoop) : ConnectionManager * World :=
  let active := {[websocket]} ∪ active_connections self in
  ({| active_connections := active;
      buffer_size := buffer_size self;
      message_buffer := message_buffer self;
      is_broadcasting := is_broadcasting self;
      broadcast_task := broadcast_task self;
      loop := Some running |},
   logged w (InfoConnected (size active))).

(** [disconnect(websocket)]. *)
Definition disconnect (self : ConnectionManager) (w : World)
  (websocket : WebSocket) : ConnectionManager * World :=
  let active := active_connections self ∖ {[websocket]} in
  ({| active_connections := active;
      buffer_size := buffer_size self;
      message_buffer := message_buffer self;
      is_broadcasting := is_broadcasting self;
      broadcast_task := broadcast_task self;
      loop := loop self |},
   logged w (InfoDisconnected (size active))).

(** One iteration of the delivery loop of [broadcast]. *)
Definition deliver (message : string)
  (st : gset WebSocket * nat * World) (connection : WebSocket)
  : gset WebSocket * nat * World :=
  let '(disconnected_clients, successful_sends, w) := st in
  match send_text connection message with
  | Ok tt =>
    (disconnected_clients, S successful_sends,
     sent w connection message (Ok tt))
  | Raise WebSocketDisconnect =>
    ({[connection]} ∪ disconnected_clients, successful_sends,
     sent w connection message (Raise WebSocketDisconnect))
  | Raise e =>
    ({[connection]} ∪ disconnected_clients, successful_sends,
     logged (sent w connection message (Raise e)) (WarningSendFailed e))
  end.

(** The clean-up loop of [broadcast]. *)
Definition drop (st : ConnectionManager * World) (client : WebSocket)
  : ConnectionManager * World :=
  disconnect (fst st) (snd st) client.

(** [broadcast(message)]: the delivery loop runs over a copy of the active
    set. *)
Definition broadcast (self : ConnectionManager) (w : World) (message : string)
  : ConnectionManager * World :=
  let w := logged w (InfoAttempting (size (active_connections self))) in
  let '(disconnected_clients, successful_sends, w) :=
    fold_left (deliver message) (elements (active_connections self))
      (∅, 0%nat, w) in
  let '(self, w) :=
    fold_left drop (elements disconnected_clients) (self, w) in
  (self,
   logged w (InfoCompleted successful_sends (size (active_connections self)))).

(** [add_to_buffer(data)]. *)
Definition add_to_buffer (self : ConnectionManager) (data : SensorData)
  : ConnectionManager :=
  let buffer := message_buffer self ++ [data] in
  let buffer :=
    if (buffer_size self <? length buffer)%nat then tl buffer else buffer in
  {| active_connections := active_connections self;
     buffer_size := buffer_size self;
     message_buffer := buffer;
     is_broadcasting := is_broadcasting self;
     broadcast_task := broadcast_task self;
     loop := loop self |}.

(** [send_sensor_data(data)]. *)
Definition send_sensor_data (self : ConnectionManager) (w : World)
  (data : SensorData) : result (ConnectionManager * World) :=
  let json_data := data in
  message ← json_dumps json_data;
  let '(self, w) := broadcast self w message in
  Ok (add_to_buffer self json_data, w).

(** [asyncio.run_coroutine_threadsafe(coro, loop)]: a closed loop refuses
    the callback. *)
Definition run_coroutine_threadsafe (target : EventLoop) : result unit :=
  match target with
  | ClosedLoop => Raise RuntimeError
  | _ => Ok tt
  end.

(** [future.result(timeout)]: the outcome of the wait and the seconds the
    calling thread was blocked.  Only a running loop runs the coroutine, and
    the wait gives up after [timeout] seconds. *)
Definition future_result (target : EventLoop) (timeout : Q) : result unit * Q :=
  match target, dispatched with
  | RunningLoop, Completes seconds =>
    if Qle_bool seconds timeout then (Ok tt, seconds)
    else (Raise TimeoutError, timeout)
  | RunningLoop, Fails e seconds =>
    if Qle_bool seconds timeout then (Raise e, seconds)
    else (Raise TimeoutError, timeout)
  | _, _ => (Raise TimeoutError, timeout)
  end.

(** How a call made from a worker thread ends: the exception it raised, if
    any, the state and the world it leaves, and the seconds it blocked. *)
Record thread_call : Type := mkThreadCall {
  raised : option exn;
  manager : ConnectionManager;
  world : World;
  blocked : Q
}.

(** The assignment [self.loop = l]. *)
Definition with_loop (self : ConnectionManager) (l : EventLoop)
  : ConnectionManager :=
  {| active_connections := active_connections self;
     buffer_size := buffer_size self;
     message_buffer := message_buffer self;
     is_broadcasting := is_broadcasting self;
     broadcast_task := broadcast_task self;
     loop := Some l |}.

(** The statements of [send_sensor_data_from_thread] after the loop
    reference is known to be [target]. *)
Definition dispatch_from_thread (self : ConnectionManager) (w : World)
  (data : SensorData) (target : EventLoop) : thread_call :=
  let json_data := data in
  match json_dumps json_data with
  | Raise e => {| raised := Some e; manager := self; world := w; blocked := 0 |}
  | Ok message =>
    match run_coroutine_threadsafe target with
    | Raise e =>
      {| raised := Some e; manager := self; world := w; blocked := 0 |}
    | Ok tt =>
      match future_result target 1 with
      | (Ok tt, seconds) =>
        let '(self, w) := broadcast self w message in
        {| raised := None; manager := self;
           world := logged w InfoSentFromThread; blocked := seconds |}
      | (Raise e, seconds) =>
        {| raised := None; manager := self;
           world := logged w (ErrorSendFromThread e); blocked := seconds |}
      end
    end
  end.

(** [send_sensor_data_from_thread(data)]. *)
Definition send_sensor_data_from_thread (self : ConnectionManager) (w : World)
  (data : SensorData) : thread_call :=
  match loop self with
  | Some target => dispatch_from_thread self w data target
  | None =>
    match policy_get_event_loop with
    | Ok target => dispatch_from_thread (with_loop self target) w data target
    | Raise RuntimeError =>
      {| raised := None; manager := self;
         world := logged w ErrorNoEventLoop; blocked := 0 |}
    | Raise e =>
      {| raised := Some e; manager := self; world := w; blocked := 0 |}
    end
  end.

(** The buffer holds at most its capacity of 100. *)
Definition bounded (self : ConnectionManager) : Prop :=
  buffer_size self = 100%nat /\ (length (message_buffer self) <= 100)%nat.

(** The operations a caller can apply to the hub. *)
Inductive operation : Type :=
| Connect (websocket : WebSocket) (running : EventLoop)
| Disconnect (websocket : WebSocket)
| Broadcast (message : string)
| AddToBuffer (data : SensorData)
| SendSensorData (data : SensorData)
| SendSensorDataFromThread (data : SensorData).

(** One operation; an operation that raises leaves the state it had
    reached. *)
Definition apply (st : ConnectionManager * World) (op : operation)
  : ConnectionManager * World :=
  let '(self, w) := st in
  match op with
  | Connect websocket running => connect self w websocket running
  | Disconnect websocket => disconnect self w websocket
  | Broadcast message => broadcast self w message
  | AddToBuffer data => (add_to_buffer self data, w)
  | SendSensorData data =>
    match send_sensor_data self w data with
    | Ok st' => st'
    | Raise _ => st
    end
  | SendSensorDataFromThread data =>
    let r := send_sensor_data_from_thread self w data in
    (manager r, world r)
  end.

(** The state after a sequence of operations on a fresh hub. *)
Definition run (ops : list operation) : ConnectionManager * World :=
  fold_left apply ops (init, {| transcript := []; log := [] |}).

End Manager.

(** *** Stand-ins for the transport and the serializer

    Used to run the hub on concrete states: a transport on which every send
    succeeds, one on which the odd-numbered connections have gone away, a
    serializer that accepts every payload, and payloads that carry only a
    timestamp. *)

Definition always_delivers (connection : WebSocket) (message : string)
  : result unit := Ok tt.

Definition odd_disconnected (connection : WebSocket) (message : string)
  : result unit :=
  if Nat.odd connection then Raise WebSocketDisconnect else Ok tt.

Definition frame (t : Z) : SensorData unit := mkSensorData unit t tt tt tt tt.

Definition serialize (data : SensorData unit) : result string :=
  Ok "frame"%string.

Definition quiet : World := {| transcript := []; log := [] |}.

End Hub.

(** ** The preservation report and the preservation index *)

Module Report.
Import Preservation.

(** The dictionary [calculate_preservation_report] returns; [materials]
    lists the entries in the order they are inserted. *)
Record PreservationReport : Type := mkReport {
  water_preservation : Q;
  materials : list (string * Q);
  final_preservation : Q;
  sensor_readings : Q * Q * Q
}.

(** [x if not (math.isnan(x) or math.isinf(x)) else d]. *)
Definition finite_or (x : pyfloat) (d : Q) : Q :=
  if negb (isnan x || isinf x)
  then match x with Finite q => q | _ => d end
  else d.

(** [calculate_preservation_report(sensor_data)]; the loop runs over the
    items of [material_database] in insertion order, and the checks for a
    NaN or infinite result, which a finite number never meets, are left
    out. *)
Definition calculate_preservation_report (sensor_data : SensorData)
  : PreservationReport :=
  let materials :=
    map (fun item : string * material_props =>
           (fst item, calculate_material_preservation (fst item) sensor_data))
        material_table in
  let material_preservations := map snd materials in
  let water_preservation := calculate_water_preservation sensor_data in
  let final_preservation :=
    match material_preservations with
    | [] => 100
    | _ => Qsum material_preservations
           / inject_Z (Z.of_nat (length material_preservations))
    end in
  {| water_preservation := water_preservation;
     materials := materials;
     final_preservation := py_round2 final_preservation;
     sensor_readings :=
       (finite_or (turbidity sensor_data) 0,
        finite_or (temperature sensor_data) 20,
        finite_or (tds sensor_data) 0) |}.

(** The score of a material whose thresholds are exceeded as the three
    flags say. *)
Definition penalised (props : material_props)
  (turbid warm saline : bool) : Q :=
  base_survival props
  - (if turbid then turbidity_penalty props else 0)
  - (if warm then temperature_penalty props else 0)
  - (if saline then tds_penalty props else 0).

(** Whether the entry holds whole numbers, a base of at most 100 and
    penalties that are not negative. *)
Definition well_formed (props : material_props) : bool :=
  forallb (fun q => Pos.eqb (Qden q) 1)
    [base_survival props; turbidity_penalty props;
     temperature_penalty props; tds_penalty props]
  && Qle_bool (base_survival props) 100
  && Qle_bool 0 (turbidity_penalty props)
  && Qle_bool 0 (temperature_penalty props)
  && Qle_bool 0 (tds_penalty props).

End Report.

(** [calculate_preservation_index] and its companions
    (preservation_index.py). *)
Module Index.

(** The normalized scores the function returns beside the percentage. *)
Record scores : Type := mkScores {
  temperature_score : Q;
  tds_score : Q;
  turbidity_score : Q;
  depth_score : Q;
  ph_score : Q
}.

(** The [weights] dictionary, in the order of the source. *)
Definition weights : list (string * Q) := [
  ("temperature"%string, -0.3);
  ("tds"%string, -0.25);
  ("turbidity"%string, -0.15);
  ("depth"%string, 0.2);
  ("ph"%string, 0.1)
].

(** [normalized_scores[factor]]. *)
Definition score_of (s : scores) (factor : string) : Q :=
  if String.eqb factor "temperature" then temperature_score s
  else if String.eqb factor "tds" then tds_score s
  else if String.eqb factor "turbidity" then turbidity_score s
  else if String.eqb factor "depth" then depth_score s
  else ph_score s.

(** [calculate_preservation_index(temperature, tds, turbidity, depth, ph)]. *)
Definition calculate_preservation_index
  (temperature tds turbidity depth ph : Q) : Q * scores :=
  let temp_score :=
    py_max 0 (py_min 1 ((30 - Qabs (temperature - 10)) / 20)) in
  let tds_score := py_max 0 (py_min 1 ((2500 - tds) / 2000)) in
  let turbidity_score := py_max 0 (py_min 1 ((100 - turbidity) / 95)) in
  let depth_score := py_min 1 ((depth + 10) / 50) in
  let ph_score := py_max 0 (py_min 1 ((1.5 - Qabs (ph - 7.0)) / 1.5)) in
  let normalized_scores :=
    {| temperature_score := temp_score;
       tds_score := tds_score;
       turbidity_score := turbidity_score;
       depth_score := depth_score;
       ph_score := ph_score |} in
  let weighted_sum :=
    fold_left
      (fun acc item => acc + score_of normalized_scores (fst item)
                             * Qabs (snd item))
      weights 0 in
  let preservation_percentage := py_max 0 (py_min 100 (weighted_sum * 100)) in
  (preservation_percentage, normalized_scores).

(** [get_preservation_recommendations(preservation_percentage)]. *)
Definition get_preservation_recommendations (preservation_percentage : Q)
  : list string :=
  if Qle_bool 80 preservation_percentage then
    ["Excellent preservation conditions detected";
     "Objects likely to maintain structural integrity";
     "Standard monitoring protocols sufficient"]%string
  else if Qle_bool 60 preservation_percentage then
    ["Good preservation conditions";
     "Minor degradation possible over long periods";
     "Regular monitoring recommended"]%string
  else if Qle_bool 40 preservation_percentage then
    ["Moderate preservation risk";
     "Increased degradation rate possible";
     "Enhanced protective measures advised";
     "More frequent condition assessments needed"]%string
  else
    ["Poor preservation conditions detected";
     "Significant degradation risk";
     "Immediate protective interventions required";
     "Consider relocation to controlled environment"]%string.

End Index.

(** ** Scans of several profiles (radar_processing.py) *)

Module RadarScan.
Import Radar.

(** The [radar_data] dictionary: both keys may be missing. *)
Record radar_data : Type := mkRadarData {
  depth_profile : option (list (list Q));
  coordinates : option (list (Q * Q))
}.

(** One entry of ['layer_analysis']: the analysis of a profile with the
    ['position'] added to it. *)
Record positioned_layers : Type := mkPositioned {
  analysis : LayerAnalysis;
  position : Q * Q
}.

(** The ['scan_area'] dictionary. *)
Record area : Type := mkArea {
  min_x : Q;
  max_x : Q;
  min_y : Q;
  max_y : Q
}.

(** The dictionary [process_radar_scan] returns. *)
Record scan : Type := mkScan {
  anomalies : list AnomalyDetectionResult;
  layer_analysis : list positioned_layers;
  total_anomalies_detected : nat;
  scan_area : area
}.

(** [list.sort(key=lambda a: a.confidence, reverse=True)]: a stable sort
    into descending confidence. *)
Fixpoint insert_by_confidence (a : AnomalyDetectionResult)
  (sorted : list AnomalyDetectionResult) : list AnomalyDetectionResult :=
  match sorted with
  | [] => [a]
  | h :: t =>
    if Qle_bool (confidence h) (confidence a) then a :: sorted
    else h :: insert_by_confidence a t
  end.

Definition sort_by_confidence (l : list AnomalyDetectionResult)
  : list AnomalyDetectionResult :=
  fold_right insert_by_confidence [] l.

(** [min(xs) if xs else 0] and [max(xs) if xs else 0]. *)
Definition min_or_zero (xs : list Q) : Q :=
  match xs with
  | [] => 0
  | v :: rest => fold_left py_min rest v
  end.

Definition max_or_zero (xs : list Q) : Q :=
  match xs with
  | [] => 0
  | v :: rest => fold_left py_max rest v
  end.

Section SciPy.

Variable coefficients : Type.
Variable butter : nat -> Q * Q -> result coefficients.
Variable filtfilt : coefficients -> list Q -> result (list Q).
Variable savgol_filter : list Q -> nat -> nat -> result (list Q).
Variable find_peaks : list Q -> Q -> Z -> list nat.

(** The position of profile [i]: its coordinate when there is one, and the
    default spacing otherwise. *)
Definition position_of (coords : list (Q * Q)) (i : nat) : Q * Q :=
  match nth_error coords i with
  | Some xy => xy
  | None => (inject_Z (Z.of_nat i) * 0.1, 0)
  end.

(** The loop of [process_radar_scan] over the profiles from index [i] on,
    carrying the anomalies and the layer analyses collected so far. *)
Fixpoint scan_loop (coords : list (Q * Q)) (profiles : list (list Q))
  (i : nat) (all_anomalies : list AnomalyDetectionResult)
  (layers_so_far : list positioned_layers)
  : result (list AnomalyDetectionResult * list positioned_layers) :=
  match profiles with
  | [] => Ok (all_anomalies, layers_so_far)
  | profile :: rest =>
    let '(x, y) := position_of coords i in
    profile_anomalies ←
      detect_anomalies coefficients butter filtfilt savgol_filter find_peaks
        profile x y;
    layer_info ← analyze_depth_profile profile;
    scan_loop coords rest (S i) (all_anomalies ++ profile_anomalies)
      (layers_so_far ++ [ {| analysis := layer_info; position := (x, y) |} ])
  end.

(** [process_radar_scan(radar_data)]. *)
Definition process_radar_scan (data : radar_data) : result scan :=
  let depth_profiles := default [] (depth_profile data) in
  let coords := default [] (coordinates data) in
  let coords :=
    match coords with
    | [] => map (fun i => (inject_Z (Z.of_nat i) * 0.1, 0))
              (seq 0 (length depth_profiles))
    | _ => coords
    end in
  '(all_anomalies, layers_found) ← scan_loop coords depth_profiles 0 [] [];
  let all_anomalies := sort_by_confidence all_anomalies in
  Ok {| anomalies := all_anomalies;
        layer_analysis := layers_found;
        total_anomalies_detected := length all_anomalies;
        scan_area :=
          {| min_x := min_or_zero (map x all_anomalies);
             max_x := max_or_zero (map x all_anomalies);
             min_y := min_or_zero (map y all_anomalies);
             max_y := max_or_zero (map y all_anomalies) |} |}.

End SciPy.

End RadarScan.

(** ** The preservation index over several readings (preservation_index.py) *)

Module MultiPoint.
Import Index.

(** One sensor reading: a dictionary that may hold a ['sensors'] dictionary
    of values and a ['timestamp']. *)
Record reading : Type := mkReading {
  sensors : option (gmap string Q);
  timestamp : option Z
}.

(** The ['averages'] dictionary. *)
Record averages : Type := mkAverages {
  avg_temperature : Q;
  avg_tds : Q;
  avg_turbidity : Q;
  avg_depth : Q;
  avg_ph : Q
}.

(** The dictionary [calculate_multi_point_preservation] returns; for the
    empty list ['factors'] is empty and ['averages'] is missing. *)
Record summary : Type := mkSummary {
  preservation_percentage : Q;
  factors : option scores;
  averages_used : option averages;
  readings_used : nat;
  timestamp_range : option (Z * Z)
}.

(** The values collected under one key, in the order of the readings. *)
Definition sensor_values (key : string) (sensor_readings : list reading)
  : list Q :=
  omap (fun r => s ← sensors r; s !! key) sensor_readings.

(** [sum(values) / len(values) if values else d]. *)
Definition mean_or (values : list Q) (d : Q) : Q :=
  match values with
  | [] => d
  | _ => fold_left Qplus values 0 / inject_Z (Z.of_nat (length values))
  end.

(** [calculate_multi_point_preservation(sensor_readings)]. *)
Definition calculate_multi_point_preservation (sensor_readings : list reading)
  : summary :=
  match sensor_readings with
  | [] =>
    {| preservation_percentage := 0;
       factors := None;
       averages_used := None;
       readings_used := 0;
       timestamp_range := None |}
  | _ =>
    let temperatures := sensor_values "temperature" sensor_readings in
    let tds_values := sensor_values "tds" sensor_readings in
    let turbidity_values := sensor_values "turbidity" sensor_readings in
    let depths := sensor_values "distance" sensor_readings in
    let ph_values := sensor_values "ph" sensor_readings in
    let timestamps := omap timestamp sensor_readings in
    let avg_temp := mean_or temperatures 20.0 in
    let avg_tds := mean_or tds_values 500.0 in
    let avg_turbidity := mean_or turbidity_values 10.0 in
    let avg_depth := mean_or depths 2.0 in
    let avg_ph := mean_or ph_values 7.0 in
    let '(preservation_pct, factor_scores) :=
      calculate_preservation_index avg_temp avg_tds avg_turbidity avg_depth
        avg_ph in
    let timestamp_range :=
      match timestamps with
      | [] => None
      | t :: rest => Some (fold_left Z.min rest t, fold_left Z.max rest t)
      end in
    {| preservation_percentage := preservation_pct;
       factors := Some factor_scores;
       averages_used :=
         Some {| avg_temperature := avg_temp;
                 avg_tds := avg_tds;
                 avg_turbidity := avg_turbidity;
                 avg_depth := avg_depth;
                 avg_ph := avg_ph |};
       readings_used := length sensor_readings;
       timestamp_range := timestamp_range |}
  end.

End MultiPoint.

(** ** Material prediction (material_classification.py) *)

Module Classifier.
Import Spectral.

(** [adjust_confidence_with_context(base_confidence, environmental_context,
    predicted_material)]; the context is a dictionary of readings. *)
Definition adjust_confidence_with_context (base_confidence : Q)
  (environmental_context : gmap string Q) (predicted_material : string) : Q :=
  let adjustments : list Q := [] in
  let adjustments :=
    match environmental_context !! "temperature"%string with
    | Some temp =>
      if Qltb 50 temp || Qltb temp (-10) then adjustments ++ [-0.1]
      else adjustments
    | None => adjustments
    end in
  let adjustments :=
    match environmental_context !! "humidity"%string with
    | Some humidity =>
      if Qltb 90 humidity then adjustments ++ [-0.05] else adjustments
    | None => adjustments
    end in
  let adjustments :=
    match environmental_context !! "depth"%string with
    | Some depth =>
      if Qltb 100 depth then adjustments ++ [-0.05] else adjustments
    | None => adjustments
    end in
  let adjusted_confidence := base_confidence + fold_left Qplus adjustments 0 in
  py_max 0.05 (py_min 1.0 adjusted_confidence).

(** The dictionary [predict_material] returns, without the echo of the
    spectrum. *)
Record prediction : Type := mkPrediction {
  material_type : string;
  confidence : Q;
  all_probabilities : gmap string Q;
  is_reliable : bool;
  environmental_context : gmap string Q
}.

Section Model.

(** The fitted scaler and the fitted random forest: the scaled feature
    matrix, [scaler.transform], [classifier.predict(...)[0]],
    [classifier.predict_proba(...)[0]] and [classifier.classes_]. *)
Variable scaled : Type.
Variable transform : list feature -> result scaled.
Variable predict : scaled -> string.
Variable predict_proba : scaled -> list Q.
Variable classes_ : list string.

(** [predict_material(wavelengths, intensities, environmental_context)] on a
    trained classifier; a missing context is [None], and an empty one counts
    as missing. *)
Definition predict_material (wavelengths intensities : list Q)
  (context : option (gmap string Q)) : result prediction :=
  features ← preprocess_spectrum wavelengths intensities;
  features_scaled ← transform features;
  let predicted_class := predict features_scaled in
  let probabilities := predict_proba features_scaled in
  let class_probabilities : gmap string Q :=
    list_to_map (reverse (zip classes_ probabilities)) in
  let confidence := default 0 (class_probabilities !! predicted_class) in
  let truthy_context :=
    match context with
    | Some c => if decide (c = ∅) then None else Some c
    | None => None
    end in
  let confidence :=
    match truthy_context with
    | Some c => adjust_confidence_with_context confidence c predicted_class
    | None => confidence
    end in
  let is_reliable := Qltb 0.6 confidence in
  Ok {| material_type := if is_reliable then predicted_class else "unknown"%string;
        confidence := if is_reliable then confidence else 0.1;
        all_probabilities := class_probabilities;
        is_reliable := is_reliable;
        environmental_context := default ∅ truthy_context |}.

End Model.

(** *** Stand-ins for the fitted model

    A scaler that passes the feature vector on, and a classifier that says
    "metal" with probability 0.9 whatever the spectrum. *)

Definition identity_scaler (features : list feature) : result (list feature) :=
  Ok features.

Definition says_metal (features_scaled : list feature) : string :=
  "metal"%string.

Definition metal_probabilities (features_scaled : list feature) : list Q :=
  [0.03; 0.9; 0.02; 0.05].

Definition fitted_classes : list string :=
  ["ceramic"; "metal"; "organic"; "stone"]%string.

End Classifier.

(** ** The broadcast hub: personal messages and the broadcasting task *)

Module HubTasks.
Import Hub.

Section Manager.

Variable pydict : Type.
Variable send_text : WebSocket -> string -> result unit.

(** [send_personal_message(message, websocket)]: only
    [WebSocketDisconnect] is handled. *)
Definition send_personal_message (self : ConnectionManager pydict) (w : World)
  (message : string) (websocket : WebSocket)
  : result (ConnectionManager pydict * World) :=
  match send_text websocket message with
  | Ok tt => Ok (self, sent w websocket message (Ok tt))
  | Raise WebSocketDisconnect =>
    Ok (disconnect pydict self
          (sent w websocket message (Raise WebSocketDisconnect)) websocket)
  | Raise e => Raise e
  end.

(** What another task does to the hub while a broadcast is suspended at an
    [await]: a client connects, or a client goes away. *)
Inductive arrival : Type :=
| Arrives (websocket : WebSocket) (running : EventLoop)
| Departs (websocket : WebSocket).

Definition other_task (st : ConnectionManager pydict * World) (a : arrival)
  : ConnectionManager pydict * World :=
  match a with
  | Arrives websocket running =>
    connect pydict (fst st) (snd st) websocket running
  | Departs websocket => disconnect pydict (fst st) (snd st) websocket
  end.

(** The active set after the connects and disconnects of other tasks. *)
Definition after_arrivals (active : gset WebSocket) (events : list arrival)
  : gset WebSocket :=
  fold_left
    (fun A a =>
       match a with
       | Arrives websocket _ => {[websocket]} ∪ A
       | Departs websocket => A ∖ {[websocket]}
       end)
    events active.

(** The delivery loop of [broadcast] with its awaits.  The loop runs over
    the copy of the active set taken when the broadcast starts; while the
    send to a connection is awaited, the other tasks at the head of
    [schedule] run. *)
Fixpoint deliver_interleaved (message : string) (copy : list WebSocket)
  (schedule : list (list arrival)) (disconnected_clients : gset WebSocket)
  (successful_sends : nat) (st : ConnectionManager pydict * World)
  : gset WebSocket * nat * (ConnectionManager pydict * World) :=
  match copy with
  | [] => (disconnected_clients, successful_sends, st)
  | connection :: rest =>
    let st := fold_left other_task (List.hd [] schedule) st in
    let '(disconnected_clients, successful_sends, w) :=
      deliver send_text message
        (disconnected_clients, successful_sends, snd st) connection in
    deliver_interleaved message rest (List.tl schedule) disconnected_clients
      successful_sends (fst st, w)
  end.

(** [broadcast(message)] as a coroutine among others: [schedule] lists, for
    each [await] of the delivery loop in turn, what other tasks do
    meanwhile.  The clean-up loop and the final log record have no
    [await]. *)
Definition broadcast_interleaved (self : ConnectionManager pydict) (w : World)
  (message : string) (schedule : list (list arrival))
  : ConnectionManager pydict * World :=
  let w := logged w (InfoAttempting (size (active_connections pydict self))) in
  let '(disconnected_clients, successful_sends, st) :=
    deliver_interleaved message (elements (active_connections pydict self))
      schedule ∅ 0%nat (self, w) in
  let '(self, w) :=
    fold_left (drop pydict) (elements disconnected_clients) st in
  (self,
   logged w (InfoCompleted successful_sends
               (size (active_connections pydict self)))).

(** The assignment of the two fields of the broadcasting task. *)
Definition with_task (self : ConnectionManager pydict)
  (broadcasting task : bool) : ConnectionManager pydict :=
  {| active_connections := active_connections pydict self;
     buffer_size := buffer_size pydict self;
     message_buffer := message_buffer pydict self;
     is_broadcasting := broadcasting;
     broadcast_task := task;
     loop := loop pydict self |}.

(** [start_broadcasting()]. *)
Definition start_broadcasting (self : ConnectionManager pydict)
  : ConnectionManager pydict :=
  if negb (is_broadcasting pydict self) && negb (broadcast_task pydict self)
  then with_task self true true
  else self.

(** [stop_broadcasting()]: the cancelled task ends with [CancelledError],
    which is caught. *)
Definition stop_broadcasting (self : ConnectionManager pydict)
  : ConnectionManager pydict :=
  if is_broadcasting pydict self && broadcast_task pydict self
  then with_task self false false
  else self.

(** A request to the broadcasting task. *)
Inductive task_request : Type :=
| Start
| Stop.

Definition serve (self : ConnectionManager pydict) (request : task_request)
  : ConnectionManager pydict :=
  match request with
  | Start => start_broadcasting self
  | Stop => stop_broadcasting self
  end.

End Manager.

End HubTasks.

(** ** Facts about the shared numerics *)

Lemma Qltb_lt (x y : Q) : Qltb x y = true <-> x < y.
Proof.
  unfold Qltb. rewrite negb_true_iff.
  split; intros H.
  - apply Qnot_le_lt. intros Hle. apply Qle_bool_iff in Hle. congruence.
  - apply not_true_is_false. intros Hle. apply Qle_bool_iff in Hle.
    apply (Qlt_not_le _ _ H Hle).
Qed.

Lemma Qltb_ge (x y : Q) : Qltb x y = false <-> y <= x.
Proof.
  unfold Qltb. rewrite negb_false_iff. apply Qle_bool_iff.
Qed.

Ltac case_Qltb :=
  match goal with
  | |- context [Qltb ?a ?b] =>
    let H := fresh "Hcmp" in
    destruct (Qltb a b) eqn:H;
    [apply Qltb_lt in H | apply Qltb_ge in H]
  end.

Lemma py_max_Qmax (a b : Q) : py_max a b == Qmax a b.
Proof.
  unfold py_max. case_Qltb.
  - symmetry. apply Q.max_r. lra.
  - symmetry. apply Q.max_l. lra.
Qed.

Lemma py_min_Qmin (a b : Q) : py_min a b == Qmin a b.
Proof.
  unfold py_min. case_Qltb.
  - symmetry. apply Q.min_r. lra.
  - symmetry. apply Q.min_l. lra.
Qed.

Lemma py_max_lower (a b : Q) : a <= py_max a b.
Proof. unfold py_max. case_Qltb; lra. Qed.

Lemma py_max_mono_r (a b c : Q) : b <= c -> py_max a b <= py_max a c.
Proof. intros H. unfold py_max. repeat case_Qltb; lra. Qed.

Lemma clamp_bounds (lo hi x : Q) :
  lo <= hi -> lo <= py_max lo (py_min hi x) <= hi.
Proof.
  intros H. unfold py_max, py_min. repeat case_Qltb; lra.
Qed.

Lemma Qcompare_cases (p q : Q) :
  match Qcompare p q with
  | Lt => p < q
  | Eq => p == q
  | Gt => q < p
  end.
Proof.
  destruct (Qcompare p q) eqn:E.
  - now apply Qeq_alt.
  - now apply Qlt_alt.
  - now apply Qgt_alt.
Qed.

Lemma round_half_even_floor (q : Q) :
  (Qfloor q <= round_half_even q <= Qfloor q + 1)%Z.
Proof.
  unfold round_half_even.
  destruct (Qcompare _ _); [destruct (Z.even _) | |]; lia.
Qed.

Lemma round_half_even_inject_Z (z : Z) : round_half_even (inject_Z z) = z.
Proof.
  unfold round_half_even. rewrite Qfloor_Z.
  pose proof (Qcompare_cases (inject_Z z - inject_Z z) (1 # 2)) as H.
  destruct (Qcompare _ _); [exfalso; lra | reflexivity | exfalso; lra].
Qed.

Lemma round_half_even_mono (p q : Q) :
  p <= q -> (round_half_even p <= round_half_even q)%Z.
Proof.
  intros Hpq.
  pose proof (Qfloor_resp_le _ _ Hpq) as Hfl.
  destruct (Z.eq_dec (Qfloor p) (Qfloor q)) as [Heq | Hne].
  - unfold round_half_even. rewrite Heq.
    pose proof (Qcompare_cases (p - inject_Z (Qfloor q)) (1 # 2)) as Hp.
    pose proof (Qcompare_cases (q - inject_Z (Qfloor q)) (1 # 2)) as Hq.
    destruct (Qcompare (p - _) _); destruct (Qcompare (q - _) _);
      try (destruct (Z.even (Qfloor q))); try lia; exfalso; lra.
  - pose proof (round_half_even_floor p). pose proof (round_half_even_floor q).
    lia.
Qed.

Lemma round_half_even_comp (p q : Q) :
  p == q -> round_half_even p = round_half_even q.
Proof.
  intros H. apply Z.le_antisymm; apply round_half_even_mono; lra.
Qed.

Lemma py_round2_mono (p q : Q) : p <= q -> py_round2 p <= py_round2 q.
Proof.
  intros H. unfold py_round2, Qle. simpl.
  apply Z.mul_le_mono_nonneg_r; [lia |].
  apply round_half_even_mono. lra.
Qed.

Lemma py_round2_inject_Z (z : Z) : py_round2 (inject_Z z) == inject_Z z.
Proof.
  unfold py_round2.
  assert (H : inject_Z z * 100 == inject_Z (z * 100)).
  { rewrite inject_Z_mult. reflexivity. }
  rewrite (round_half_even_comp _ _ H), round_half_even_inject_Z.
  unfold Qeq, inject_Z. simpl. lia.
Qed.

Lemma py_round2_bounds (q : Q) : 0 <= q <= 100 -> 0 <= py_round2 q <= 100.
Proof.
  intros [H0 H100]. split.
  - rewrite <- (py_round2_inject_Z 0). now apply py_round2_mono.
  - rewrite <- (py_round2_inject_Z 100). now apply py_round2_mono.
Qed.

Lemma round_half_even_error (q : Q) :
  Qabs (inject_Z (round_half_even q) - q) <= 1 # 2.
Proof.
  apply Qabs_Qle_condition.
  pose proof (Qfloor_le q) as Hlo. pose proof (Qlt_floor q) as Hhi.
  rewrite inject_Z_plus in Hhi. change (inject_Z 1) with 1 in Hhi.
  unfold round_half_even.
  pose proof (Qcompare_cases (q - inject_Z (Qfloor q)) (1 # 2)) as Hc.
  destruct (Qcompare _ _); [destruct (Z.even _) | |];
    rewrite ?inject_Z_plus; change (inject_Z 1) with 1; split; lra.
Qed.

(** Rounding to two decimals moves a value by half a hundredth at most. *)
Lemma py_round2_error (q : Q) : Qabs (py_round2 q - q) <= 0.005.
Proof.
  pose proof (round_half_even_error (q * 100)) as H.
  apply Qabs_Qle_condition in H. apply Qabs_Qle_condition.
  assert (E : py_round2 q == inject_Z (round_half_even (q * 100)) * (1 # 100)).
  { unfold py_round2. rewrite Qmake_Qdiv. reflexivity. }
  rewrite E. split; lra.
Qed.

(** ** The preservation scorer: range, sanitization, unknown materials *)

Module PreservationSpec.
Import Preservation.

Lemma material_database_size : size material_database = 30%nat.
Proof. vm_compute. reflexivity. Qed.

Lemma material_table_keys (material : string) :
  material_database !! material = None <->
  ~ In material (map fst material_table).
Proof.
  unfold material_database.
  rewrite <- not_elem_of_list_to_map, list_elem_of_In.
  reflexivity.
Qed.

(** [x or 0] followed by the NaN/Inf guard leaves a finite reading as it is,
    and replaces any other by the default. *)
Lemma guard_finite (q d : Q) : replace_nonfinite (or_zero (Finite q)) d == q.
Proof.
  unfold or_zero, truthy.
  destruct (Qeq_bool q 0) eqn:E; simpl.
  - apply Qeq_bool_iff in E. now rewrite E.
  - reflexivity.
Qed.

Lemma guard_nonfinite (x : pyfloat) (d : Q) :
  isnan x || isinf x = true -> replace_nonfinite (or_zero x) d = d.
Proof. destruct x; simpl; intros H; try discriminate; reflexivity. Qed.

Lemma guard_sanitized (x : pyfloat) (d : Q) :
  replace_nonfinite (or_zero (Finite (replace_nonfinite x d))) d
  == replace_nonfinite (or_zero x) d.
Proof.
  destruct x as [q | | |]; try apply guard_finite.
  rewrite guard_finite. simpl. now rewrite guard_finite.
Qed.

Lemma Qltb_comp (a b b' : Q) : b == b' -> Qltb a b = Qltb a b'.
Proof.
  intros H. unfold Qltb. f_equal. now rewrite H.
Qed.

(** C6.  For every material name and every sensor reading, NaN and infinite
    readings included, [calculate_material_preservation] returns a value in
    [0, 100]; and it returns what it returns on the reading in which every
    NaN or infinite turbidity, temperature and TDS has been replaced by its
    default (0, 20 and 0). *)
Theorem material_preservation_in_range
  (material : string) (sensor_data : SensorData) :
  0 <= calculate_material_preservation material sensor_data <= 100 /\
  calculate_material_preservation material sensor_data
  = calculate_material_preservation material (sanitized sensor_data).
Proof.
  unfold calculate_material_preservation.
  destruct (material_database !! material) as [props |]; [| split; [lra | reflexivity]].
  split.
  - apply py_round2_bounds, clamp_bounds. lra.
  - cbn [sanitized turbidity temperature tds].
    rewrite (Qltb_comp _ _ _ (guard_sanitized (turbidity sensor_data) 0)).
    rewrite (Qltb_comp _ _ _ (guard_sanitized (temperature sensor_data) 20)).
    rewrite (Qltb_comp _ _ _ (guard_sanitized (tds sensor_data) 0)).
    reflexivity.
Qed.

(** C10.  A material name that is not a key of the material reference table
    yields exactly 100, whatever the sensor reading. *)
Theorem unknown_material_fully_preserved
  (material : string) (sensor_data : SensorData) :
  material_database !! material = None ->
  calculate_material_preservation material sensor_data = 100.
Proof.
  intros H. unfold calculate_material_preservation. now rewrite H.
Qed.

Lemma unknown_material_fully_preserved_witness :
  material_database !! "unobtainium"%string = None /\
  calculate_material_preservation "unobtainium"
    (mkSensorData NaN PosInf (Finite 100000) (Finite 0) (Finite 0) (Finite 0))
  = 100.
Proof.
  split.
  - vm_compute. reflexivity.
  - apply (unknown_material_fully_preserved "unobtainium"). vm_compute. reflexivity.
Defined.

End PreservationSpec.

Module WaterSpec.
Import Preservation PreservationSpec.

Lemma py_round2_comp (p q : Q) : p == q -> py_round2 p = py_round2 q.
Proof.
  intros H. unfold py_round2. f_equal.
  apply round_half_even_comp. now rewrite H.
Qed.

(** On finite readings the value before rounding is the spec's formula. *)
Lemma water_quality_formula (turb temp dissolved : Q) :
  calculate_water_preservation (finite_reading turb temp dissolved)
  = py_round2 (water_formula turb temp dissolved).
Proof.
  unfold calculate_water_preservation, water_formula.
  cbn [finite_reading turbidity temperature tds].
  apply py_round2_comp.
  rewrite !py_max_Qmax, !guard_finite. reflexivity.
Qed.

Lemma water_formula_antitone (t T d t' T' d' : Q) :
  t <= t' -> T <= T' -> d <= d' ->
  water_formula t' T' d' <= water_formula t T d.
Proof.
  intros Ht HT Hd. unfold water_formula.
  apply Q.max_le_compat_l.
  assert (H1 : Qmax 0 (t - 10) <= Qmax 0 (t' - 10))
    by (apply Q.max_le_compat_l; lra).
  assert (H2 : Qmax 0 (d - 50) <= Qmax 0 (d' - 50))
    by (apply Q.max_le_compat_l; lra).
  assert (H3 : Qmax 0 (T - 20) <= Qmax 0 (T' - 20))
    by (apply Q.max_le_compat_l; lra).
  lra.
Qed.

(** C8, as the code has it.  A NaN or infinite turbidity, temperature or
    TDS is read as 0, 20 and 0.  On finite readings the result is a value of
    two decimals less than a hundredth away from the spec's formula, and it
    does not increase when turbidity, temperature and TDS do not decrease
    (so it is non-increasing in each of them, the other two held fixed). *)
Theorem water_preservation_sanitized_rounded_antitone
  (x a b p h z : pyfloat) (t T d t' T' d' : Q) :
  isnan x || isinf x = true ->
  t <= t' -> T <= T' -> d <= d' ->
  (calculate_water_preservation (mkSensorData x a b p h z)
   = calculate_water_preservation (mkSensorData (Finite 0) a b p h z)
   /\ calculate_water_preservation (mkSensorData a x b p h z)
      = calculate_water_preservation (mkSensorData a (Finite 20) b p h z)
   /\ calculate_water_preservation (mkSensorData a b x p h z)
      = calculate_water_preservation (mkSensorData a b (Finite 0) p h z))
  /\ (exists n : Z,
        calculate_water_preservation (finite_reading t T d) = n # 100)
  /\ Qabs (calculate_water_preservation (finite_reading t T d)
           - water_formula t T d) < 0.01
  /\ calculate_water_preservation (finite_reading t' T' d')
     <= calculate_water_preservation (finite_reading t T d).
Proof.
  intros Hx Ht HT Hd. split; [| split; [| split]].
  - destruct x as [q | | |]; [discriminate Hx | | |];
      repeat split; reflexivity.
  - rewrite water_quality_formula. unfold py_round2. eexists. reflexivity.
  - rewrite water_quality_formula.
    pose proof (py_round2_error (water_formula t T d)) as H.
    eapply Qle_lt_trans; [exact H | reflexivity].
  - rewrite !water_quality_formula.
    apply py_round2_mono. now apply water_formula_antitone.
Qed.

Lemma water_preservation_sanitized_rounded_antitone_witness :
  isnan NaN || isinf NaN = true
  /\ (calculate_water_preservation
        (mkSensorData NaN (Finite 30) (Finite 400) PosInf (Finite 1) (Finite 2))
      = calculate_water_preservation
          (mkSensorData (Finite 0) (Finite 30) (Finite 400) PosInf (Finite 1)
             (Finite 2))
      /\ calculate_water_preservation
           (mkSensorData (Finite 30) NaN (Finite 400) PosInf (Finite 1)
              (Finite 2))
         = calculate_water_preservation
             (mkSensorData (Finite 30) (Finite 20) (Finite 400) PosInf
                (Finite 1) (Finite 2))
      /\ calculate_water_preservation
           (mkSensorData (Finite 30) (Finite 400) NaN PosInf (Finite 1)
              (Finite 2))
         = calculate_water_preservation
             (mkSensorData (Finite 30) (Finite 400) (Finite 0) PosInf
                (Finite 1) (Finite 2)))
  /\ (exists n : Z,
        calculate_water_preservation (finite_reading 30 25 51.25) = n # 100)
  /\ Qabs (calculate_water_preservation (finite_reading 30 25 51.25)
           - water_formula 30 25 51.25) < 0.01
  /\ calculate_water_preservation (finite_reading 31 25 51.25)
     <= calculate_water_preservation (finite_reading 30 25 51.25).
Proof.
  split; [reflexivity |].
  apply (water_preservation_sanitized_rounded_antitone
           NaN (Finite 30) (Finite 400) PosInf (Finite 1) (Finite 2)
           30 25 51.25 31 25 51.25 eq_refl);
    unfold Qle; simpl; lia.
Defined.

(** A TDS of 50.1 ppm costs 0.002 points in the formula, which the code's
    rounding to two decimals discards: the code returns 100, the formula
    99.998. *)
Lemma water_preservation_rounding_counterexample :
  calculate_water_preservation (finite_reading 0 0 50.1) == 100 /\
  water_formula 0 0 50.1 == 99.998 /\
  water_formula 0 0 50.1
  < calculate_water_preservation (finite_reading 0 0 50.1).
Proof. vm_compute. repeat split; reflexivity. Qed.

(** An infinite turbidity is replaced by 0 before use, so a reading with
    turbidity +inf scores higher than one with turbidity 1000. *)
Lemma water_preservation_infinite_turbidity :
  calculate_water_preservation (finite_reading 1000 0 0) == 0 /\
  calculate_water_preservation
    (mkSensorData PosInf (Finite 0) (Finite 0) (Finite 0) (Finite 0) (Finite 0))
  == 100.
Proof. vm_compute. split; reflexivity. Qed.

End WaterSpec.

(** ** The radar engine: classification *)

Module RadarSpec.
Import Radar.

(** Every branch of the classification yields a confidence of at least 0.1,
    and at most the larger of 0.95 and half the magnitude. *)
Lemma classify_anomaly_confidence_bounds
  (amplitude width depth : Q) (surrounding : list Q) :
  0.1 <= snd (classify_anomaly amplitude width depth surrounding)
  /\ snd (classify_anomaly amplitude width depth surrounding)
     <= Qmax 0.95 (Qabs amplitude * 0.5).
Proof.
  unfold classify_anomaly.
  pose proof (Qabs_nonneg amplitude) as Hnn.
  pose proof (Q.le_max_l 0.95 (Qabs amplitude * 0.5)) as Hl.
  pose proof (Q.le_max_r 0.95 (Qabs amplitude * 0.5)) as Hr.
  set (m := Qmax 0.95 (Qabs amplitude * 0.5)) in *.
  set (a := Qabs amplitude) in *.
  unfold py_min, py_max.
  repeat (case_Qltb; cbn [andb snd]); split; lra.
Qed.

(** A magnitude of at most 2 keeps the confidence within [0, 1]. *)
Lemma classify_anomaly_confidence_unit
  (amplitude width depth : Q) (surrounding : list Q) :
  Qabs amplitude <= 2 ->
  0 <= snd (classify_anomaly amplitude width depth surrounding) <= 1.
Proof.
  intros Ha.
  destruct (classify_anomaly_confidence_bounds amplitude width depth surrounding)
    as [Hlo Hhi].
  split; [lra |].
  eapply Qle_trans; [exact Hhi |].
  apply Q.max_lub; lra.
Qed.

(** C1 at the failing input.  A reflection of amplitude 3 and width 5 falls
    through to the last branch of [classify_anomaly], which returns the
    confidence 1.5: above 1. *)
Theorem classify_anomaly_fallback_exceeds_one :
  fst (classify_anomaly 3 5 0.5 []) = UNKNOWN /\
  snd (classify_anomaly 3 5 0.5 []) == 1.5 /\
  1 < snd (classify_anomaly 3 5 0.5 []).
Proof. vm_compute. repeat split; reflexivity. Qed.

(** The same through [detect_anomalies], run with a smoothing pass that
    leaves the profile as it is: a broad reflection of amplitude 3.5 is
    reported with confidence 1.75. *)
Example detect_anomalies_confidence_above_one :
  detect_anomalies unit accept_band remove_mean no_smoothing interior_maxima
    [2; 2.5; 3; 3.5; 3; 2.5; 2] 0 0
  = Ok [ {| x := 0; y := 0; type := UNKNOWN; confidence := 1.75;
            amplitude := 3.5; depth := 0.3 |} ].
Proof. vm_compute. reflexivity. Qed.

(** ** The radar engine: width estimation *)

Lemma left_walk_le (signal : list Q) (threshold : Q) (left_edge : nat) :
  (left_walk signal threshold left_edge <= left_edge)%nat.
Proof.
  induction left_edge as [| l IH]; cbn [left_walk]; [lia |].
  destruct (Qltb _ _); lia.
Qed.

Lemma right_walk_range (fuel : nat) (signal : list Q) (threshold : Q) :
  forall right_edge,
    (right_edge <= right_walk fuel signal threshold right_edge)%nat
    /\ (right_walk fuel signal threshold right_edge
        <= Nat.max right_edge (length signal - 1))%nat.
Proof.
  induction fuel as [| fuel IH]; intros right_edge; cbn [right_walk]; [lia |].
  destruct (_ && _) eqn:E; [| lia].
  apply andb_true_iff in E. destruct E as [E _]. apply Z.ltb_lt in E.
  specialize (IH (S right_edge)). lia.
Qed.

(** The fuel given to the second loop is enough: where [right_walk] stops,
    the condition of the [while] is false. *)
Lemma right_walk_exit (fuel : nat) (signal : list Q) (threshold : Q) :
  forall right_edge,
    (length signal - right_edge <= fuel)%nat ->
    let r := right_walk fuel signal threshold right_edge in
    (Z.of_nat r <? Z.of_nat (length signal) - 1)%Z
    && Qltb threshold (Qabs (nth r signal 0)) = false.
Proof.
  induction fuel as [| fuel IH]; intros right_edge Hfuel; cbn [right_walk].
  - cbn zeta. apply andb_false_iff. left. apply Z.ltb_ge. lia.
  - cbn zeta.
    destruct ((Z.of_nat right_edge <? Z.of_nat (length signal) - 1)%Z
              && Qltb threshold (Qabs (nth right_edge signal 0))) eqn:E;
      [| exact E].
    apply IH. lia.
Qed.

(** The estimated width is between 0 and the length of the signal. *)
Lemma estimate_signal_width_bounds
  (signal : list Q) (peak_idx : nat) (threshold_factor : Q) :
  (peak_idx < length signal)%nat ->
  (0 <= estimate_signal_width signal peak_idx threshold_factor
     <= Z.of_nat (length signal))%Z.
Proof.
  intros Hidx. unfold estimate_signal_width.
  set (threshold := Qabs _ * _).
  pose proof (left_walk_le signal threshold peak_idx).
  pose proof (right_walk_range (length signal) signal threshold peak_idx).
  lia.
Qed.

Section Detection.

Variable coefficients : Type.
Variable butter : nat -> Q * Q -> result coefficients.
Variable filtfilt : coefficients -> list Q -> result (list Q).
Variable savgol_filter : list Q -> nat -> nat -> result (list Q).
Variable find_peaks : list Q -> Q -> Z -> list nat.

(** Every anomaly of [detect_anomalies] carries the confidence that
    [classify_anomaly] computed from its amplitude: at least 0.1, and at
    most 1 when the magnitude of the amplitude is at most 2. *)
Lemma detect_anomalies_confidence
  (depth_profile : list Q) (x_position y_position : Q)
  (anomalies : list AnomalyDetectionResult) (a : AnomalyDetectionResult) :
  detect_anomalies coefficients butter filtfilt savgol_filter find_peaks
    depth_profile x_position y_position = Ok anomalies ->
  In a anomalies ->
  0.1 <= confidence a /\ (Qabs (amplitude a) <= 2 -> confidence a <= 1).
Proof.
  unfold detect_anomalies.
  destruct depth_profile as [| v rest]; [intros [= <-] [] |].
  destruct (preprocess_signal _ _ _ _ _ _) as [processed | e];
    [| discriminate].
  cbn [mbind result_bind]. intros [= <-] Hin.
  apply in_map_iff in Hin. destruct Hin as ([idx amp] & <- & _).
  unfold anomaly_of_reflection.
  match goal with |- context [classify_anomaly ?p ?q ?r ?t] =>
    pose proof (classify_anomaly_confidence_bounds p q r t) as [Hlo Hhi];
    pose proof (classify_anomaly_confidence_unit p q r t) as Hunit;
    destruct (classify_anomaly p q r t) as [kind c]
  end.
  cbn [confidence amplitude snd] in *. split; [exact Hlo |].
  intros Ha. now apply Hunit.
Qed.

End Detection.

(** ** The radar engine: signal conditioning *)

Lemma cutoffs_in_band (nyquist : Q) :
  ~ nyquist == 0 ->
  exists low high,
    cutoffs nyquist = Ok (low, high)
    /\ 0.01 <= low /\ low < high /\ high <= 0.99.
Proof.
  intros Hnz. unfold cutoffs, py_div.
  destruct (Qeq_bool nyquist 0) eqn:E.
  { apply Qeq_bool_iff in E. contradiction. }
  cbn [mbind result_bind].
  set (lo := py_max 0.01 (py_min 0.99 (fst frequency_band / nyquist))).
  set (hi := py_max 0.01 (py_min 0.99 (snd frequency_band / nyquist))).
  assert (Hlo : 0.01 <= lo <= 0.99) by (apply clamp_bounds; lra).
  assert (Hhi : 0.01 <= hi <= 0.99) by (apply clamp_bounds; lra).
  destruct (Qle_bool hi lo) eqn:Hle.
  - exists 0.01, 0.99. repeat split; lra.
  - exists lo, hi. repeat split; try lra.
    apply Qnot_le_lt. intros H. apply Qle_bool_iff in H. congruence.
Qed.

Section Conditioning.

Variable coefficients : Type.
Variable butter : nat -> Q * Q -> result coefficients.
Variable filtfilt : coefficients -> list Q -> result (list Q).
Variable savgol_filter : list Q -> nat -> nat -> result (list Q).

#[local] Abbreviation preprocess := (preprocess_signal coefficients butter filtfilt savgol_filter).
#[local] Abbreviation bandpass := (bandpass_or_original coefficients butter filtfilt).

(** SciPy's smoothing succeeds on a signal at least as long as its window. *)
Hypothesis savgol_defined :
  forall xs, (5 <= length xs)%nat -> returns (savgol_filter xs 5 3) = true.

Lemma smooth_window (xs : list Q) :
  smooth savgol_filter xs
  = if (5 <? length xs)%nat then savgol_filter xs 5 3 else Ok xs.
Proof.
  unfold smooth.
  destruct (5 <? length xs)%nat eqn:E; [| reflexivity].
  apply Nat.ltb_lt in E.
  rewrite Nat.min_l by lia.
  change (5 mod 2 =? 0)%nat with false. cbv iota.
  change (5 <? 3)%nat with false. cbv iota.
  destruct (5 <=? length xs)%nat eqn:E'; [reflexivity |].
  apply Nat.leb_gt in E'. lia.
Qed.

Lemma smooth_returns (xs : list Q) : returns (smooth savgol_filter xs) = true.
Proof.
  rewrite smooth_window.
  destruct (5 <? length xs)%nat eqn:E; [| reflexivity].
  apply Nat.ltb_lt in E. apply savgol_defined. lia.
Qed.

(** The filtered signal is the filter's output when design and filtering
    succeed, and the input itself when either raises. *)
Lemma bandpass_fallback (low high : Q) (xs : list Q) :
  (exists ba ys, butter 4 (low, high) = Ok ba /\ filtfilt ba xs = Ok ys
                 /\ bandpass low high xs = ys)
  \/ bandpass low high xs = xs.
Proof.
  unfold bandpass_or_original.
  destruct (butter 4 (low, high)) as [ba | e] eqn:Hb; cbn; [| now right].
  destruct (filtfilt ba xs) as [ys | e] eqn:Hf; [| now right].
  left. now exists ba, ys.
Qed.

(** The cutoffs handed to the filter design: the two ends of the band of 10
    to 1000 MHz over the Nyquist frequency, each clamped into [0.01, 0.99],
    and (0.01, 0.99) unless the lower one is below the upper one. *)
Lemma cutoffs_value (nyquist : Q) :
  ~ nyquist == 0 ->
  cutoffs nyquist
  = Ok (let low := py_max 0.01 (py_min 0.99 (10 / nyquist)) in
        let high := py_max 0.01 (py_min 0.99 (1000 / nyquist)) in
        if Qle_bool high low then (0.01, 0.99) else (low, high)).
Proof.
  intros Hnz. unfold cutoffs, py_div.
  destruct (Qeq_bool nyquist 0) eqn:E.
  { apply Qeq_bool_iff in E. contradiction. }
  cbn [mbind result_bind fst snd frequency_band].
  destruct (Qle_bool _ _); reflexivity.
Qed.

(** What conditioning does at a non-zero sampling rate.  A profile of at
    most 5 samples is returned unmodified and one of 6 to 8 samples is only
    smoothed; a longer one is filtered with the 4th-order design for the
    clamped cutoffs, the output of the zero-phase filter being what is
    smoothed, and the profile itself when design or filtering raises; the
    call does not raise. *)
Lemma preprocess_signal_stages (raw_signal : list Q) (sampling_rate : Q) :
  ~ sampling_rate == 0 ->
  let nyquist := sampling_rate / 2 in
  let low := py_max 0.01 (py_min 0.99 (10 / nyquist)) in
  let high := py_max 0.01 (py_min 0.99 (1000 / nyquist)) in
  let band := if Qle_bool high low then (0.01, 0.99) else (low, high) in
  preprocess raw_signal sampling_rate
  = (if (length raw_signal <=? 5)%nat then Ok raw_signal
     else if (length raw_signal <=? 8)%nat
          then savgol_filter raw_signal 5 3
          else match butter 4 band with
               | Ok ba =>
                 match filtfilt ba raw_signal with
                 | Ok filtered_signal => smooth savgol_filter filtered_signal
                 | Raise _ => savgol_filter raw_signal 5 3
                 end
               | Raise _ => savgol_filter raw_signal 5 3
               end)
  /\ returns (preprocess raw_signal sampling_rate) = true.
Proof.
  intros Hrate nyquist low high band.
  assert (Hnyq : ~ nyquist == 0).
  { intros H. apply Hrate. unfold nyquist, Qdiv in H.
    change (/ 2) with (1 # 2) in H. lra. }
  pose proof (cutoffs_value nyquist Hnyq) as Hc.
  cbn zeta in Hc. fold low high band in Hc.
  unfold preprocess_signal. fold nyquist.
  destruct (length raw_signal <? 3)%nat eqn:E3.
  { apply Nat.ltb_lt in E3.
    destruct (length raw_signal <=? 5)%nat eqn:E5; [now split |].
    apply Nat.leb_gt in E5. lia. }
  apply Nat.ltb_ge in E3.
  rewrite Hc. destruct band as [low_freq high_freq].
  cbn [mbind result_bind].
  destruct (8 <? length raw_signal)%nat eqn:E8.
  - apply Nat.ltb_lt in E8.
    destruct (length raw_signal <=? 5)%nat eqn:E5;
      [apply Nat.leb_le in E5; lia |].
    destruct (length raw_signal <=? 8)%nat eqn:E8';
      [apply Nat.leb_le in E8'; lia |].
    split; [| apply smooth_returns].
    assert (Hraw : smooth savgol_filter raw_signal = savgol_filter raw_signal 5 3).
    { rewrite smooth_window.
      destruct (5 <? length raw_signal)%nat eqn:E; [reflexivity |].
      apply Nat.ltb_ge in E. lia. }
    unfold bandpass_or_original.
    destruct (butter 4 (low_freq, high_freq)) as [ba | e];
      cbn [mbind result_bind]; [| exact Hraw].
    destruct (filtfilt ba raw_signal) as [filtered_signal | e];
      [reflexivity | exact Hraw].
  - apply Nat.ltb_ge in E8.
    split; [| apply smooth_returns].
    rewrite smooth_window.
    destruct (length raw_signal <=? 5)%nat eqn:E5.
    + apply Nat.leb_le in E5.
      destruct (5 <? length raw_signal)%nat eqn:E5'; [| reflexivity].
      apply Nat.ltb_lt in E5'. lia.
    + apply Nat.leb_gt in E5.
      destruct (5 <? length raw_signal)%nat eqn:E5';
        [| apply Nat.ltb_ge in E5'; lia].
      destruct (length raw_signal <=? 8)%nat eqn:E8'; [reflexivity |].
      apply Nat.leb_gt in E8'. lia.
Qed.

(** C2 at the failing input.  With a sampling rate of 0 the Nyquist
    frequency is 0 and the division that normalizes the cutoffs, which
    stands before the [try] that guards the filter, raises
    [ZeroDivisionError] on every profile of three or more samples, whatever
    SciPy does. *)
Theorem preprocess_signal_zero_rate_raises (raw_signal : list Q) :
  (3 <= length raw_signal)%nat ->
  preprocess_signal coefficients butter filtfilt savgol_filter raw_signal 0
  = Raise ZeroDivisionError.
Proof.
  intros Hlen. unfold preprocess_signal.
  destruct (length raw_signal <? 3)%nat eqn:E;
    [apply Nat.ltb_lt in E; lia | reflexivity].
Qed.

End Conditioning.

Lemma preprocess_signal_zero_rate_raises_witness :
  (3 <= length [1; 2; 3]%Q)%nat
  /\ preprocess_signal unit accept_band remove_mean no_smoothing [1; 2; 3] 0
     = Raise ZeroDivisionError.
Proof.
  assert (H : (3 <= length [1; 2; 3]%Q)%nat) by (simpl; lia).
  split; [exact H |].
  apply (preprocess_signal_zero_rate_raises unit accept_band remove_mean
           no_smoothing [1; 2; 3] H).
Defined.

Section Padding.

Variable coefficients : Type.
Variable butter : nat -> Q * Q -> result coefficients.
Variable filtfilt : coefficients -> list Q -> result (list Q).
Variable savgol_filter : list Q -> nat -> nat -> result (list Q).

(** SciPy's zero-phase filter pads the signal with 27 samples at each end
    for this design (three times the 9 coefficients of a 4th-order
    band-pass), and raises when the signal is not longer than that. *)
Hypothesis filtfilt_padding :
  forall ba xs, (length xs <= 27)%nat -> returns (filtfilt ba xs) = false.

(** The guard of the code, which filters profiles of more than 8 samples
    only, changes no output: on a profile of 4 to 8 samples the band-pass of
    the spec's words cannot but fall back to the unfiltered signal.  At
    every non-zero sampling rate the code returns what conditioning as the
    spec words it returns. *)
Lemma preprocess_signal_meets_spec (raw_signal : list Q) (sampling_rate : Q) :
  ~ sampling_rate == 0 ->
  preprocess_signal coefficients butter filtfilt savgol_filter
    raw_signal sampling_rate
  = preprocess_signal_spec coefficients butter filtfilt savgol_filter
      raw_signal sampling_rate.
Proof.
  intros Hrate.
  assert (Hnyq : ~ sampling_rate / 2 == 0).
  { intros H. apply Hrate. unfold Qdiv in H.
    change (/ 2) with (1 # 2) in H. lra. }
  destruct (cutoffs_in_band _ Hnyq) as (low & high & Hc & _).
  unfold preprocess_signal, preprocess_signal_spec. rewrite Hc.
  cbn [mbind result_bind].
  destruct (length raw_signal <? 3)%nat eqn:E3.
  { apply Nat.ltb_lt in E3.
    destruct (length raw_signal <=? 3)%nat eqn:E3'; [reflexivity |].
    apply Nat.leb_gt in E3'. lia. }
  apply Nat.ltb_ge in E3.
  destruct (8 <? length raw_signal)%nat eqn:E8.
  - apply Nat.ltb_lt in E8.
    destruct (length raw_signal <=? 3)%nat eqn:E3'; [| reflexivity].
    apply Nat.leb_le in E3'. lia.
  - apply Nat.ltb_ge in E8.
    destruct (length raw_signal <=? 3)%nat eqn:E3'.
    + apply Nat.leb_le in E3'. unfold smooth.
      destruct (5 <? length raw_signal)%nat eqn:E5; [| reflexivity].
      apply Nat.ltb_lt in E5. lia.
    + f_equal. unfold bandpass_or_original.
      destruct (butter 4 (low, high)) as [ba | e]; cbn [mbind result_bind];
        [| reflexivity].
      pose proof (filtfilt_padding ba raw_signal ltac:(lia)) as Hpad.
      destruct (filtfilt ba raw_signal); [discriminate Hpad | reflexivity].
Qed.

End Padding.

(** ** The radar engine: layer segmentation *)

Lemma depth_of_mono (i j : nat) : (i <= j)%nat -> depth_of i <= depth_of j.
Proof.
  intros H. unfold depth_of, depth_resolution.
  apply Qmult_le_compat_r; [| lra].
  rewrite <- Zle_Qle. lia.
Qed.

Lemma contiguous_snoc (acc : list Layer) (a l : Layer) :
  contiguous (acc ++ [a]) -> end_depth a = start_depth l ->
  contiguous ((acc ++ [a]) ++ [l]).
Proof.
  induction acc as [| h t IH]; intros Hc Hl.
  - cbn. auto.
  - destruct t as [| h' t'].
    + cbn in *. tauto.
    + cbn [app contiguous] in *. destruct Hc as [H1 H2]. split; [exact H1 |].
      now apply IH.
Qed.

Lemma chain_facts (acc : list Layer) (s : nat) :
  chain acc s ->
  contiguous acc
  /\ Forall (fun l => start_depth l <= end_depth l) acc
  /\ match acc with [] => s = 0%nat | first :: _ => start_depth first = depth_of 0 end
  /\ match last acc with None => s = 0%nat | Some l => end_depth l = depth_of s end.
Proof.
  induction 1 as [| acc s b l Hch IH Hlt Hs He].
  - cbn. auto.
  - destruct IH as (Hc & Hasc & Hfirst & Hlast).
    repeat split.
    + destruct acc as [| a0 acc0] using rev_ind; [exact I |].
      apply contiguous_snoc; [exact Hc |].
      rewrite last_snoc in Hlast. congruence.
    + apply Forall_app. split; [exact Hasc |].
      constructor; [| constructor].
      rewrite Hs, He. apply depth_of_mono. lia.
    + destruct acc as [| first rest]; cbn; [| exact Hfirst].
      now rewrite Hs, Hfirst.
    + now rewrite last_snoc.
Qed.

Lemma layer_loop_chain (profile : list Q) (bs : list nat) :
  forall (start_idx : nat) (acc : list Layer) (n : nat),
    chain acc start_idx -> (start_idx < n)%nat ->
    Forall (fun b => (b < n)%nat) bs ->
    chain (snd (layer_loop profile bs start_idx acc))
          (fst (layer_loop profile bs start_idx acc))
    /\ (fst (layer_loop profile bs start_idx acc) < n)%nat.
Proof.
  induction bs as [| b rest IH]; intros start_idx acc n Hch Hlt Hbs.
  - cbn. auto.
  - cbn [layer_loop]. inversion Hbs as [| ? ? Hb Hrest]; subst.
    destruct (5 <? Z.of_nat b - Z.of_nat start_idx)%Z eqn:E.
    + apply Z.ltb_lt in E. apply IH; [| exact Hb | exact Hrest].
      apply (chain_snoc acc start_idx b); [exact Hch | lia | reflexivity..].
    + now apply IH.
Qed.

Lemma central_differences_length (xs : list Q) :
  length (central_differences xs) = (length xs - 2)%nat.
Proof.
  induction xs as [| a [| b [| c rest]] IH]; try reflexivity.
  cbn [central_differences length] in *. rewrite IH. lia.
Qed.

Lemma np_gradient_length (xs g : list Q) :
  np_gradient xs = Ok g -> length g = length xs.
Proof.
  destruct xs as [| a [| b rest]]; try discriminate.
  unfold np_gradient.
  set (inner := central_differences _). set (last_diff := nth _ _ _ - _).
  intros [= <-]. subst inner.
  cbn [length]. rewrite length_app, central_differences_length. cbn. lia.
Qed.

Lemma np_gradient_defined (xs : list Q) :
  (2 <= length xs)%nat -> exists g, np_gradient xs = Ok g.
Proof.
  destruct xs as [| a [| b rest]]; cbn [length]; try lia.
  intros _. eexists. reflexivity.
Qed.

Lemma np_where_from_bound (p : Q -> bool) (xs : list Q) :
  forall i, Forall (fun k => (k < i + length xs)%nat) (np_where_from p xs i).
Proof.
  induction xs as [| v rest IH]; intros i; cbn [np_where_from length].
  - constructor.
  - specialize (IH (S i)).
    assert (H : Forall (fun k => (k < i + S (length rest))%nat)
                  (np_where_from p rest (S i))).
    { eapply Forall_impl; [exact IH |]. cbn. intros; lia. }
    destruct (p v); [constructor; [lia | exact H] | exact H].
Qed.

Lemma boundary_indices_bound (abs_gradient : list Q) :
  Forall (fun b => (b < length abs_gradient)%nat) (boundary_indices abs_gradient).
Proof.
  unfold boundary_indices, np_where.
  apply (np_where_from_bound _ abs_gradient 0).
Qed.

(** For a profile of at least two samples [analyze_depth_profile] returns
    layers that start at depth 0, each end where the next starts, run in
    ascending depth order, and finish with a layer that ends at the depth of
    the last sample. *)
Lemma analyze_depth_profile_partition (depth_profile : list Q) :
  (2 <= length depth_profile)%nat ->
  exists (la : LayerAnalysis) (init : list Layer) (final : Layer),
    analyze_depth_profile depth_profile = Ok la
    /\ layers la = init ++ [final]
    /\ contiguous (layers la)
    /\ Forall (fun l => start_depth l <= end_depth l) (layers la)
    /\ hd_error (map start_depth (layers la)) = Some (depth_of 0)
    /\ end_depth final = depth_of (length depth_profile - 1).
Proof.
  intros Hlen.
  destruct (np_gradient_defined _ Hlen) as [g Hg].
  pose proof (np_gradient_length _ _ Hg) as Hgl.
  unfold analyze_depth_profile. rewrite Hg. cbn [mbind result_bind].
  set (bs := boundary_indices (map Qabs g)).
  assert (Hbs : Forall (fun b => (b < length depth_profile)%nat) bs).
  { pose proof (boundary_indices_bound (map Qabs g)) as H.
    rewrite length_map, Hgl in H. exact H. }
  destruct (layer_loop_chain depth_profile bs 0 [] (length depth_profile)
              chain_nil ltac:(lia) Hbs) as [Hch Hlt].
  destruct (layer_loop depth_profile bs 0 []) as [start_idx acc].
  cbn [fst snd] in Hch, Hlt.
  destruct (start_idx <? length depth_profile)%nat eqn:E;
    [| apply Nat.ltb_ge in E; lia].
  set (final := {| start_depth := _ |}).
  assert (Hfinal : end_depth final = depth_of (length depth_profile - 1)).
  { unfold final, depth_of. cbn [end_depth]. do 2 f_equal. lia. }
  eexists _, acc, final. split; [reflexivity |]. cbn [layers].
  split; [reflexivity |].
  destruct (chain_facts _ _ Hch) as (Hc & Hasc & Hfirst & Hlast).
  assert (Hstart : start_depth final = depth_of start_idx) by reflexivity.
  repeat split.
  - destruct acc as [| a0 acc0] using rev_ind; [exact I |].
    apply contiguous_snoc; [exact Hc |].
    rewrite last_snoc in Hlast. congruence.
  - apply Forall_app. split; [exact Hasc |].
    constructor; [| constructor].
    change (start_depth final <= end_depth final).
    rewrite Hstart, Hfinal. apply depth_of_mono. lia.
  - destruct acc as [| first rest]; cbn [app map hd_error].
    + now rewrite Hstart, Hfirst.
    + now rewrite Hfirst.
  - exact Hfinal.
Qed.

(** C7 at the failing input.  On a profile of one sample [np.gradient]
    raises, so [analyze_depth_profile] raises instead of returning the
    single layer that spans the profile. *)
Theorem analyze_depth_profile_single_sample :
  analyze_depth_profile [0.5] = Raise ValueError.
Proof. reflexivity. Qed.

(** The same happens on the empty profile. *)
Lemma analyze_depth_profile_empty :
  analyze_depth_profile [] = Raise ValueError.
Proof. reflexivity. Qed.

End RadarSpec.

(** ** Feature extraction: when it returns *)

Module SpectralSpec.
Import Spectral.

Lemma returns_bind {A B : Type} (r : result A) (k : A -> result B) :
  returns (r ≫= k)
  = match r with Ok a => returns (k a) | Raise _ => false end.
Proof. destruct r; reflexivity. Qed.

Lemma select_masked_nonempty (xs : list Q) :
  forall mask, length xs = length mask -> np_any mask = true ->
               select_masked xs mask <> [].
Proof.
  induction xs as [| v xs IH]; intros [| m mask] Hlen Hany;
    try discriminate.
  cbn in *. destruct m; [discriminate |].
  apply IH; [lia | exact Hany].
Qed.

Lemma np_any_map {A : Type} (f : A -> bool) (xs : list A) :
  np_any (map f xs) = existsb f xs.
Proof.
  unfold np_any. induction xs as [| v xs IH]; [reflexivity |].
  cbn [map existsb]. now rewrite IH.
Qed.

Lemma get_peak_intensity_returns (wavelengths intensities : list Q) (a b : Q) :
  returns (get_peak_intensity wavelengths intensities a b)
  = negb (existsb (fun w => Qle_bool a w && Qle_bool w b) wavelengths)
    || (length intensities =? length wavelengths)%nat.
Proof.
  unfold get_peak_intensity.
  set (mask := map _ wavelengths).
  assert (Hany : np_any mask
                 = existsb (fun w => Qle_bool a w && Qle_bool w b) wavelengths)
    by apply np_any_map.
  assert (Hml : length mask = length wavelengths) by apply length_map.
  rewrite <- Hany.
  destruct (np_any mask) eqn:E; cbn [negb orb]; [| reflexivity].
  unfold boolean_index. rewrite Hml.
  destruct (length intensities =? length wavelengths)%nat eqn:El;
    [| reflexivity].
  apply Nat.eqb_eq in El. cbn [mbind result_bind].
  pose proof (select_masked_nonempty intensities mask ltac:(lia) E) as Hne.
  destruct (select_masked intensities mask); [contradiction | reflexivity].
Qed.

(** The loop over the four signatures reads three bands. *)
Lemma extract_material_features_unfold (wavelengths intensities : list Q) :
  extract_material_features wavelengths intensities
  = (fe ← get_peak_intensity wavelengths intensities 290 310;
     si ← get_peak_intensity wavelengths intensities 900 1000;
     ch ← get_peak_intensity wavelengths intensities 1600 1700;
     Ok [fe; 0; 0; 0; si; 0; 0; 0; ch]).
Proof.
  unfold extract_material_features.
  change (material_features_loop wavelengths intensities reference_signatures [])
    with (fe ← get_peak_intensity wavelengths intensities 290 310;
          si ← get_peak_intensity wavelengths intensities 900 1000;
          ch ← get_peak_intensity wavelengths intensities 1600 1700;
          Ok [fe; 0; 0; 0; si; 0; 0; 0; ch; 0; 0; 0]).
  destruct (get_peak_intensity wavelengths intensities 290 310);
    [| reflexivity].
  destruct (get_peak_intensity wavelengths intensities 900 1000);
    [| reflexivity].
  destruct (get_peak_intensity wavelengths intensities 1600 1700);
    reflexivity.
Qed.

Lemma existsb_in_signature_band (wavelengths : list Q) :
  existsb in_signature_band wavelengths
  = existsb (fun w => Qle_bool 290 w && Qle_bool w 310) wavelengths
    || existsb (fun w => Qle_bool 900 w && Qle_bool w 1000) wavelengths
    || existsb (fun w => Qle_bool 1600 w && Qle_bool w 1700) wavelengths.
Proof.
  induction wavelengths as [| w ws IH]; [reflexivity |].
  cbn [existsb]. rewrite IH. unfold in_signature_band.
  repeat match goal with |- context [existsb ?f ws] =>
    generalize (existsb f ws); intro end.
  repeat match goal with |- context [Qle_bool ?p ?q] =>
    generalize (Qle_bool p q); intro end.
  repeat match goal with b : bool |- _ => destruct b end; reflexivity.
Qed.

Lemma extract_material_features_returns (wavelengths intensities : list Q) :
  returns (extract_material_features wavelengths intensities)
  = (length intensities =? length wavelengths)%nat
    || negb (existsb in_signature_band wavelengths).
Proof.
  rewrite extract_material_features_unfold, existsb_in_signature_band.
  pose proof (get_peak_intensity_returns wavelengths intensities 290 310) as H1.
  pose proof (get_peak_intensity_returns wavelengths intensities 900 1000) as H2.
  pose proof (get_peak_intensity_returns wavelengths intensities 1600 1700) as H3.
  rewrite returns_bind.
  destruct (get_peak_intensity wavelengths intensities 290 310) as [fe | e1];
    cbn [returns] in H1;
    [rewrite returns_bind;
     destruct (get_peak_intensity wavelengths intensities 900 1000) as [si | e2];
     cbn [returns] in H2;
     [rewrite returns_bind;
      destruct (get_peak_intensity wavelengths intensities 1600 1700) as [ch | e3];
      cbn [returns] in H3 |] |];
    cbn [returns];
    repeat match goal with |- context [existsb ?f wavelengths] =>
      generalize dependent (existsb f wavelengths); intros end;
    destruct (length intensities =? length wavelengths)%nat;
    repeat match goal with b : bool |- _ => destruct b end;
    cbn in *; congruence.
Qed.

Lemma normalize_length (intensities normalized : list Q) :
  normalize intensities = Ok normalized ->
  length normalized = length intensities /\ intensities <> [].
Proof.
  unfold normalize. destruct intensities as [| v rest]; [discriminate |].
  cbn [np_max np_min mbind result_bind].
  remember (v :: rest) as l eqn:El.
  destruct (negb _); intros [= <-]; (split; [apply length_map | ]);
    subst l; discriminate.
Qed.

(** Feature extraction returns a vector exactly when the intensities are
    not empty and either the wavelengths are as many as the intensities or
    no wavelength lies in a band that the material features read. *)
Lemma preprocess_spectrum_returns (wavelengths intensities : list Q) :
  returns (preprocess_spectrum wavelengths intensities)
  = match intensities with
    | [] => false
    | _ => (length intensities =? length wavelengths)%nat
           || negb (existsb in_signature_band wavelengths)
    end.
Proof.
  unfold preprocess_spectrum. rewrite returns_bind.
  destruct (normalize intensities) as [normalized | e] eqn:Hn.
  - destruct (normalize_length _ _ Hn) as [Hlen Hne].
    destruct intensities as [| v rest]; [contradiction |].
    destruct normalized as [| v' rest']; [cbn in Hlen; discriminate |].
    cbn [np_max np_min mbind result_bind].
    rewrite returns_bind.
    pose proof (extract_material_features_returns wavelengths (v' :: rest'))
      as Hx.
    rewrite Hlen in Hx.
    destruct (extract_material_features wavelengths (v' :: rest'));
      cbn [returns] in *; exact Hx.
  - destruct intensities as [| v rest]; [reflexivity |].
    unfold normalize in Hn. cbn [np_max np_min mbind result_bind] in Hn.
    destruct (negb _) in Hn; discriminate.
Qed.

End SpectralSpec.

(** ** Malformed input: short profiles and mismatched spectra *)

Module MalformedInputSpec.
Import Radar RadarSpec Spectral SpectralSpec.

Lemma interior_maxima_from_interior (xs : list Q) (height : Q) :
  forall k i, In i (interior_maxima_from xs height k) ->
              (k < i < k + length xs - 1)%nat.
Proof.
  induction xs as [| a rest IH]; intros k i Hin; [destruct Hin |].
  destruct rest as [| b [| c rest']]; try destruct Hin.
  cbn [interior_maxima_from] in Hin.
  assert (Hrec : In i (interior_maxima_from (b :: c :: rest') height (S k))
                 -> (k < i < k + length (a :: b :: c :: rest') - 1)%nat).
  { intros H. apply IH in H. cbn [length] in *. lia. }
  destruct (_ && _) in Hin; [| now apply Hrec].
  destruct Hin as [<- | Hin]; [cbn [length]; lia | now apply Hrec].
Qed.

Lemma interior_maxima_interior (xs : list Q) (height : Q) (distance : Z) (i : nat) :
  In i (interior_maxima xs height distance) -> (0 < i < length xs - 1)%nat.
Proof.
  intros H. apply interior_maxima_from_interior in H. lia.
Qed.

Section ShortProfiles.

Variable coefficients : Type.
Variable butter : nat -> Q * Q -> result coefficients.
Variable filtfilt : coefficients -> list Q -> result (list Q).
Variable savgol_filter : list Q -> nat -> nat -> result (list Q).
Variable find_peaks : list Q -> Q -> Z -> list nat.

(** SciPy reports as peaks only samples that have a neighbour on each
    side. *)
Hypothesis find_peaks_interior :
  forall xs height distance i,
    In i (find_peaks xs height distance) -> (0 < i < length xs - 1)%nat.

Lemma find_peaks_short (xs : list Q) (height : Q) (distance : Z) :
  (length xs < 3)%nat -> find_peaks xs height distance = [].
Proof.
  intros Hlen.
  destruct (find_peaks xs height distance) as [| i rest] eqn:E;
    [reflexivity |].
  assert (Hin : In i (find_peaks xs height distance))
    by (rewrite E; now left).
  apply find_peaks_interior in Hin. lia.
Qed.

(** C3, as the code has it.  A depth profile of fewer than three samples,
    the empty one included, is returned unmodified by conditioning and
    yields the empty anomaly list, without an exception.  Feature extraction
    has no check of the two lengths: it returns a feature vector exactly
    when the intensities are not empty and either the wavelengths are as
    many as the intensities or no wavelength lies in a signature band. *)
Theorem short_profiles_and_mismatched_spectra
  (depth_profile : list Q) (x_position y_position : Q)
  (wavelengths intensities : list Q) :
  (length depth_profile < 3)%nat ->
  preprocess_signal coefficients butter filtfilt savgol_filter
    depth_profile 1000 = Ok depth_profile
  /\ detect_anomalies coefficients butter filtfilt savgol_filter find_peaks
       depth_profile x_position y_position = Ok []
  /\ returns (preprocess_spectrum wavelengths intensities)
     = match intensities with
       | [] => false
       | _ => (length intensities =? length wavelengths)%nat
              || negb (existsb in_signature_band wavelengths)
       end.
Proof.
  intros Hlen.
  assert (Hpre : preprocess_signal coefficients butter filtfilt savgol_filter
                   depth_profile 1000 = Ok depth_profile).
  { unfold preprocess_signal.
    destruct (length depth_profile <? 3)%nat eqn:E; [reflexivity |].
    apply Nat.ltb_ge in E. lia. }
  split; [exact Hpre |]. split; [| apply preprocess_spectrum_returns].
  unfold detect_anomalies.
  destruct depth_profile as [| v rest] eqn:Ep; [reflexivity |].
  rewrite Hpre. cbn [mbind result_bind].
  unfold detect_reflections.
  rewrite find_peaks_short; [reflexivity |].
  now rewrite length_map.
Qed.

End ShortProfiles.

Lemma short_profiles_and_mismatched_spectra_witness :
  (length [0.4%Q; 0.9%Q] < 3)%nat
  /\ preprocess_signal unit accept_band remove_mean no_smoothing [0.4; 0.9] 1000
     = Ok [0.4; 0.9]
  /\ detect_anomalies unit accept_band remove_mean no_smoothing interior_maxima
       [0.4; 0.9] 0 0 = Ok []
  /\ returns (preprocess_spectrum [300; 500] [1; 2; 3]) = false.
Proof.
  assert (H : (length [0.4%Q; 0.9%Q] < 3)%nat) by (simpl; lia).
  split; [exact H |].
  apply (short_profiles_and_mismatched_spectra unit accept_band remove_mean
           no_smoothing interior_maxima interior_maxima_interior
           [0.4; 0.9] 0 0 [300; 500] [1; 2; 3] H).
Defined.

(** Three malformed inputs that are not answered by a degraded result.  A
    spectrum of one wavelength and two intensities yields a feature vector
    that is not zero; with the wavelength moved into the iron band the masked
    index raises; and layer analysis raises on the empty profile. *)
Lemma mismatched_spectrum_counterexample :
  (exists features,
     preprocess_spectrum [500] [1; 2] = Ok features
     /\ forallb is_zero features = false)
  /\ preprocess_spectrum [300] [1; 2] = Raise IndexError
  /\ analyze_depth_profile [] = Raise ValueError.
Proof.
  split; [| split; vm_compute; reflexivity].
  eexists. split; [vm_compute; reflexivity | vm_compute; reflexivity].
Qed.

End MalformedInputSpec.

(** ** The broadcast hub: delivery and failure isolation *)

Module HubSpec.
Import Hub.

Section Delivery.

Variable pydict : Type.
Variable send_text : WebSocket -> string -> result unit.

#[local] Abbreviation Manager := (ConnectionManager pydict).
#[local] Abbreviation broadcast := (Hub.broadcast pydict send_text).
#[local] Abbreviation deliver := (Hub.deliver send_text).
#[local] Abbreviation drop := (Hub.drop pydict).
#[local] Abbreviation delivers := (Hub.delivers send_text).
#[local] Abbreviation fails := (Hub.fails send_text).

Lemma delivers_or_fails (message : string) (c : WebSocket) :
  delivers message c <-> ~ fails message c.
Proof. unfold delivers, fails. destruct (returns _); split; congruence. Qed.

(** The delivery loop visits every connection of the list in turn, records
    the outcome of its send, and collects exactly the failing ones. *)
Lemma deliver_loop (message : string) (l : list WebSocket) :
  forall (disconnected : gset WebSocket) (n : nat) (w : World),
    let '(disconnected', n', w') :=
      fold_left (deliver message) l (disconnected, n, w) in
    disconnected' = list_to_set (filter (fails message) l) ∪ disconnected
    /\ n' = (n + length (filter (delivers message) l))%nat
    /\ transcript w'
       = transcript w ++ map (fun c => (c, message, send_text c message)) l.
Proof.
  induction l as [| c l IH]; intros disconnected n w.
  - cbn. split; [set_solver | split; [lia | now rewrite app_nil_r]].
  - cbn [fold_left].
    assert (Hstep :
      exists w1,
        deliver message (disconnected, n, w) c
        = (if decide (fails message c) then {[c]} ∪ disconnected
           else disconnected,
           if decide (delivers message c) then S n else n, w1)
        /\ transcript w1 = transcript w ++ [(c, message, send_text c message)]).
    { unfold Hub.deliver.
      destruct (send_text c message) as [[] | e] eqn:E.
      - assert (Hd : delivers message c) by (unfold delivers; now rewrite E).
        assert (Hf : ~ fails message c)
          by (unfold fails; rewrite E; discriminate).
        eexists. rewrite (decide_True _ _ Hd), (decide_False _ _ Hf).
        split; reflexivity.
      - assert (Hd : ~ delivers message c)
          by (unfold delivers; rewrite E; discriminate).
        assert (Hf : fails message c) by (unfold fails; now rewrite E).
        rewrite (decide_False _ _ Hd), (decide_True _ _ Hf).
        destruct e; eexists; split; reflexivity. }
    destruct Hstep as (w1 & -> & Hw1).
    specialize (IH (if decide (fails message c) then {[c]} ∪ disconnected
                    else disconnected)
                   (if decide (delivers message c) then S n else n) w1).
    destruct (fold_left _ l _) as [[d' n'] w'].
    destruct IH as (Hd & Hn & Ht). subst d' n'.
    rewrite Ht, Hw1, <- app_assoc. cbn [map app].
    rewrite !filter_cons.
    pose proof (delivers_or_fails message c) as Hdf.
    repeat case_decide; try tauto;
      (split; [set_solver | split; [cbn [length]; lia | reflexivity]]).
Qed.

(** The clean-up loop removes the listed connections and nothing else. *)
Lemma drop_loop (l : list WebSocket) :
  forall (st : Manager * World),
    let st' := fold_left drop l st in
    active_connections pydict (fst st')
    = active_connections pydict (fst st) ∖ list_to_set l
    /\ message_buffer pydict (fst st') = message_buffer pydict (fst st)
    /\ buffer_size pydict (fst st') = buffer_size pydict (fst st)
    /\ loop pydict (fst st') = loop pydict (fst st)
    /\ transcript (snd st') = transcript (snd st).
Proof.
  induction l as [| c l IH]; intros st; cbn zeta.
  - cbn [fold_left list_to_set]. repeat split. set_solver.
  - cbn [fold_left].
    destruct (IH (drop st c)) as (Ha & Hb & Hs & Hl & Ht).
    rewrite Ha, Hb, Hs, Hl, Ht.
    unfold Hub.drop, disconnect. cbn [fst snd active_connections
      message_buffer buffer_size loop logged transcript list_to_set].
    repeat split. set_solver.
Qed.

Lemma list_to_set_filter_elements
  (P : WebSocket -> Prop) `{!forall c, Decision (P c)} (A : gset WebSocket) :
  list_to_set (filter P (elements A)) = (filter P A : gset WebSocket).
Proof.
  apply set_eq. intros c.
  rewrite elem_of_list_to_set, list_elem_of_filter, elem_of_elements,
    elem_of_filter.
  reflexivity.
Qed.

(** What a call of [broadcast] does to the hub and to the world. *)
Lemma broadcast_effect (self : Manager) (w : World) (message : string) :
  let st := broadcast self w message in
  active_connections pydict (fst st)
  = active_connections pydict self
    ∖ filter (fails message) (active_connections pydict self)
  /\ message_buffer pydict (fst st) = message_buffer pydict self
  /\ buffer_size pydict (fst st) = buffer_size pydict self
  /\ loop pydict (fst st) = loop pydict self
  /\ transcript (snd st)
     = transcript w
       ++ map (fun c => (c, message, send_text c message))
            (elements (active_connections pydict self)).
Proof.
  unfold Hub.broadcast.
  pose proof (deliver_loop message (elements (active_connections pydict self))
                ∅ 0%nat
                (logged w (InfoAttempting (size (active_connections pydict self)))))
    as Hd.
  destruct (fold_left _ (elements _) (∅, 0%nat, _)) as [[disc n] w1].
  destruct Hd as (Hdisc & _ & Ht1).
  pose proof (drop_loop (elements disc) (self, w1)) as Hdrop.
  destruct (fold_left _ (elements disc) (self, w1)) as [self' w2].
  cbn [fst snd] in *. cbn zeta in Hdrop.
  destruct Hdrop as (Ha & Hb & Hs & Hl & Ht2).
  repeat split; try assumption.
  - rewrite Ha, list_to_set_elements_L, Hdisc, list_to_set_filter_elements.
    set_solver.
  - cbn [logged transcript]. rewrite Ht2, Ht1. reflexivity.
Qed.

(** C5.  A broadcast attempts one send to every connection that is active
    when it starts, whatever the outcome of the sends before it; the
    connections that remain registered afterwards are exactly those whose
    send succeeded, so with n active connections of which k fail, n - k
    remain and each of them was sent the message; the k failing ones are no
    longer registered. *)
Theorem broadcast_isolates_failures
  (self : Manager) (w : World) (message : string) :
  let active := active_connections pydict self in
  let st := broadcast self w message in
  transcript (snd st)
  = transcript w
    ++ map (fun c => (c, message, send_text c message)) (elements active)
  /\ active_connections pydict (fst st) = filter (delivers message) active
  /\ (size (active_connections pydict (fst st))
      + size (filter (fails message) active : gset WebSocket)
      = size active)%nat
  /\ (forall c, c ∈ active -> fails message c ->
                c ∉ active_connections pydict (fst st))
  /\ (forall c, c ∈ active -> delivers message c ->
                c ∈ active_connections pydict (fst st)
                /\ In (c, message, Ok tt) (transcript (snd st))).
Proof.
  intros active st.
  destruct (broadcast_effect self w message) as (Ha & _ & _ & _ & Ht).
  fold st active in Ha, Ht.
  assert (Hkeep : active_connections pydict (fst st)
                  = filter (delivers message) active).
  { rewrite Ha. apply set_eq. intros c.
    rewrite elem_of_difference, !elem_of_filter.
    pose proof (delivers_or_fails message c). tauto. }
  split; [exact Ht |]. split; [exact Hkeep |].
  split; [| split].
  - rewrite Hkeep, <- size_union.
    + f_equal. apply set_eq. intros c.
      rewrite elem_of_union, !elem_of_filter.
      pose proof (delivers_or_fails message c).
      destruct (decide (fails message c)); tauto.
    + intros c. rewrite !elem_of_filter.
      pose proof (delivers_or_fails message c). tauto.
  - intros c Hc Hf. rewrite Hkeep, elem_of_filter.
    pose proof (delivers_or_fails message c). tauto.
  - intros c Hc Hd. split.
    + rewrite Hkeep, elem_of_filter. tauto.
    + rewrite Ht. apply in_or_app. right.
      apply in_map_iff. exists c. split.
      * unfold delivers in Hd.
        destruct (send_text c message) as [[] | e]; [reflexivity | discriminate].
      * apply list_elem_of_In, elem_of_elements, Hc.
Qed.

End Delivery.

(** ** The broadcast hub: the ring buffer *)

Section Buffering.

Variable pydict : Type.
Variable send_text : WebSocket -> string -> result unit.
Variable json_dumps : SensorData pydict -> result string.
Variable policy_get_event_loop : result EventLoop.
Variable dispatched : dispatch_outcome.

#[local] Abbreviation Manager := (ConnectionManager pydict).
#[local] Abbreviation Payload := (SensorData pydict).
#[local] Abbreviation apply :=
  (Hub.apply pydict send_text json_dumps policy_get_event_loop dispatched).
#[local] Abbreviation run :=
  (Hub.run pydict send_text json_dumps policy_get_event_loop dispatched).
#[local] Abbreviation buffer_of := (message_buffer pydict).
#[local] Abbreviation bounded := (Hub.bounded pydict).

Lemma add_to_buffer_window (self : Manager) (data : Payload) :
  bounded self ->
  bounded (add_to_buffer pydict self data)
  /\ buffer_of (add_to_buffer pydict self data)
     = skipn (length (buffer_of self ++ [data]) - 100) (buffer_of self ++ [data]).
Proof.
  intros [Hcap Hlen]. unfold bounded, add_to_buffer.
  cbn [buffer_size message_buffer]. rewrite Hcap.
  rewrite length_app. cbn [length].
  destruct (100 <? length (buffer_of self) + 1)%nat eqn:E.
  - apply Nat.ltb_lt in E.
    replace (length (buffer_of self) + 1 - 100)%nat with 1%nat by lia.
    destruct (buffer_of self) as [| h t] eqn:Eb; cbn [length] in *; [lia |].
    cbn [app tl skipn]. rewrite length_app. cbn [length].
    repeat split; try lia.
  - apply Nat.ltb_ge in E.
    replace (length (buffer_of self) + 1 - 100)%nat with 0%nat by lia.
    cbn [skipn]. rewrite length_app. cbn [length].
    repeat split; try lia.
Qed.

Lemma broadcast_keeps_buffer (self : Manager) (w : World) (message : string) :
  buffer_of (fst (Hub.broadcast pydict send_text self w message))
  = buffer_of self
  /\ buffer_size pydict (fst (Hub.broadcast pydict send_text self w message))
     = buffer_size pydict self.
Proof.
  destruct (broadcast_effect pydict send_text self w message)
    as (_ & Hb & Hs & _).
  split; assumption.
Qed.

Lemma broadcast_bounded (self : Manager) (w : World) (message : string) :
  bounded self ->
  bounded (fst (Hub.broadcast pydict send_text self w message)).
Proof.
  unfold bounded.
  destruct (broadcast_keeps_buffer self w message) as [-> ->]. tauto.
Qed.

(** What [send_sensor_data] does when the payload serializes: the broadcast
    first, then the append. *)
Lemma send_sensor_data_effect
  (self : Manager) (w : World) (data : Payload) (message : string) :
  json_dumps data = Ok message ->
  send_sensor_data pydict send_text json_dumps self w data
  = Ok (add_to_buffer pydict
          (fst (Hub.broadcast pydict send_text self w message)) data,
        snd (Hub.broadcast pydict send_text self w message)).
Proof.
  intros H. unfold send_sensor_data. rewrite H. cbn [mbind result_bind].
  now destruct (Hub.broadcast pydict send_text self w message).
Qed.

Lemma dispatch_from_thread_bounded
  (self : Manager) (w : World) (data : Payload) (target : EventLoop) :
  bounded self ->
  bounded (manager pydict
             (dispatch_from_thread pydict send_text json_dumps dispatched
                self w data target)).
Proof.
  intros Hb. unfold dispatch_from_thread.
  destruct (json_dumps data) as [message | e]; [| exact Hb].
  destruct (run_coroutine_threadsafe target) as [[] | e]; [| exact Hb].
  destruct (future_result dispatched target 1) as [[[] | e] seconds];
    [| exact Hb].
  pose proof (broadcast_bounded self w message Hb) as Hb'.
  now destruct (Hub.broadcast pydict send_text self w message).
Qed.

(** Every operation keeps the buffer within its capacity. *)
Lemma apply_bounded (st : Manager * World) (op : operation pydict) :
  bounded (fst st) -> bounded (fst (apply st op)).
Proof.
  destruct st as [self w]. cbn [fst]. intros Hb.
  destruct op as [ws running | ws | message | data | data | data];
    cbn [Hub.apply].
  - exact Hb.
  - exact Hb.
  - now apply broadcast_bounded.
  - now apply add_to_buffer_window.
  - unfold send_sensor_data.
    destruct (json_dumps data) as [message | e]; cbn [mbind result_bind];
      [| exact Hb].
    pose proof (broadcast_bounded self w message Hb) as Hb'.
    destruct (Hub.broadcast pydict send_text self w message) as [self' w'].
    now apply add_to_buffer_window.
  - cbn [fst]. unfold send_sensor_data_from_thread.
    destruct (loop pydict self) as [target |].
    + now apply dispatch_from_thread_bounded.
    + destruct policy_get_event_loop as [target | e].
      * now apply dispatch_from_thread_bounded.
      * destruct e; exact Hb.
Qed.

Lemma fold_apply_bounded (ops : list (operation pydict)) :
  forall st, bounded (fst st) -> bounded (fst (fold_left apply ops st)).
Proof.
  induction ops as [| op ops IH]; intros st Hb; [exact Hb |].
  cbn [fold_left]. apply IH. now apply apply_bounded.
Qed.

Lemma run_bounded (ops : list (operation pydict)) : bounded (fst (run ops)).
Proof.
  unfold Hub.run. apply fold_apply_bounded.
  split; [reflexivity | cbn; lia].
Qed.

Lemma skipn_window {A : Type} (buffer : list A) (d : A) (ds : list A) :
  let first := skipn (length (buffer ++ [d]) - 100) (buffer ++ [d]) in
  skipn (length (first ++ ds) - 100) (first ++ ds)
  = skipn (length (buffer ++ d :: ds) - 100) (buffer ++ d :: ds).
Proof.
  cbn zeta.
  set (k := (length (buffer ++ [d]) - 100)%nat).
  assert (Hk : (k <= length (buffer ++ [d]))%nat) by (unfold k; lia).
  assert (Hfirst : skipn k (buffer ++ [d]) ++ ds = skipn k (buffer ++ d :: ds)).
  { replace (buffer ++ d :: ds) with ((buffer ++ [d]) ++ ds)
      by now rewrite <- app_assoc.
    rewrite (skipn_app k (buffer ++ [d]) ds).
    replace (k - length (buffer ++ [d]))%nat with 0%nat by lia.
    reflexivity. }
  rewrite Hfirst, length_skipn, skipn_skipn.
  f_equal. unfold k in *. rewrite !length_app in *. cbn [length] in *. lia.
Qed.

Lemma send_all_window (ds : list Payload) :
  (forall d, In d ds -> returns (json_dumps d) = true) ->
  forall st, bounded (fst st) ->
    buffer_of (fst (fold_left apply (map (SendSensorData pydict) ds) st))
    = skipn (length (buffer_of (fst st) ++ ds) - 100) (buffer_of (fst st) ++ ds).
Proof.
  induction ds as [| d ds IH]; intros Hser st Hb.
  - cbn [map fold_left]. rewrite app_nil_r.
    destruct Hb as [_ Hlen].
    replace (length (buffer_of (fst st)) - 100)%nat with 0%nat by lia.
    reflexivity.
  - cbn [map fold_left].
    assert (Hd : returns (json_dumps d) = true) by (apply Hser; now left).
    rewrite IH;
      [| intros d' Hin; apply Hser; now right | now apply apply_bounded].
    destruct st as [self w]. cbn [Hub.apply fst].
    destruct (json_dumps d) as [message | e] eqn:Ej; [| discriminate].
    rewrite (send_sensor_data_effect self w d message Ej). cbn [fst].
    destruct (broadcast_keeps_buffer self w message) as [Hbuf Hcap].
    pose proof (broadcast_bounded self w message Hb) as Hb'.
    destruct (add_to_buffer_window _ d Hb') as [_ ->].
    rewrite Hbuf. apply skipn_window.
Qed.

(** C4, as the code has it.  From any state a fresh hub can reach, a run of
    [send_sensor_data] calls whose payloads serialize leaves in the buffer
    the last 100 entries of the old buffer followed by the payloads in the
    order sent; the capacity stays 100 and the buffer never holds more. *)
Theorem send_sensor_data_ring_buffer
  (ops : list (operation pydict)) (ds : list Payload) :
  (forall d, In d ds -> returns (json_dumps d) = true) ->
  let before := run ops in
  let after := fold_left apply (map (SendSensorData pydict) ds) before in
  buffer_size pydict (fst after) = 100%nat
  /\ (length (buffer_of (fst after)) <= 100)%nat
  /\ buffer_of (fst after)
     = skipn (length (buffer_of (fst before) ++ ds) - 100)
         (buffer_of (fst before) ++ ds).
Proof.
  intros Hser before after.
  pose proof (run_bounded ops) as Hb. fold before in Hb.
  destruct (fold_apply_bounded (map (SendSensorData pydict) ds) before Hb)
    as [Hcap Hlen].
  split; [exact Hcap |]. split; [exact Hlen |].
  now apply send_all_window.
Qed.

(** After capacity + 1 appends to a fresh hub the first payload is gone:
    the buffer holds the other 100. *)
Lemma first_payload_evicted (d : Payload) (ds : list Payload) :
  (forall d', In d' (d :: ds) -> returns (json_dumps d') = true) ->
  length ds = 100%nat ->
  buffer_of (fst (run (map (SendSensorData pydict) (d :: ds)))) = ds.
Proof.
  intros Hser Hlen. unfold Hub.run.
  rewrite (send_all_window (d :: ds) Hser);
    [| split; [reflexivity | cbn; lia]].
  cbn [fst Hub.init message_buffer app].
  change (length (d :: ds)) with (S (length ds)). rewrite Hlen.
  reflexivity.
Qed.

End Buffering.

Lemma send_sensor_data_ring_buffer_witness :
  (forall d, In d [frame 1; frame 2] -> returns (serialize d) = true)
  /\ buffer_size unit
       (fst (fold_left
               (Hub.apply unit always_delivers serialize
                  (Raise RuntimeError) Never)
               (map (SendSensorData unit) [frame 1; frame 2])
               (Hub.run unit always_delivers serialize (Raise RuntimeError)
                  Never [Connect unit 7%nat RunningLoop])))
     = 100%nat
  /\ (length
        (message_buffer unit
           (fst (fold_left
                   (Hub.apply unit always_delivers serialize
                      (Raise RuntimeError) Never)
                   (map (SendSensorData unit) [frame 1; frame 2])
                   (Hub.run unit always_delivers serialize
                      (Raise RuntimeError) Never
                      [Connect unit 7%nat RunningLoop]))))
      <= 100)%nat
  /\ message_buffer unit
       (fst (fold_left
               (Hub.apply unit always_delivers serialize
                  (Raise RuntimeError) Never)
               (map (SendSensorData unit) [frame 1; frame 2])
               (Hub.run unit always_delivers serialize (Raise RuntimeError)
                  Never [Connect unit 7%nat RunningLoop])))
     = [frame 1; frame 2].
Proof.
  assert (H : forall d, In d [frame 1; frame 2] -> returns (serialize d) = true)
    by (intros d _; reflexivity).
  split; [exact H |].
  apply (send_sensor_data_ring_buffer unit always_delivers serialize
           (Raise RuntimeError) Never
           [Connect unit 7%nat RunningLoop] [frame 1; frame 2] H).
Defined.

(** A broadcast that reaches its client leaves the buffer empty: the
    [broadcast] method does not write to it, and neither does the entry
    point for worker threads, which calls [broadcast] directly. *)
Lemma broadcast_does_not_buffer :
  transcript
    (snd (Hub.broadcast unit always_delivers
            (fst (connect unit (init unit) quiet 7%nat RunningLoop)) quiet "frame"))
  = [(7%nat, "frame"%string, Ok tt)]
  /\ message_buffer unit
       (fst (Hub.broadcast unit always_delivers
               (fst (connect unit (init unit) quiet 7%nat RunningLoop)) quiet "frame"))
     = []
  /\ transcript
       (world unit
          (send_sensor_data_from_thread unit always_delivers serialize
             (Raise RuntimeError) (Completes 0.01)
             (fst (connect unit (init unit) quiet 7%nat RunningLoop)) quiet (frame 1)))
     = [(7%nat, "frame"%string, Ok tt)]
  /\ message_buffer unit
       (manager unit
          (send_sensor_data_from_thread unit always_delivers serialize
             (Raise RuntimeError) (Completes 0.01)
             (fst (connect unit (init unit) quiet 7%nat RunningLoop)) quiet (frame 1)))
     = [].
Proof. vm_compute. repeat split; reflexivity. Qed.

(** Three clients, the odd-numbered one gone: the other two are sent the
    message and stay registered. *)
Example broadcast_two_of_three :
  let hub :=
    fst (Hub.run unit odd_disconnected serialize (Raise RuntimeError) Never
           [Connect unit 2%nat RunningLoop; Connect unit 3%nat RunningLoop;
            Connect unit 4%nat RunningLoop]) in
  let st := Hub.broadcast unit odd_disconnected hub quiet "frame" in
  size (active_connections unit hub) = 3%nat
  /\ elements (active_connections unit (fst st)) ≡ₚ [2%nat; 4%nat]
  /\ length (transcript (snd st)) = 3%nat.
Proof.
  vm_compute. split; [reflexivity |]. split; [| reflexivity].
  apply perm_swap || reflexivity.
Qed.

(** ** The broadcast hub: dispatch from a worker thread *)

Section ThreadDispatch.

Variable pydict : Type.
Variable send_text : WebSocket -> string -> result unit.
Variable json_dumps : SensorData pydict -> result string.
Variable policy_get_event_loop : result EventLoop.
Variable dispatched : dispatch_outcome.

#[local] Abbreviation from_thread :=
  (send_sensor_data_from_thread pydict send_text json_dumps
     policy_get_event_loop dispatched).

Lemma future_result_blocked (target : EventLoop) (timeout : Q) :
  snd (future_result dispatched target timeout) <= timeout.
Proof.
  unfold future_result.
  destruct target; try (cbn; lra).
  destruct dispatched as [seconds | e seconds |]; try (cbn; lra);
    destruct (Qle_bool seconds timeout) eqn:E; cbn [snd];
    try apply Qle_bool_iff in E; lra.
Qed.

(** With a payload that serializes and a loop that is not closed, the call
    returns normally and blocks the caller for at most one second, however
    the dispatched broadcast ends. *)
Lemma dispatch_from_thread_returns
  (self : ConnectionManager pydict) (w : World) (data : SensorData pydict)
  (target : EventLoop) :
  returns (json_dumps data) = true -> target <> ClosedLoop ->
  raised pydict
    (dispatch_from_thread pydict send_text json_dumps dispatched
       self w data target) = None
  /\ blocked pydict
       (dispatch_from_thread pydict send_text json_dumps dispatched
          self w data target) <= 1.
Proof.
  intros Hser Hopen. unfold dispatch_from_thread.
  destruct (json_dumps data) as [message | e]; [| discriminate].
  destruct target; try contradiction; cbn [run_coroutine_threadsafe];
    match goal with |- context [future_result ?d ?t 1] =>
      pose proof (future_result_blocked t 1) as Hb;
      destruct (future_result d t 1) as [[[] | e] seconds]
    end; cbn [snd] in Hb;
    try destruct (Hub.broadcast pydict send_text self w message);
    cbn [raised blocked]; split; (reflexivity || exact Hb).
Qed.

(** Without a loop reference and without a loop in the calling thread, the
    call logs the error and returns, leaving the hub as it was. *)
Lemma from_thread_no_event_loop
  (self : ConnectionManager pydict) (w : World) (data : SensorData pydict) :
  loop pydict self = None -> policy_get_event_loop = Raise RuntimeError ->
  from_thread self w data
  = {| raised := None; manager := self;
       world := logged w ErrorNoEventLoop; blocked := 0 |}.
Proof.
  intros Hl Hp. unfold send_sensor_data_from_thread. now rewrite Hl, Hp.
Qed.

(** C9 at the failing inputs.  When the stored loop has been closed the
    call raises: [TypeError] out of [json.dumps] when the payload does not
    serialize, and otherwise [RuntimeError] out of
    [run_coroutine_threadsafe], both of which stand outside the [try]. *)
Theorem from_thread_closed_loop_raises
  (self : ConnectionManager pydict) (w : World) (data : SensorData pydict) :
  raised pydict (from_thread (with_loop pydict self ClosedLoop) w data)
  = Some (match json_dumps data with
          | Raise e => e
          | Ok _ => RuntimeError
          end).
Proof.
  unfold send_sensor_data_from_thread, dispatch_from_thread.
  cbn [with_loop loop].
  destruct (json_dumps data); reflexivity.
Qed.

(** A payload that does not serialize makes the call raise whatever the
    loop. *)
Lemma from_thread_unserializable_raises
  (self : ConnectionManager pydict) (w : World) (data : SensorData pydict)
  (target : EventLoop) (e : exn) :
  json_dumps data = Raise e ->
  raised pydict (from_thread (with_loop pydict self target) w data) = Some e.
Proof.
  intros H. unfold send_sensor_data_from_thread, dispatch_from_thread.
  cbn [with_loop loop]. now rewrite H.
Qed.

End ThreadDispatch.

End HubSpec.

(** ** The preservation scorer: further properties *)

Module ReportSpec.
Import Preservation PreservationSpec Report.

(** Whatever the reading, NaN and infinities included, the water score is a
    percentage. *)
Theorem water_preservation_in_range (sensor_data : SensorData) :
  0 <= calculate_water_preservation sensor_data <= 100.
Proof.
  unfold calculate_water_preservation.
  apply py_round2_bounds.
  set (a := replace_nonfinite (or_zero (turbidity sensor_data)) 0).
  set (b := replace_nonfinite (or_zero (tds sensor_data)) 0).
  set (c := replace_nonfinite (or_zero (temperature sensor_data)) 20).
  pose proof (py_max_lower 0 (a - 10)).
  pose proof (py_max_lower 0 (b - 50)).
  pose proof (py_max_lower 0 (c - 20)).
  split; [apply py_max_lower |].
  unfold py_max at 1. case_Qltb; lra.
Qed.

Lemma table_well_formed :
  forallb (fun item => well_formed (snd item)) material_table = true.
Proof. vm_compute. reflexivity. Qed.

Lemma known_material_well_formed (material : string) (props : material_props) :
  material_database !! material = Some props -> well_formed props = true.
Proof.
  intros H. unfold material_database in H.
  apply elem_of_list_to_map_2, list_elem_of_In in H.
  pose proof table_well_formed as Ht.
  rewrite forallb_forall in Ht. apply (Ht (material, props) H).
Qed.

Lemma well_formed_facts (props : material_props) :
  well_formed props = true ->
  base_survival props <= 100
  /\ 0 <= turbidity_penalty props
  /\ 0 <= temperature_penalty props
  /\ 0 <= tds_penalty props
  /\ forall turbid warm saline,
       py_round2 (penalised props turbid warm saline)
       == penalised props turbid warm saline.
Proof.
  unfold well_formed. rewrite !andb_true_iff. cbn [forallb].
  rewrite !andb_true_iff, !Pos.eqb_eq, !Qle_bool_iff.
  intros [[[[(Hb & Ht & HT & Hd & _) Hle] H1] H2] H3].
  repeat (split; [assumption |]).
  intros turbid warm saline.
  destruct props as [[bn bd] [? ?] [tn td] [? ?] [Tn Td] [? ?] [dn dd]].
  cbn [base_survival turbidity_penalty temperature_penalty tds_penalty] in *.
  cbn in Hb, Ht, HT, Hd. subst bd td Td dd.
  unfold penalised.
  cbn [base_survival turbidity_penalty temperature_penalty tds_penalty].
  set (z := (bn - (if turbid then tn else 0) - (if warm then Tn else 0)
             - (if saline then dn else 0))%Z).
  assert (Hz : (bn # 1) - (if turbid then (tn # 1) else 0)
               - (if warm then (Tn # 1) else 0)
               - (if saline then (dn # 1) else 0) == inject_Z z).
  { unfold z, inject_Z. destruct turbid, warm, saline;
      unfold Qeq, Qminus, Qplus, Qopp; cbn; lia. }
  rewrite (WaterSpec.py_round2_comp _ _ Hz), Hz.
  apply py_round2_inject_Z.
Qed.

Lemma clamp_comp (lo hi x y : Q) :
  x == y -> py_max lo (py_min hi x) == py_max lo (py_min hi y).
Proof.
  intros H. rewrite !py_max_Qmax, !py_min_Qmin, H. reflexivity.
Qed.

Lemma clamp_mono (lo hi x y : Q) :
  x <= y -> py_max lo (py_min hi x) <= py_max lo (py_min hi y).
Proof.
  intros H. rewrite !py_max_Qmax, !py_min_Qmin.
  apply Q.max_le_compat_l, Q.min_le_compat_l, H.
Qed.

Lemma guard_or_zero (x : pyfloat) (d : Q) :
  replace_nonfinite (or_zero x) d == replace_nonfinite x d.
Proof.
  destruct x as [q | | |]; try reflexivity. apply guard_finite.
Qed.

(** The score of a known material, written with the three flags. *)
Lemma material_score_flags
  (material : string) (props : material_props) (sensor_data : SensorData) :
  material_database !! material = Some props ->
  calculate_material_preservation material sensor_data
  = py_round2
      (py_max 0
         (py_min 100
            (penalised props
               (Qltb (turbidity_threshold props)
                  (replace_nonfinite (turbidity sensor_data) 0))
               (Qltb (temperature_threshold props)
                  (replace_nonfinite (temperature sensor_data) 20))
               (Qltb (tds_threshold props)
                  (replace_nonfinite (tds sensor_data) 0))))).
Proof.
  intros H. unfold calculate_material_preservation. rewrite H.
  rewrite (Qltb_comp _ _ _ (guard_or_zero (turbidity sensor_data) 0)).
  rewrite (Qltb_comp _ _ _ (guard_or_zero (temperature sensor_data) 20)).
  rewrite (Qltb_comp _ _ _ (guard_or_zero (tds sensor_data) 0)).
  apply WaterSpec.py_round2_comp, clamp_comp. unfold penalised.
  destruct (Qltb (turbidity_threshold props) _),
    (Qltb (temperature_threshold props) _),
    (Qltb (tds_threshold props) _); lra.
Qed.

Lemma material_preservation_bounds
  (material : string) (sensor_data : SensorData) :
  0 <= calculate_material_preservation material sensor_data <= 100.
Proof.
  unfold calculate_material_preservation.
  destruct (material_database !! material); [| lra].
  apply py_round2_bounds, clamp_bounds. lra.
Qed.

(** For a material of the table the upper clamp and the rounding never
    act: the score is the base survival minus the penalties of the exceeded
    thresholds, floored at 0, and so never above the base survival. *)
Theorem known_material_score
  (material : string) (props : material_props) (sensor_data : SensorData) :
  material_database !! material = Some props ->
  calculate_material_preservation material sensor_data
  == Qmax 0
       (penalised props
          (Qltb (turbidity_threshold props)
             (replace_nonfinite (turbidity sensor_data) 0))
          (Qltb (temperature_threshold props)
             (replace_nonfinite (temperature sensor_data) 20))
          (Qltb (tds_threshold props)
             (replace_nonfinite (tds sensor_data) 0)))
  /\ calculate_material_preservation material sensor_data
     <= base_survival props.
Proof.
  intros H. rewrite (material_score_flags material props sensor_data H).
  destruct (well_formed_facts props (known_material_well_formed _ _ H))
    as (Hb & Ht & HT & Hd & Hround).
  set (turbid := Qltb (turbidity_threshold props) _).
  set (warm := Qltb (temperature_threshold props) _).
  set (saline := Qltb (tds_threshold props) _).
  specialize (Hround turbid warm saline).
  assert (Hle : penalised props turbid warm saline <= base_survival props).
  { unfold penalised. destruct turbid, warm, saline; lra. }
  assert (Hclamp : py_max 0 (py_min 100 (penalised props turbid warm saline))
                   == Qmax 0 (penalised props turbid warm saline)).
  { rewrite py_max_Qmax. unfold py_min. case_Qltb; [reflexivity |].
    assert (E : penalised props turbid warm saline == 100) by lra.
    rewrite E. reflexivity. }
  assert (Hscore : py_round2
                     (py_max 0 (py_min 100 (penalised props turbid warm saline)))
                   == Qmax 0 (penalised props turbid warm saline)).
  { rewrite (WaterSpec.py_round2_comp _ _ Hclamp).
    destruct (Qlt_le_dec (penalised props turbid warm saline) 0) as [Hn | Hp].
    - assert (E : Qmax 0 (penalised props turbid warm saline) == inject_Z 0)
        by (rewrite Q.max_l by lra; reflexivity).
      rewrite (WaterSpec.py_round2_comp _ _ E), E.
      apply py_round2_inject_Z.
    - assert (E : Qmax 0 (penalised props turbid warm saline)
                  == penalised props turbid warm saline)
        by (apply Q.max_r; lra).
      rewrite (WaterSpec.py_round2_comp _ _ E), E. exact Hround. }
  split; [exact Hscore |].
  rewrite Hscore. apply Q.max_lub; [| exact Hle].
  unfold penalised in Hle.
  assert (0 <= base_survival props); [| assumption].
  pose proof (known_material_well_formed _ _ H) as Hwf.
  clear - Hwf H. unfold material_database in H.
  apply elem_of_list_to_map_2, list_elem_of_In in H.
  assert (Hall : forallb (fun item => Qle_bool 0 (base_survival (snd item)))
                   material_table = true) by (vm_compute; reflexivity).
  rewrite forallb_forall in Hall. apply Qle_bool_iff, (Hall _ H).
Qed.

Lemma known_material_score_witness :
  material_database !! "paper"%string
  = Some (mk_props 15 50 15 25 5 500 5)
  /\ calculate_material_preservation "paper"
       (finite_reading 60 30 600)
     == Qmax 0 (penalised (mk_props 15 50 15 25 5 500 5) true true true)
  /\ calculate_material_preservation "paper" (finite_reading 60 30 600) <= 15.
Proof.
  assert (H : material_database !! "paper"%string
              = Some (mk_props 15 50 15 25 5 500 5))
    by (vm_compute; reflexivity).
  split; [exact H |].
  apply (known_material_score "paper" _ (finite_reading 60 30 600) H).
Defined.

(** Raising a finite reading never raises a material's score. *)
Theorem material_preservation_antitone
  (material : string) (t T d t' T' d' : Q) :
  t <= t' -> T <= T' -> d <= d' ->
  calculate_material_preservation material (finite_reading t' T' d')
  <= calculate_material_preservation material (finite_reading t T d).
Proof.
  intros Ht HT Hd.
  destruct (material_database !! material) as [props |] eqn:H.
  - rewrite !(material_score_flags material props _ H).
    destruct (well_formed_facts props (known_material_well_formed _ _ H))
      as (_ & Hp1 & Hp2 & Hp3 & _).
    apply py_round2_mono, clamp_mono.
    cbn [finite_reading turbidity temperature tds replace_nonfinite
         isnan isinf orb].
    unfold penalised.
    repeat case_Qltb; lra.
  - unfold calculate_material_preservation. rewrite H. lra.
Qed.

Lemma material_preservation_antitone_witness :
  calculate_material_preservation "iron" (finite_reading 60 20 100)
  <= calculate_material_preservation "iron" (finite_reading 40 20 100).
Proof.
  apply (material_preservation_antitone "iron" 40 20 100 60 20 100);
    unfold Qle; simpl; lia.
Defined.

Lemma Qsum_bounds (xs : list Q) :
  Forall (fun v => 0 <= v <= 100) xs ->
  0 <= Qsum xs <= 100 * inject_Z (Z.of_nat (length xs)).
Proof.
  induction 1 as [| v xs Hv _ IH].
  - vm_compute. split; discriminate.
  - cbn [Qsum fold_right length]. fold (Qsum xs).
    rewrite Nat2Z.inj_succ, <- Z.add_1_r, inject_Z_plus.
    change (inject_Z 1) with 1. lra.
Qed.

(** The report lists the materials of the table in its order, every
    material percentage and the final percentage lie between 0 and 100, and
    the final percentage is the rounded mean of the 30 material
    percentages. *)
Theorem preservation_report_percentages (sensor_data : SensorData) :
  let report := calculate_preservation_report sensor_data in
  map fst (materials report) = map fst material_table
  /\ length (materials report) = 30%nat
  /\ Forall (fun item => 0 <= snd item <= 100) (materials report)
  /\ final_preservation report
     = py_round2 (Qsum (map snd (materials report)) / 30)
  /\ 0 <= final_preservation report <= 100.
Proof.
  cbn zeta. unfold calculate_preservation_report.
  cbn [materials final_preservation].
  set (ms := map _ material_table).
  assert (Hkeys : map fst ms = map fst material_table).
  { unfold ms. rewrite map_map. reflexivity. }
  assert (Hlen : length ms = 30%nat).
  { unfold ms. rewrite length_map. reflexivity. }
  assert (Hall : Forall (fun item => 0 <= snd item <= 100) ms).
  { unfold ms. apply Forall_forall. intros item Hin.
    apply list_elem_of_In, in_map_iff in Hin.
    destruct Hin as (src & <- & _). cbn [snd].
    apply material_preservation_bounds. }
  assert (Hvals : Forall (fun v => 0 <= v <= 100) (map snd ms)).
  { apply Forall_forall. intros v Hin.
    apply list_elem_of_In, in_map_iff in Hin.
    destruct Hin as (item & <- & Hin).
    rewrite Forall_forall in Hall. apply Hall, list_elem_of_In, Hin. }
  pose proof (Qsum_bounds _ Hvals) as Hsum.
  rewrite length_map, Hlen in Hsum. change (inject_Z (Z.of_nat 30)) with 30 in Hsum.
  assert (Hfinal :
    match map snd ms with
    | [] => 100
    | _ => Qsum (map snd ms) / inject_Z (Z.of_nat (length (map snd ms)))
    end = Qsum (map snd ms) / 30).
  { destruct (map snd ms) as [| v vs] eqn:E.
    - apply (f_equal (@length Q)) in E. rewrite length_map, Hlen in E.
      discriminate.
    - rewrite <- E, length_map, Hlen. reflexivity. }
  rewrite Hfinal.
  repeat (split; [assumption || reflexivity |]).
  apply py_round2_bounds.
  unfold Qdiv. change (/ 30) with (1 # 30). lra.
Qed.

End ReportSpec.

(** ** The preservation index *)

Module IndexSpec.
Import Index.

Lemma unit_clamp (x : Q) : 0 <= py_max 0 (py_min 1 x) <= 1.
Proof. apply clamp_bounds. lra. Qed.

(** The weighted sum of the loop, written out. *)
Lemma weighted_sum_unfold (s : scores) :
  fold_left
    (fun acc item => acc + score_of s (fst item) * Qabs (snd item))
    weights 0
  == 0.3 * temperature_score s + 0.25 * tds_score s
     + 0.15 * turbidity_score s + 0.2 * depth_score s + 0.1 * ph_score s.
Proof.
  cbn [fold_left weights fst snd].
  change (score_of s "temperature") with (temperature_score s).
  change (score_of s "tds") with (tds_score s).
  change (score_of s "turbidity") with (turbidity_score s).
  change (score_of s "depth") with (depth_score s).
  change (score_of s "ph") with (ph_score s).
  change (Qabs (-0.3)) with 0.3. change (Qabs (-0.25)) with 0.25.
  change (Qabs (-0.15)) with 0.15. change (Qabs 0.2) with 0.2.
  change (Qabs 0.1) with 0.1.
  ring.
Qed.

Lemma Qdiv_const (x : Q) (n : positive) :
  x / (Z.pos n # 1) == x * (1 # n).
Proof. reflexivity. Qed.

(** The index is a percentage.  Four of the five normalized scores lie
    between 0 and 1; the depth score is at most 1 but has no floor: it is
    negative for a depth below -10. *)
Theorem preservation_index_in_range (temperature tds turbidity depth ph : Q) :
  let '(percentage, s) :=
    calculate_preservation_index temperature tds turbidity depth ph in
  0 <= percentage <= 100
  /\ 0 <= temperature_score s <= 1
  /\ 0 <= tds_score s <= 1
  /\ 0 <= turbidity_score s <= 1
  /\ depth_score s <= 1
  /\ (depth < -10 -> depth_score s < 0)
  /\ 0 <= ph_score s <= 1.
Proof.
  unfold calculate_preservation_index.
  cbn [temperature_score tds_score turbidity_score depth_score ph_score].
  split; [apply clamp_bounds; lra |].
  repeat (split; [apply unit_clamp |]).
  split; [unfold py_min; case_Qltb; lra |].
  split; [| apply unit_clamp].
  intros Hdeep. unfold py_min, Qdiv. change (/ 50) with (1 # 50).
  case_Qltb; lra.
Qed.

(** The five scores and the percentage, as expressions of the inputs. *)
Lemma index_percentage (temperature tds turbidity depth ph : Q) :
  fst (calculate_preservation_index temperature tds turbidity depth ph)
  == Qmax 0
       (100 * (0.3 * py_max 0 (py_min 1 ((30 - Qabs (temperature - 10)) / 20))
               + 0.25 * py_max 0 (py_min 1 ((2500 - tds) / 2000))
               + 0.15 * py_max 0 (py_min 1 ((100 - turbidity) / 95))
               + 0.2 * py_min 1 ((depth + 10) / 50)
               + 0.1 * py_max 0 (py_min 1 ((1.5 - Qabs (ph - 7.0)) / 1.5)))).
Proof.
  unfold calculate_preservation_index. cbn [fst].
  set (ts := py_max 0 (py_min 1 ((30 - Qabs (temperature - 10)) / 20))).
  set (ds := py_max 0 (py_min 1 ((2500 - tds) / 2000))).
  set (us := py_max 0 (py_min 1 ((100 - turbidity) / 95))).
  set (zs := py_min 1 ((depth + 10) / 50)).
  set (ps := py_max 0 (py_min 1 ((1.5 - Qabs (ph - 7.0)) / 1.5))).
  pose proof (weighted_sum_unfold (mkScores ts ds us zs ps)) as Hw.
  cbn [temperature_score tds_score turbidity_score depth_score ph_score] in Hw.
  set (w := fold_left _ weights 0) in *.
  pose proof (unit_clamp ((30 - Qabs (temperature - 10)) / 20)) as Hts.
  pose proof (unit_clamp ((2500 - tds) / 2000)) as Hds.
  pose proof (unit_clamp ((100 - turbidity) / 95)) as Hus.
  pose proof (unit_clamp ((1.5 - Qabs (ph - 7.0)) / 1.5)) as Hps.
  fold ts in Hts. fold ds in Hds. fold us in Hus. fold ps in Hps.
  assert (Hzs : zs <= 1) by (unfold zs, py_min; case_Qltb; lra).
  rewrite py_max_Qmax.
  assert (Hmin : py_min 100 (w * 100) == w * 100)
    by (unfold py_min; case_Qltb; lra).
  rewrite Hmin, Hw. apply Q.max_compat; [reflexivity | ring].
Qed.

Lemma unit_clamp_one (x : Q) : py_max 0 (py_min 1 x) == 1 <-> 1 <= x.
Proof.
  rewrite py_max_Qmax, py_min_Qmin.
  destruct (Qlt_le_dec x 1) as [Hlt | Hge].
  - rewrite (Q.min_r 1 x) by lra.
    destruct (Qlt_le_dec x 0) as [Hn | Hp].
    + rewrite (Q.max_l 0 x) by lra. split; intros H; lra.
    + rewrite (Q.max_r 0 x) by lra. split; intros H; lra.
  - rewrite (Q.min_l 1 x) by lra. rewrite (Q.max_r 0 1) by lra.
    split; intros H; [exact Hge | reflexivity].
Qed.

Lemma floor_clamp_one (x : Q) : py_min 1 x == 1 <-> 1 <= x.
Proof.
  unfold py_min. case_Qltb; split; intros H; lra.
Qed.

(** In the exact arithmetic of the model the weighted sum is 1 exactly
    when each score is: a temperature between 0 and 20, TDS of at most 500,
    turbidity of at most 5, a depth of at least 40 and a pH of 7. *)
Lemma index_full_marks (temperature tds turbidity depth ph : Q) :
  fst (calculate_preservation_index temperature tds turbidity depth ph) == 100
  <-> (0 <= temperature <= 20 /\ tds <= 500 /\ turbidity <= 5
       /\ 40 <= depth /\ ph == 7).
Proof.
  rewrite index_percentage.
  pose proof (unit_clamp ((30 - Qabs (temperature - 10)) / 20)) as Hts.
  pose proof (unit_clamp ((2500 - tds) / 2000)) as Hds.
  pose proof (unit_clamp ((100 - turbidity) / 95)) as Hus.
  pose proof (unit_clamp ((1.5 - Qabs (ph - 7.0)) / 1.5)) as Hps.
  pose proof (unit_clamp_one ((30 - Qabs (temperature - 10)) / 20)) as Ets.
  pose proof (unit_clamp_one ((2500 - tds) / 2000)) as Eds.
  pose proof (unit_clamp_one ((100 - turbidity) / 95)) as Eus.
  pose proof (unit_clamp_one ((1.5 - Qabs (ph - 7.0)) / 1.5)) as Eps.
  pose proof (floor_clamp_one ((depth + 10) / 50)) as Ezs.
  assert (Hzs : py_min 1 ((depth + 10) / 50) <= 1)
    by (unfold py_min; case_Qltb; lra).
  set (ts := py_max 0 (py_min 1 ((30 - Qabs (temperature - 10)) / 20))) in *.
  set (ds := py_max 0 (py_min 1 ((2500 - tds) / 2000))) in *.
  set (us := py_max 0 (py_min 1 ((100 - turbidity) / 95))) in *.
  set (zs := py_min 1 ((depth + 10) / 50)) in *.
  set (ps := py_max 0 (py_min 1 ((1.5 - Qabs (ph - 7.0)) / 1.5))) in *.
  set (W := 0.3 * ts + 0.25 * ds + 0.15 * us + 0.2 * zs + 0.1 * ps).
  assert (HW : W <= 1) by (unfold W; lra).
  assert (Hall : Qmax 0 (100 * W) == 100
                 <-> (ts == 1 /\ ds == 1 /\ us == 1 /\ zs == 1 /\ ps == 1)).
  { destruct (Qlt_le_dec (100 * W) 0) as [Hn | Hp].
    - rewrite (Q.max_l 0 (100 * W)) by lra.
      split; [intros H; lra | intros (H1 & H2 & H3 & H4 & H5)].
      unfold W in Hn. lra.
    - rewrite (Q.max_r 0 (100 * W)) by lra. unfold W.
      split; [intros H | intros (H1 & H2 & H3 & H4 & H5); lra].
      repeat split; lra. }
  rewrite Hall, Ets, Eds, Eus, Ezs, Eps.
  unfold Qdiv.
  change (/ 20) with (1 # 20). change (/ 2000) with (1 # 2000).
  change (/ 95) with (1 # 95). change (/ 50) with (1 # 50).
  change (/ 1.5) with (10 # 15).
  assert (Ht : 1 <= (30 - Qabs (temperature - 10)) * (1 # 20)
               <-> 0 <= temperature <= 20).
  { split; intros H.
    - assert (H' : Qabs (temperature - 10) <= 10) by lra.
      apply Qabs_Qle_condition in H'. lra.
    - assert (H' : Qabs (temperature - 10) <= 10)
        by (apply Qabs_Qle_condition; lra).
      lra. }
  assert (Hp : 1 <= (1.5 - Qabs (ph - 7.0)) * (10 # 15) <-> ph == 7).
  { split; intros H.
    - assert (H' : Qabs (ph - 7.0) <= 0) by lra.
      apply Qabs_Qle_condition in H'. lra.
    - assert (H' : Qabs (ph - 7.0) <= 0)
        by (apply Qabs_Qle_condition; lra).
      lra. }
  rewrite Ht, Hp.
  split; intros (H1 & H2 & H3 & H4 & H5); repeat split; lra.
Qed.

Lemma clamp_below (x c : Q) :
  x <= c -> 0 <= c -> py_max 0 (py_min 1 x) <= c.
Proof.
  intros Hx Hc. unfold py_max, py_min.
  destruct (Qltb x 1) eqn:E; [apply Qltb_lt in E | apply Qltb_ge in E];
    case_Qltb; lra.
Qed.

(** The index is 100 under ideal conditions: a temperature between 0 and
    20, TDS of at most 500, turbidity of at most 5, a depth of at least 40
    and a pH of 7.  It is at most 99.5 as soon as one reading is off the
    ideal range by a margin: a temperature of 21 or more or of -1 or less,
    TDS of 600 or more, turbidity of 10 or more, a depth of 35 or less, or
    a pH 0.1 or more away from 7. *)
Theorem preservation_index_perfect (temperature tds turbidity depth ph : Q) :
  (0 <= temperature <= 20 /\ tds <= 500 /\ turbidity <= 5
   /\ 40 <= depth /\ ph == 7 ->
   fst (calculate_preservation_index temperature tds turbidity depth ph)
   == 100)
  /\ (21 <= temperature \/ temperature <= -1 \/ 600 <= tds
      \/ 10 <= turbidity \/ depth <= 35 \/ 0.1 <= Qabs (ph - 7) ->
      fst (calculate_preservation_index temperature tds turbidity depth ph)
      <= 99.5).
Proof.
  split; [apply index_full_marks |].
  rewrite index_percentage.
  pose proof (unit_clamp ((30 - Qabs (temperature - 10)) / 20)) as Hts.
  pose proof (unit_clamp ((2500 - tds) / 2000)) as Hds.
  pose proof (unit_clamp ((100 - turbidity) / 95)) as Hus.
  pose proof (unit_clamp ((1.5 - Qabs (ph - 7.0)) / 1.5)) as Hps.
  assert (Hzs : py_min 1 ((depth + 10) / 50) <= 1)
    by (unfold py_min; case_Qltb; lra).
  intros Hoff. apply Q.max_lub; [lra |].
  destruct Hoff as [H | [H | [H | [H | [H | H]]]]].
  - assert (Hlow : py_max 0 (py_min 1 ((30 - Qabs (temperature - 10)) / 20))
                   <= 0.95).
    { apply clamp_below; [| lra].
      pose proof (Qle_Qabs (temperature - 10)).
      unfold Qdiv. change (/ 20) with (1 # 20). lra. }
    lra.
  - assert (Hlow : py_max 0 (py_min 1 ((30 - Qabs (temperature - 10)) / 20))
                   <= 0.95).
    { apply clamp_below; [| lra].
      pose proof (Qle_Qabs (- (temperature - 10))) as Ha.
      rewrite Qabs_opp in Ha.
      unfold Qdiv. change (/ 20) with (1 # 20). lra. }
    lra.
  - assert (Hlow : py_max 0 (py_min 1 ((2500 - tds) / 2000)) <= 0.95).
    { apply clamp_below; [| lra].
      unfold Qdiv. change (/ 2000) with (1 # 2000). lra. }
    lra.
  - assert (Hlow : py_max 0 (py_min 1 ((100 - turbidity) / 95)) <= 90 # 95).
    { apply clamp_below; [| lra].
      unfold Qdiv. change (/ 95) with (1 # 95). lra. }
    lra.
  - assert (Hlow : py_min 1 ((depth + 10) / 50) <= 0.9).
    { unfold py_min, Qdiv. change (/ 50) with (1 # 50). case_Qltb; lra. }
    lra.
  - assert (Hlow : py_max 0 (py_min 1 ((1.5 - Qabs (ph - 7.0)) / 1.5))
                   <= 14 # 15).
    { apply clamp_below; [| lra].
      assert (Hph : Qabs (ph - 7.0) == Qabs (ph - 7))
        by (apply Qabs_wd; lra).
      unfold Qdiv. change (/ 1.5) with (10 # 15). lra. }
    lra.
Qed.

(** More dissolved solids or more turbidity never raise the index, and
    more depth never lowers it. *)
Theorem preservation_index_monotone
  (temperature ph tds turbidity depth tds' turbidity' depth' : Q) :
  tds <= tds' -> turbidity <= turbidity' -> depth' <= depth ->
  fst (calculate_preservation_index temperature tds' turbidity' depth' ph)
  <= fst (calculate_preservation_index temperature tds turbidity depth ph).
Proof.
  intros Hd Hu Hz. rewrite !index_percentage.
  apply Q.max_le_compat_l.
  assert (H1 : py_max 0 (py_min 1 ((2500 - tds') / 2000))
               <= py_max 0 (py_min 1 ((2500 - tds) / 2000))).
  { apply ReportSpec.clamp_mono. unfold Qdiv. change (/ 2000) with (1 # 2000). lra. }
  assert (H2 : py_max 0 (py_min 1 ((100 - turbidity') / 95))
               <= py_max 0 (py_min 1 ((100 - turbidity) / 95))).
  { apply ReportSpec.clamp_mono. unfold Qdiv. change (/ 95) with (1 # 95). lra. }
  assert (H3 : py_min 1 ((depth' + 10) / 50) <= py_min 1 ((depth + 10) / 50)).
  { rewrite !py_min_Qmin. apply Q.min_le_compat_l.
    unfold Qdiv. change (/ 50) with (1 # 50). lra. }
  lra.
Qed.

Lemma preservation_index_monotone_witness :
  fst (calculate_preservation_index 15 600 30 1 7.2)
  <= fst (calculate_preservation_index 15 400 20 2 7.2).
Proof.
  apply (preservation_index_monotone 15 7.2 400 20 2 600 30 1);
    unfold Qle; simpl; lia.
Defined.

End IndexSpec.

(** ** The radar engine: further properties *)

Module RadarFacts.
Import Radar RadarSpec MalformedInputSpec.

(** Which reflections get which label.  The second branch shadows most of
    the third: "organic" is returned only for magnitudes above 0.2 and at
    most 0.3; and "void" only for magnitudes below 0.2. *)
Theorem classify_anomaly_labels
  (amplitude width depth : Q) (surrounding : list Q) :
  let label := fst (classify_anomaly amplitude width depth surrounding) in
  (label = METAL <-> 0.7 < Qabs amplitude /\ width < 5)
  /\ (label = STONE <->
      0.3 < Qabs amplitude /\ Qabs amplitude < 0.7 /\ 8 < width)
  /\ (label = ORGANIC <->
      0.2 < Qabs amplitude /\ Qabs amplitude <= 0.3 /\ 10 < width)
  /\ (label = VOID -> Qabs amplitude < 0.2).
Proof.
  cbn zeta. unfold classify_anomaly.
  set (a := Qabs amplitude).
  destruct (Qltb 0.7 a) eqn:H1; [apply Qltb_lt in H1 | apply Qltb_ge in H1];
  destruct (Qltb width 5) eqn:H2; [apply Qltb_lt in H2 | apply Qltb_ge in H2
                                  | apply Qltb_lt in H2 | apply Qltb_ge in H2];
  cbn [andb fst];
  try (repeat split; intros; try discriminate; try tauto; lra);
  (destruct (Qltb 0.3 a) eqn:H3; [apply Qltb_lt in H3 | apply Qltb_ge in H3];
   destruct (Qltb a 0.7) eqn:H4; [apply Qltb_lt in H4 | apply Qltb_ge in H4
                                 | apply Qltb_lt in H4 | apply Qltb_ge in H4];
   destruct (Qltb 8 width) eqn:H5; [apply Qltb_lt in H5 | apply Qltb_ge in H5
                                   | apply Qltb_lt in H5 | apply Qltb_ge in H5
                                   | apply Qltb_lt in H5 | apply Qltb_ge in H5
                                   | apply Qltb_lt in H5 | apply Qltb_ge in H5];
   cbn [andb fst];
   try (repeat split; intros; try discriminate; try tauto; lra));
  (destruct (Qltb 0.2 a) eqn:H6; [apply Qltb_lt in H6 | apply Qltb_ge in H6];
   destruct (Qltb a 0.5) eqn:H7; [apply Qltb_lt in H7 | apply Qltb_ge in H7
                                 | apply Qltb_lt in H7 | apply Qltb_ge in H7];
   destruct (Qltb 10 width) eqn:H8; [apply Qltb_lt in H8 | apply Qltb_ge in H8
                                    | apply Qltb_lt in H8 | apply Qltb_ge in H8
                                    | apply Qltb_lt in H8 | apply Qltb_ge in H8
                                    | apply Qltb_lt in H8 | apply Qltb_ge in H8];
   cbn [andb fst];
   try (repeat split; intros; try discriminate; try tauto; lra));
  (destruct (Qltb a 0.2) eqn:H9; [apply Qltb_lt in H9 | apply Qltb_ge in H9];
   cbn [andb fst];
   [destruct (Qltb _ _) |];
   cbn [fst]; repeat split; intros; try discriminate; try tauto; lra).
Qed.

(** *** Width estimation *)



(** *** Layer segmentation *)

Lemma layer_loop_covered (profile : list Q) (bs : list nat) :
  forall (start_idx : nat) (acc : list Layer),
    covered acc start_idx ->
    covered (snd (layer_loop profile bs start_idx acc))
            (fst (layer_loop profile bs start_idx acc)).
Proof.
  induction bs as [| b rest IH]; intros start_idx acc Hc; [exact Hc |].
  cbn [layer_loop].
  destruct (5 <? Z.of_nat b - Z.of_nat start_idx)%Z eqn:E; [| now apply IH].
  apply Z.ltb_lt in E. apply IH.
  now apply (covered_snoc acc start_idx b).
Qed.

(** How the layers cover a profile of [n] samples, two or more.  Every layer
    but the last spans more than five samples, from the sample where its
    predecessor ended (the first from sample 0), and its depths and its
    thickness are those sample indices and their difference times the depth
    resolution.  The last layer starts where they end, before sample [n]; its
    thickness counts the samples up to [n], though its end depth is that of
    sample [n - 1]: one sample more than its depths span.  The total depth
    is [n] times the resolution, so the samples spanned by the layers are as
    many as the profile has. *)
Theorem analyze_depth_profile_thickness (depth_profile : list Q) :
  (2 <= length depth_profile)%nat ->
  exists (la : LayerAnalysis) (init : list Layer) (final : Layer) (s : nat),
    analyze_depth_profile depth_profile = Ok la
    /\ layers la = init ++ [final]
    /\ covered init s /\ (s < length depth_profile)%nat
    /\ start_depth final = inject_Z (Z.of_nat s) * depth_resolution
    /\ end_depth final
       = inject_Z (Z.of_nat (length depth_profile) - 1) * depth_resolution
    /\ thickness final
       = inject_Z (Z.of_nat (length depth_profile) - Z.of_nat s)
         * depth_resolution
    /\ total_depth la
       = inject_Z (Z.of_nat (length depth_profile)) * depth_resolution.
Proof.
  intros Hlen.
  destruct (np_gradient_defined _ Hlen) as [g Hg].
  unfold analyze_depth_profile. rewrite Hg. cbn [mbind result_bind].
  set (bs := boundary_indices (map Qabs g)).
  pose proof (layer_loop_covered depth_profile bs 0 [] covered_nil) as Hcov.
  pose proof (np_gradient_length _ _ Hg) as Hgl.
  assert (Hbs : Forall (fun b => (b < length depth_profile)%nat) bs).
  { pose proof (boundary_indices_bound (map Qabs g)) as H.
    rewrite length_map, Hgl in H. exact H. }
  destruct (layer_loop_chain depth_profile bs 0 [] (length depth_profile)
              chain_nil ltac:(lia) Hbs) as [_ Hlt].
  destruct (layer_loop depth_profile bs 0 []) as [start_idx acc].
  cbn [fst snd] in *.
  destruct (start_idx <? length depth_profile)%nat eqn:E;
    [| apply Nat.ltb_ge in E; lia].
  eexists _, acc, _, start_idx. split; [reflexivity |].
  cbn [layers total_depth start_depth end_depth thickness].
  repeat split; assumption.
Qed.

Lemma analyze_depth_profile_thickness_witness :
  (2 <= length [1; 1; 1; 1; 1; 1; 1; 5; 5; 5; 5; 5; 5; 5; 5]%Q)%nat
  /\ exists (la : LayerAnalysis) (init : list Layer) (final : Layer) (s : nat),
    analyze_depth_profile [1; 1; 1; 1; 1; 1; 1; 5; 5; 5; 5; 5; 5; 5; 5] = Ok la
    /\ layers la = init ++ [final]
    /\ covered init s /\ (s < 15)%nat
    /\ start_depth final = inject_Z (Z.of_nat s) * depth_resolution
    /\ end_depth final = inject_Z (15 - 1) * depth_resolution
    /\ thickness final = inject_Z (15 - Z.of_nat s) * depth_resolution
    /\ total_depth la = inject_Z 15 * depth_resolution.
Proof.
  assert (H : (2 <= length [1; 1; 1; 1; 1; 1; 1; 5; 5; 5; 5; 5; 5; 5; 5]%Q)%nat)
    by (simpl; lia).
  split; [exact H |].
  apply (analyze_depth_profile_thickness
           [1; 1; 1; 1; 1; 1; 1; 5; 5; 5; 5; 5; 5; 5; 5] H).
Defined.

(** The partition of [analyze_depth_profile_partition] on a profile with one
    step: two layers, the first from depth 0 and the second up to the depth
    of the last sample. *)
Lemma analyze_depth_profile_partition_witness :
  (2 <= length [1; 1; 1; 1; 1; 1; 1; 5; 5; 5; 5; 5; 5; 5; 5]%Q)%nat
  /\ exists (la : LayerAnalysis) (init : list Layer) (final : Layer),
    analyze_depth_profile [1; 1; 1; 1; 1; 1; 1; 5; 5; 5; 5; 5; 5; 5; 5] = Ok la
    /\ layers la = init ++ [final]
    /\ contiguous (layers la)
    /\ Forall (fun l => start_depth l <= end_depth l) (layers la)
    /\ hd_error (map start_depth (layers la)) = Some (depth_of 0)
    /\ end_depth final = depth_of (15 - 1).
Proof.
  assert (H : (2 <= length [1; 1; 1; 1; 1; 1; 1; 5; 5; 5; 5; 5; 5; 5; 5]%Q)%nat)
    by (simpl; lia).
  split; [exact H |].
  apply (analyze_depth_profile_partition
           [1; 1; 1; 1; 1; 1; 1; 5; 5; 5; 5; 5; 5; 5; 5] H).
Defined.


(** *** Detection *)

(** A reflection of magnitude 0.3 or more is never labelled "void", is
    labelled "organic" only at magnitude 0.3 exactly, and has a confidence of
    at least 0.15. *)
Lemma classify_anomaly_strong_reflection
  (amplitude width depth : Q) (surrounding : list Q) :
  0.3 <= Qabs amplitude ->
  fst (classify_anomaly amplitude width depth surrounding) <> VOID
  /\ (fst (classify_anomaly amplitude width depth surrounding) = ORGANIC ->
      Qabs amplitude == 0.3)
  /\ 0.15 <= snd (classify_anomaly amplitude width depth surrounding).
Proof.
  intros Ha. unfold classify_anomaly.
  set (a := Qabs amplitude) in *.
  unfold py_min, py_max.
  repeat (case_Qltb; cbn [andb fst snd]);
    (split; [discriminate || lra | split; [intros; try discriminate; lra | lra]]).
Qed.

Lemma interior_maxima_from_height (xs : list Q) (height : Q) :
  forall k i, In i (interior_maxima_from xs height k) ->
              height <= nth (i - k) xs 0.
Proof.
  induction xs as [| a rest IH]; intros k i Hin; [destruct Hin |].
  destruct rest as [| b [| c rest']]; try destruct Hin.
  cbn [interior_maxima_from] in Hin.
  assert (Hrec : In i (interior_maxima_from (b :: c :: rest') height (S k))
                 -> height <= nth (i - k) (a :: b :: c :: rest') 0).
  { intros H. pose proof (interior_maxima_from_interior _ _ _ _ H) as Hi.
    apply IH in H.
    replace (i - k)%nat with (S (i - S k)) by lia. exact H. }
  destruct (_ && _) eqn:E in Hin; [| now apply Hrec].
  destruct Hin as [<- | Hin]; [| now apply Hrec].
  replace (S k - k)%nat with 1%nat by lia. cbn [nth].
  apply andb_true_iff in E. destruct E as [_ E].
  now apply Qle_bool_iff.
Qed.

Lemma interior_maxima_height
  (xs : list Q) (height : Q) (distance : Z) (i : nat) :
  In i (interior_maxima xs height distance) ->
  (i < length xs)%nat /\ height <= nth i xs 0.
Proof.
  intros H. split.
  - apply interior_maxima_from_interior in H. lia.
  - apply interior_maxima_from_height in H.
    now replace (i - 0)%nat with i in H by lia.
Qed.

Section Reports.

Variable coefficients : Type.
Variable butter : nat -> Q * Q -> result coefficients.
Variable filtfilt : coefficients -> list Q -> result (list Q).
Variable savgol_filter : list Q -> nat -> nat -> result (list Q).
Variable find_peaks : list Q -> Q -> Z -> list nat.

(** SciPy reports as peaks only positions of the array whose sample is at
    least the required height. *)
Hypothesis find_peaks_height :
  forall xs height distance i,
    In i (find_peaks xs height distance) ->
    (i < length xs)%nat /\ height <= nth i xs 0.

(** What [detect_anomalies] reports.  Every anomaly carries the position
    passed in and a depth that is not negative; its amplitude has magnitude
    0.3 or more, so it is never labelled "void", is labelled "organic" only
    at magnitude 0.3 exactly, and has a confidence of at least 0.15. *)
Theorem detect_anomalies_reports
  (depth_profile : list Q) (x_position y_position : Q)
  (anomalies : list AnomalyDetectionResult) (a : AnomalyDetectionResult) :
  detect_anomalies coefficients butter filtfilt savgol_filter find_peaks
    depth_profile x_position y_position = Ok anomalies ->
  In a anomalies ->
  x a = x_position /\ y a = y_position
  /\ 0 <= depth a
  /\ signal_threshold <= Qabs (amplitude a)
  /\ type a <> VOID
  /\ (type a = ORGANIC -> Qabs (amplitude a) == signal_threshold)
  /\ 0.15 <= confidence a.
Proof.
  unfold detect_anomalies.
  destruct depth_profile as [| v rest]; [intros [= <-] [] |].
  destruct (preprocess_signal _ _ _ _ _ _) as [processed | e];
    [| discriminate].
  cbn [mbind result_bind]. intros [= <-] Hin.
  apply in_map_iff in Hin. destruct Hin as ([idx amp] & <- & Hin).
  unfold detect_reflections in Hin.
  apply in_map_iff in Hin. destruct Hin as (i & [= -> <-] & Hpeak).
  apply find_peaks_height in Hpeak. destruct Hpeak as [_ Hheight].
  pose proof (map_nth Qabs processed 0 idx) as Hnth.
  change (Qabs 0) with 0 in Hnth. rewrite Hnth in Hheight.
  unfold anomaly_of_reflection.
  match goal with |- context [classify_anomaly ?p ?q ?r ?t] =>
    pose proof (classify_anomaly_strong_reflection p q r t Hheight)
      as (Hvoid & Horganic & Hconf);
    destruct (classify_anomaly p q r t) as [kind c]
  end.
  cbn [x y depth amplitude type confidence fst snd] in *.
  repeat (split; [first [reflexivity | assumption] |]); try assumption.
  split; [| repeat split; assumption].
  unfold depth_resolution.
  apply Qmult_le_0_compat; [| lra].
  change 0 with (inject_Z 0). rewrite <- Zle_Qle. lia.
Qed.

End Reports.

Lemma detect_anomalies_reports_witness :
  let a := {| x := 1; y := 2; type := METAL; confidence := 0.9;
              amplitude := 0.9; depth := 0.2 |} in
  detect_anomalies unit accept_band remove_mean no_smoothing interior_maxima
    [0; 0.2; 0.9; 0.2; 0] 1 2 = Ok [a]
  /\ In a [a]
  /\ x a = 1 /\ y a = 2
  /\ 0 <= depth a
  /\ signal_threshold <= Qabs (amplitude a)
  /\ type a <> VOID
  /\ (type a = ORGANIC -> Qabs (amplitude a) == signal_threshold)
  /\ 0.15 <= confidence a.
Proof.
  cbv zeta.
  assert (Hrun : detect_anomalies unit accept_band remove_mean no_smoothing
                   interior_maxima [0; 0.2; 0.9; 0.2; 0] 1 2
                 = Ok [ {| x := 1; y := 2; type := METAL; confidence := 0.9;
                           amplitude := 0.9; depth := 0.2 |} ])
    by (vm_compute; reflexivity).
  assert (Hin : In {| x := 1; y := 2; type := METAL; confidence := 0.9;
                      amplitude := 0.9; depth := 0.2 |}
                   [ {| x := 1; y := 2; type := METAL; confidence := 0.9;
                        amplitude := 0.9; depth := 0.2 |} ])
    by (left; reflexivity).
  split; [exact Hrun |]. split; [exact Hin |].
  apply (detect_anomalies_reports unit accept_band remove_mean no_smoothing
           interior_maxima interior_maxima_height
           [0; 0.2; 0.9; 0.2; 0] 1 2 _ _ Hrun Hin).
Defined.


End RadarFacts.

(** ** The radar engine: a whole scan *)

Module RadarScanSpec.
Import Radar RadarSpec RadarScan.

#[local] Abbreviation descending :=
  (StronglySorted (fun a b : AnomalyDetectionResult =>
                     confidence b <= confidence a)).

Lemma insert_by_confidence_perm (a : AnomalyDetectionResult)
  (l : list AnomalyDetectionResult) :
  Permutation (insert_by_confidence a l) (a :: l).
Proof.
  induction l as [| h t IH]; cbn [insert_by_confidence]; [reflexivity |].
  destruct (Qle_bool _ _); [reflexivity |].
  rewrite IH. apply perm_swap.
Qed.

Lemma sort_by_confidence_perm (l : list AnomalyDetectionResult) :
  Permutation (sort_by_confidence l) l.
Proof.
  induction l as [| a t IH]; [reflexivity |].
  unfold sort_by_confidence in *. cbn [fold_right].
  rewrite insert_by_confidence_perm. now constructor.
Qed.

Lemma insert_by_confidence_sorted (a : AnomalyDetectionResult)
  (l : list AnomalyDetectionResult) :
  descending l -> descending (insert_by_confidence a l).
Proof.
  induction l as [| h t IH]; intros Hs; cbn [insert_by_confidence].
  - repeat constructor.
  - apply StronglySorted_inv in Hs. destruct Hs as [Ht Hh].
    destruct (Qle_bool (confidence h) (confidence a)) eqn:E.
    + apply Qle_bool_iff in E.
      constructor; [constructor; assumption |].
      constructor; [exact E |].
      eapply Forall_impl; [exact Hh |]. cbn. intros b Hb. lra.
    + assert (Hlt : confidence a < confidence h).
      { apply Qnot_le_lt. intros H. apply Qle_bool_iff in H. congruence. }
      constructor; [now apply IH |].
      rewrite List.Forall_forall in *. intros b Hb.
      apply (Permutation_in _ (insert_by_confidence_perm a t)) in Hb.
      destruct Hb as [<- | Hb]; [lra | now apply Hh].
Qed.

Lemma sort_by_confidence_sorted (l : list AnomalyDetectionResult) :
  descending (sort_by_confidence l).
Proof.
  induction l as [| a t IH]; [constructor |].
  unfold sort_by_confidence in *. cbn [fold_right].
  now apply insert_by_confidence_sorted.
Qed.

Lemma fold_left_py_min (rest : list Q) :
  forall v, fold_left py_min rest v <= v
            /\ Forall (fun u => fold_left py_min rest v <= u) rest.
Proof.
  induction rest as [| w rest IH]; intros v; cbn [fold_left].
  - split; [lra | constructor].
  - destruct (IH (py_min v w)) as [H1 H2].
    pose proof (py_min_Qmin v w) as Hm.
    pose proof (Q.le_min_l v w). pose proof (Q.le_min_r v w).
    split; [lra |]. constructor; [lra | exact H2].
Qed.

Lemma fold_left_py_max (rest : list Q) :
  forall v, v <= fold_left py_max rest v
            /\ Forall (fun u => u <= fold_left py_max rest v) rest.
Proof.
  induction rest as [| w rest IH]; intros v; cbn [fold_left].
  - split; [lra | constructor].
  - destruct (IH (py_max v w)) as [H1 H2].
    pose proof (py_max_Qmax v w) as Hm.
    pose proof (Q.le_max_l v w). pose proof (Q.le_max_r v w).
    split; [lra |]. constructor; [lra | exact H2].
Qed.

Lemma min_max_or_zero (xs : list Q) (v : Q) :
  In v xs -> min_or_zero xs <= v <= max_or_zero xs.
Proof.
  destruct xs as [| w rest]; [intros [] |].
  cbn [min_or_zero max_or_zero].
  destruct (fold_left_py_min rest w) as [Hm1 Hm2].
  destruct (fold_left_py_max rest w) as [HM1 HM2].
  rewrite List.Forall_forall in Hm2, HM2.
  intros [<- | Hin]; [lra |]. split; [now apply Hm2 | now apply HM2].
Qed.

(** The coordinates made up for a scan without any are the ones the loop
    falls back to anyway. *)
Lemma position_of_default (n i : nat) :
  position_of (map (fun i => (inject_Z (Z.of_nat i) * 0.1, 0)) (seq 0 n)) i
  = position_of [] i.
Proof.
  unfold position_of.
  destruct (nth_error (map _ (seq 0 n)) i) as [xy |] eqn:E.
  - rewrite nth_error_map in E.
    destruct (nth_error (seq 0 n) i) as [k |] eqn:Ek; [| discriminate].
    assert (Hi : (i < length (seq 0 n))%nat).
    { apply nth_error_Some. rewrite Ek. discriminate. }
    rewrite length_seq in Hi.
    rewrite nth_error_seq in Ek.
    destruct (i <? n)%nat eqn:Elt; [| apply Nat.ltb_ge in Elt; lia].
    cbn in Ek, E. destruct i; cbn; congruence.
  - now destruct i.
Qed.

Section Scan.

Variable coefficients : Type.
Variable butter : nat -> Q * Q -> result coefficients.
Variable filtfilt : coefficients -> list Q -> result (list Q).
Variable savgol_filter : list Q -> nat -> nat -> result (list Q).
Variable find_peaks : list Q -> Q -> Z -> list nat.

#[local] Abbreviation detect :=
  (detect_anomalies coefficients butter filtfilt savgol_filter find_peaks).
#[local] Abbreviation loop :=
  (scan_loop coefficients butter filtfilt savgol_filter find_peaks).
#[local] Abbreviation process :=
  (process_radar_scan coefficients butter filtfilt savgol_filter find_peaks).

(** What the loop adds: the detections of each profile, in the order of the
    profiles, and one positioned layer analysis per profile. *)
Lemma scan_loop_spec (coords : list (Q * Q)) (profiles : list (list Q)) :
  forall i acc lay found ls,
    loop coords profiles i acc lay = Ok (found, ls) ->
    exists dets las,
      found = acc ++ concat dets /\ ls = lay ++ las
      /\ length dets = length profiles /\ length las = length profiles
      /\ forall k profile,
           nth_error profiles k = Some profile ->
           exists d la,
             nth_error dets k = Some d
             /\ detect profile (fst (position_of coords (i + k)))
                  (snd (position_of coords (i + k))) = Ok d
             /\ analyze_depth_profile profile = Ok la
             /\ nth_error las k
                = Some {| analysis := la;
                          position := position_of coords (i + k) |}.
Proof.
  induction profiles as [| p rest IH]; intros i acc lay found ls Hloop.
  - cbn in Hloop. injection Hloop as <- <-.
    exists [], []. rewrite !app_nil_r. repeat split.
    intros [| k] profile H; discriminate H.
  - cbn [scan_loop] in Hloop.
    destruct (position_of coords i) as [px py] eqn:Epos.
    destruct (detect p px py) as [d | e] eqn:Ed; [| discriminate].
    cbn [mbind result_bind] in Hloop.
    destruct (analyze_depth_profile p) as [la | e] eqn:Ea; [| discriminate].
    cbn [mbind result_bind] in Hloop.
    apply IH in Hloop.
    destruct Hloop as (dets & las & -> & -> & Hdets & Hlen & Hnth).
    exists (d :: dets), ({| analysis := la; position := (px, py) |} :: las).
    cbn [concat length]. rewrite <- !app_assoc. cbn [app].
    repeat split; [congruence | congruence |].
    intros [| k] profile Hk; cbn [nth_error] in Hk.
    + injection Hk as <-. exists d, la.
      rewrite Nat.add_0_r, Epos. cbn [fst snd nth_error]. auto.
    + destruct (Hnth k profile Hk) as (d' & la' & H1 & H2 & H3 & H4).
      exists d', la'. replace (i + S k)%nat with (S i + k)%nat by lia.
      cbn [nth_error]. auto.
Qed.

(** What a returned scan holds.  The anomalies are in descending order of
    confidence and counted by ['total_anomalies_detected']; there is one
    layer analysis per profile; and the scan area contains the position of
    every anomaly. *)
Theorem process_radar_scan_result (data : radar_data) (r : scan) :
  process data = Ok r ->
  descending (anomalies r)
  /\ total_anomalies_detected r = length (anomalies r)
  /\ length (layer_analysis r) = length (default [] (depth_profile data))
  /\ (forall a, In a (anomalies r) ->
        min_x (scan_area r) <= x a <= max_x (scan_area r)
        /\ min_y (scan_area r) <= y a <= max_y (scan_area r)).
Proof.
  unfold process_radar_scan.
  set (profiles := default [] (depth_profile data)).
  set (coords := match default [] (coordinates data) with
                 | [] => _ | _ => _ end).
  destruct (loop coords profiles 0 [] []) as [[found ls] | e] eqn:Hloop;
    [| discriminate].
  cbn [mbind result_bind]. intros [= <-].
  cbn [anomalies total_anomalies_detected layer_analysis scan_area
       min_x max_x min_y max_y].
  split; [apply sort_by_confidence_sorted |]. split; [reflexivity |].
  split.
  - apply scan_loop_spec in Hloop.
    destruct Hloop as (dets & las & _ & -> & _ & Hlen & _). exact Hlen.
  - intros a Ha. split; apply min_max_or_zero; now apply in_map.
Qed.

(** Where the contents of a returned scan come from, with [coords] the
    coordinates passed in (none when the key is missing).  An anomaly is
    reported exactly when [detect_anomalies] found it in one of the profiles,
    profile [k] being examined at [coords[k]], or at [(k * 0.1, 0)] when
    there is no such coordinate; and entry [k] of the layer analyses is the
    analysis of profile [k] with that position. *)
Theorem process_radar_scan_provenance (data : radar_data) (r : scan) :
  process data = Ok r ->
  let profiles := default [] (depth_profile data) in
  let coords := default [] (coordinates data) in
  (forall a,
     In a (anomalies r) <->
     exists k profile detected,
       nth_error profiles k = Some profile
       /\ detect profile (fst (position_of coords k))
            (snd (position_of coords k)) = Ok detected
       /\ In a detected)
  /\ (forall k profile,
        nth_error profiles k = Some profile ->
        exists la,
          analyze_depth_profile profile = Ok la
          /\ nth_error (layer_analysis r) k
             = Some {| analysis := la; position := position_of coords k |}).
Proof.
  unfold process_radar_scan. cbn zeta.
  set (profiles := default [] (depth_profile data)).
  set (coords := default [] (coordinates data)).
  set (coords' := match coords with [] => _ | _ => _ end).
  assert (Hpos : forall k, position_of coords' k = position_of coords k).
  { intros k. unfold coords'. destruct coords as [| c cs]; [| reflexivity].
    apply position_of_default. }
  destruct (loop coords' profiles 0 [] []) as [[found ls] | e] eqn:Hloop;
    [| discriminate].
  cbn [mbind result_bind]. intros [= <-].
  cbn [anomalies layer_analysis].
  apply scan_loop_spec in Hloop.
  destruct Hloop as (dets & las & -> & -> & Hdets & Hlen & Hnth).
  cbn [app] in *. split.
  - intros a. split.
    + intros Ha.
      apply (Permutation_in _ (sort_by_confidence_perm _)) in Ha.
      apply in_concat in Ha. destruct Ha as (d & Hd & Ha).
      apply In_nth_error in Hd. destruct Hd as [k Hk].
      assert (Hlt : (k < length profiles)%nat).
      { rewrite <- Hdets. apply nth_error_Some. rewrite Hk. discriminate. }
      destruct (nth_error profiles k) as [p |] eqn:Ep;
        [| apply nth_error_None in Ep; lia].
      destruct (Hnth k p Ep) as (d' & la & H1 & H2 & _).
      exists k, p, d. split; [exact Ep |]. split; [| exact Ha].
      rewrite <- Hpos. cbn [Nat.add] in H2. congruence.
    + intros (k & p & d & Hp & Hd & Ha).
      apply (Permutation_in _ (Permutation_sym (sort_by_confidence_perm _))).
      destruct (Hnth k p Hp) as (d' & la & H1 & H2 & _).
      cbn [Nat.add] in H2. rewrite Hpos in H2.
      apply in_concat. exists d. split; [| exact Ha].
      apply nth_error_In with k. congruence.
  - intros k p Hp.
    destruct (Hnth k p Hp) as (d & la & _ & _ & H3 & H4).
    exists la. split; [exact H3 |].
    cbn [Nat.add] in H4. now rewrite Hpos in H4.
Qed.

End Scan.

Section ScanReturns.

Variable coefficients : Type.
Variable butter : nat -> Q * Q -> result coefficients.
Variable filtfilt : coefficients -> list Q -> result (list Q).
Variable savgol_filter : list Q -> nat -> nat -> result (list Q).
Variable find_peaks : list Q -> Q -> Z -> list nat.

(** SciPy's smoothing succeeds on a signal at least as long as its window. *)
Hypothesis savgol_defined :
  forall xs, (5 <= length xs)%nat -> returns (savgol_filter xs 5 3) = true.

Lemma detect_anomalies_returns (profile : list Q) (x_position y_position : Q) :
  returns (detect_anomalies coefficients butter filtfilt savgol_filter
             find_peaks profile x_position y_position) = true.
Proof.
  unfold detect_anomalies.
  destruct profile as [| v rest]; [reflexivity |].
  set (profile := v :: rest).
  assert (Hpre : returns (preprocess_signal coefficients butter filtfilt
                            savgol_filter profile 1000) = true).
  { unfold preprocess_signal.
    destruct (length profile <? 3)%nat; [reflexivity |].
    assert (Hnyq : ~ 1000 / 2 == 0)
      by (intros H; vm_compute in H; discriminate H).
    destruct (cutoffs_in_band _ Hnyq) as (low & high & Hc & _).
    rewrite Hc. cbn [mbind result_bind].
    now apply smooth_returns. }
  destruct (preprocess_signal _ _ _ _ _ _) as [processed | e];
    [reflexivity | discriminate Hpre].
Qed.

Lemma analyze_depth_profile_returns (profile : list Q) :
  returns (analyze_depth_profile profile) = (2 <=? length profile)%nat.
Proof.
  destruct profile as [| a [| b rest]]; try reflexivity.
  unfold analyze_depth_profile.
  destruct (np_gradient (a :: b :: rest)) as [g | e] eqn:Hg;
    [| discriminate Hg].
  cbn [mbind result_bind].
  destruct (layer_loop _ _ _ _) as [start_idx acc]. reflexivity.
Qed.

Lemma scan_loop_returns (coords : list (Q * Q)) (profiles : list (list Q)) :
  forall i acc lay,
    returns (scan_loop coefficients butter filtfilt savgol_filter find_peaks
               coords profiles i acc lay)
    = forallb (fun p => (2 <=? length p)%nat) profiles.
Proof.
  induction profiles as [| p rest IH]; intros i acc lay; [reflexivity |].
  cbn [scan_loop forallb].
  destruct (position_of coords i) as [px py].
  pose proof (detect_anomalies_returns p px py) as Hd.
  destruct (detect_anomalies _ _ _ _ _ p px py) as [d | e];
    [| discriminate Hd].
  cbn [mbind result_bind].
  pose proof (analyze_depth_profile_returns p) as Ha.
  destruct (analyze_depth_profile p) as [la | e]; cbn [returns] in Ha;
    rewrite <- Ha; cbn [mbind result_bind andb]; [apply IH | reflexivity].
Qed.

(** Which scans are processed.  [process_radar_scan] returns exactly when
    every profile of the scan has two samples or more: one shorter profile,
    an empty one included, makes the whole scan raise. *)
Theorem process_radar_scan_returns (data : radar_data) :
  returns (process_radar_scan coefficients butter filtfilt savgol_filter
             find_peaks data)
  = forallb (fun p => (2 <=? length p)%nat) (default [] (depth_profile data)).
Proof.
  unfold process_radar_scan.
  set (profiles := default [] (depth_profile data)).
  set (coords := match default [] (coordinates data) with
                 | [] => _ | _ => _ end).
  rewrite <- (scan_loop_returns coords profiles 0 [] []).
  destruct (scan_loop _ _ _ _ _ coords profiles 0 [] []) as [[found ls] | e];
    reflexivity.
Qed.

End ScanReturns.

(** Two profiles of a scan without coordinates: one with a reflection of
    amplitude 0.5, one with a reflection of amplitude 0.9. *)
Lemma process_radar_scan_returns_witness :
  returns (process_radar_scan unit accept_band remove_mean no_smoothing
             interior_maxima
             {| depth_profile :=
                  Some [[0; 0.2; 0.5; 0.2; 0]; [0; 0.2; 0.9; 0.2; 0]];
                coordinates := None |}) = true
  /\ returns (process_radar_scan unit accept_band remove_mean no_smoothing
                interior_maxima
                {| depth_profile := Some [[0; 0.2; 0.5; 0.2; 0]; [0.9]];
                   coordinates := None |}) = false.
Proof.
  split.
  - apply (process_radar_scan_returns unit accept_band remove_mean no_smoothing
             interior_maxima (fun xs _ => eq_refl)
             {| depth_profile :=
                  Some [[0; 0.2; 0.5; 0.2; 0]; [0; 0.2; 0.9; 0.2; 0]];
                coordinates := None |}).
  - apply (process_radar_scan_returns unit accept_band remove_mean no_smoothing
             interior_maxima (fun xs _ => eq_refl)
             {| depth_profile := Some [[0; 0.2; 0.5; 0.2; 0]; [0.9]];
                coordinates := None |}).
Defined.

Lemma process_radar_scan_result_witness :
  exists r,
    process_radar_scan unit accept_band remove_mean no_smoothing
      interior_maxima
      {| depth_profile :=
           Some [[0; 0.2; 0.5; 0.2; 0]; [0; 0.2; 0.9; 0.2; 0]];
         coordinates := None |} = Ok r
    /\ map type (anomalies r) = [METAL; UNKNOWN]
    /\ descending (anomalies r)
    /\ total_anomalies_detected r = length (anomalies r)
    /\ length (layer_analysis r) = 2%nat
    /\ (forall a, In a (anomalies r) ->
          min_x (scan_area r) <= x a <= max_x (scan_area r)
          /\ min_y (scan_area r) <= y a <= max_y (scan_area r)).
Proof.
  eexists. split; [vm_compute; reflexivity |].
  split; [reflexivity |].
  apply (process_radar_scan_result unit accept_band remove_mean no_smoothing
           interior_maxima
           {| depth_profile :=
                Some [[0; 0.2; 0.5; 0.2; 0]; [0; 0.2; 0.9; 0.2; 0]];
              coordinates := None |}).
  vm_compute. reflexivity.
Defined.

Lemma process_radar_scan_provenance_witness :
  exists r,
    process_radar_scan unit accept_band remove_mean no_smoothing
      interior_maxima
      {| depth_profile :=
           Some [[0; 0.2; 0.5; 0.2; 0]; [0; 0.2; 0.9; 0.2; 0]];
         coordinates := Some [(3, 4)] |} = Ok r
    /\ map (fun a => (x a, y a)) (anomalies r) = [(0.1, 0); (3, 4)]
    /\ (forall a,
          In a (anomalies r) <->
          exists k profile detected,
            nth_error [[0; 0.2; 0.5; 0.2; 0]; [0; 0.2; 0.9; 0.2; 0]] k
            = Some profile
            /\ detect_anomalies unit accept_band remove_mean no_smoothing
                 interior_maxima profile
                 (fst (position_of [(3, 4)] k)) (snd (position_of [(3, 4)] k))
               = Ok detected
            /\ In a detected)
    /\ (forall k profile,
          nth_error [[0; 0.2; 0.5; 0.2; 0]; [0; 0.2; 0.9; 0.2; 0]] k
          = Some profile ->
          exists la,
            analyze_depth_profile profile = Ok la
            /\ nth_error (layer_analysis r) k
               = Some {| analysis := la;
                         position := position_of [(3, 4)] k |}).
Proof.
  eexists. split; [vm_compute; reflexivity |].
  split; [vm_compute; reflexivity |].
  apply (process_radar_scan_provenance unit accept_band remove_mean
           no_smoothing interior_maxima
           {| depth_profile :=
                Some [[0; 0.2; 0.5; 0.2; 0]; [0; 0.2; 0.9; 0.2; 0]];
              coordinates := Some [(3, 4)] |}).
  vm_compute. reflexivity.
Defined.

End RadarScanSpec.

(** ** The broadcast hub: registration, logging and the thread path *)

Module HubFacts.
Import Hub HubSpec HubTasks.

Lemma length_filter_elements
  (P : WebSocket -> Prop) `{!forall c, Decision (P c)} (A : gset WebSocket) :
  length (filter P (elements A)) = size (filter P A : gset WebSocket).
Proof.
  rewrite <- list_to_set_filter_elements.
  rewrite size_list_to_set; [reflexivity |].
  apply NoDup_filter, NoDup_elements.
Qed.

Section Registration.

Variable pydict : Type.
Variable send_text : WebSocket -> string -> result unit.
Variable json_dumps : SensorData pydict -> result string.
Variable policy_get_event_loop : result EventLoop.
Variable dispatched : dispatch_outcome.

#[local] Abbreviation Manager := (ConnectionManager pydict).
#[local] Abbreviation active := (active_connections pydict).
#[local] Abbreviation broadcast := (Hub.broadcast pydict send_text).
#[local] Abbreviation delivers := (Hub.delivers send_text).
#[local] Abbreviation fails := (Hub.fails send_text).
#[local] Abbreviation from_thread :=
  (send_sensor_data_from_thread pydict send_text json_dumps
     policy_get_event_loop dispatched).
#[local] Abbreviation apply :=
  (Hub.apply pydict send_text json_dumps policy_get_event_loop dispatched).
#[local] Abbreviation run :=
  (Hub.run pydict send_text json_dumps policy_get_event_loop dispatched).

(** Registration is that of a set.  A connected socket is active; connecting
    an active socket changes nothing; disconnecting removes the socket and
    nothing else, so that disconnecting a socket that was connected to a hub
    that did not have it gives back the active set, and disconnecting twice
    is disconnecting once. *)
Theorem connect_disconnect_registration
  (self : Manager) (w : World) (websocket : WebSocket) (running : EventLoop) :
  let connected := fst (connect pydict self w websocket running) in
  let dropped := fst (disconnect pydict connected w websocket) in
  websocket ∈ active connected
  /\ (websocket ∈ active self -> active connected = active self)
  /\ (websocket ∉ active self ->
      size (active connected) = S (size (active self))
      /\ active dropped = active self)
  /\ active dropped = active self ∖ {[websocket]}
  /\ active (fst (disconnect pydict dropped w websocket)) = active dropped
  /\ message_buffer pydict dropped = message_buffer pydict self.
Proof.
  cbn [connect disconnect fst active_connections message_buffer].
  split; [set_solver |]. split; [set_solver |].
  split; [| split; [set_solver | split; [set_solver | reflexivity]]].
  intros Hnew. split; [| set_solver].
  rewrite size_union by set_solver. now rewrite size_singleton.
Qed.

Lemma deliver_log (message : string) (l : list WebSocket) :
  forall (st : gset WebSocket * nat * World),
    exists extra,
      log (snd (fold_left (deliver send_text message) l st))
      = log (snd st) ++ extra.
Proof.
  induction l as [| c l IH]; intros st.
  - exists []. cbn. now rewrite app_nil_r.
  - cbn [fold_left]. destruct (IH (deliver send_text message st c)) as [extra ->].
    destruct st as [[disc n] w]. unfold deliver.
    destruct (send_text c message) as [[] | []]; cbn [snd sent logged log];
      eexists; rewrite <- ?app_assoc; reflexivity.
Qed.

Lemma drop_log (l : list WebSocket) :
  forall (st : Manager * World),
    exists extra,
      log (snd (fold_left (drop pydict) l st)) = log (snd st) ++ extra.
Proof.
  induction l as [| c l IH]; intros st.
  - exists []. cbn. now rewrite app_nil_r.
  - cbn [fold_left]. destruct (IH (drop pydict st c)) as [extra ->].
    unfold drop, disconnect. cbn [snd logged log].
    eexists. rewrite <- app_assoc. reflexivity.
Qed.

Lemma other_tasks_effect (events : list arrival) :
  forall (st : Manager * World),
    active (fst (fold_left (other_task pydict) events st))
    = after_arrivals (active (fst st)) events
    /\ message_buffer pydict (fst (fold_left (other_task pydict) events st))
       = message_buffer pydict (fst st)
    /\ exists extra,
         log (snd (fold_left (other_task pydict) events st))
         = log (snd st) ++ extra.
Proof.
  induction events as [| a events IH]; intros st.
  - cbn. repeat split. exists []. now rewrite app_nil_r.
  - cbn [fold_left after_arrivals].
    destruct (IH (other_task pydict st a)) as (Ha & Hb & extra & Hl).
    rewrite Ha, Hb, Hl.
    destruct a as [websocket running | websocket];
      cbn [other_task connect disconnect fst snd active_connections
           message_buffer logged log];
      (split; [reflexivity |]); (split; [reflexivity |]);
      eexists; rewrite <- app_assoc; reflexivity.
Qed.

Lemma after_arrivals_app (A : gset WebSocket) (e1 e2 : list arrival) :
  after_arrivals A (e1 ++ e2) = after_arrivals (after_arrivals A e1) e2.
Proof. unfold after_arrivals. apply fold_left_app. Qed.

(** The delivery loop with its awaits counts and collects as the
    uninterrupted one does, since it runs over the copy; the hub it leaves
    is the one the other tasks made of it. *)
Lemma deliver_interleaved_effect (message : string) (copy : list WebSocket) :
  forall (schedule : list (list arrival)) (disconnected : gset WebSocket)
         (n : nat) (st : Manager * World),
    let '(disconnected', n', st') :=
      deliver_interleaved pydict send_text message copy schedule
        disconnected n st in
    disconnected' = list_to_set (filter (fails message) copy) ∪ disconnected
    /\ n' = (n + length (filter (delivers message) copy))%nat
    /\ active (fst st')
       = after_arrivals (active (fst st))
           (concat (take (length copy) schedule))
    /\ message_buffer pydict (fst st') = message_buffer pydict (fst st)
    /\ exists extra, log (snd st') = log (snd st) ++ extra.
Proof.
  induction copy as [| c copy IH]; intros schedule disconnected n st.
  - cbn. repeat split; [set_solver | lia |]. exists []. now rewrite app_nil_r.
  - cbn [deliver_interleaved].
    destruct (other_tasks_effect (List.hd [] schedule) st)
      as (Ha & Hb & extra1 & Hl1).
    set (st1 := fold_left (other_task pydict) (List.hd [] schedule) st) in *.
    pose proof (deliver_loop send_text message [c] disconnected n (snd st1))
      as Hd.
    destruct (deliver_log message [c] (disconnected, n, snd st1))
      as [extra2 Hl2].
    cbn [fold_left] in Hd, Hl2.
    destruct (deliver send_text message (disconnected, n, snd st1) c)
      as [[disc1 n1] w1].
    destruct Hd as (Hdisc & Hn & _). cbn [snd] in Hl2.
    specialize (IH (List.tl schedule) disc1 n1 (fst st1, w1)).
    destruct (deliver_interleaved pydict send_text message copy
                (List.tl schedule) disc1 n1 (fst st1, w1))
      as [[disc' n'] st'].
    destruct IH as (Hdisc' & Hn' & Ha' & Hb' & extra3 & Hl3).
    cbn [fst snd] in Ha', Hb', Hl3.
    rewrite !filter_cons. rewrite !filter_cons, !filter_nil in Hdisc, Hn.
    split; [| split; [| split; [| split]]].
    + rewrite Hdisc', Hdisc.
      destruct (decide (fails message c)); set_solver.
    + rewrite Hn', Hn.
      destruct (decide (delivers message c)); cbn [length]; lia.
    + rewrite Ha', Ha. cbn [length].
      destruct schedule as [| events schedule];
        cbn [List.hd List.tl take concat].
      * now rewrite take_nil.
      * now rewrite after_arrivals_app.
    + now rewrite Hb', Hb.
    + exists (extra1 ++ extra2 ++ extra3).
      rewrite Hl3, Hl2, Hl1, <- !app_assoc. reflexivity.
Qed.

(** A broadcast that no other task interrupts is the broadcast taken as one
    step. *)
Lemma broadcast_uninterrupted (self : Manager) (w : World) (message : string) :
  broadcast_interleaved pydict send_text self w message [] = broadcast self w message.
Proof.
  unfold broadcast_interleaved, Hub.broadcast.
  set (w0 := logged w (InfoAttempting (size (active self)))).
  assert (Hloop : forall copy disconnected n (st : Manager * World),
    deliver_interleaved pydict send_text message copy [] disconnected n st
    = (let '(d, k, w') :=
         fold_left (deliver send_text message) copy (disconnected, n, snd st)
       in (d, k, (fst st, w')))).
  { induction copy as [| c copy IH]; intros disconnected n [self0 w1];
      [reflexivity |].
    cbn [deliver_interleaved List.hd List.tl fold_left fst snd].
    destruct (deliver send_text message (disconnected, n, w1) c)
      as [[d1 n1] w2].
    rewrite IH. reflexivity. }
  rewrite Hloop. cbn [fst snd].
  destruct (fold_left (deliver send_text message) (elements (active self))
              (∅, 0%nat, w0)) as [[d k] w']. reflexivity.
Qed.

(** What a broadcast logs, other tasks running at its awaits.  The first
    number of the completion record is the number of connections, among
    those active when the broadcast started, whose send succeeded; the
    second is the number of connections registered when it ends: the
    starting set after the connects and disconnects other tasks made during
    the awaits, less the connections whose send failed.  In a broadcast that
    no other task interrupts the two numbers are equal, since the failed
    connections are removed before the total is taken.  The log of the
    broadcast starts with the attempt record, which carries the number of
    connections active at the start, and ends with the completion record. *)
Theorem broadcast_completion_log
  (self : Manager) (w : World) (message : string)
  (schedule : list (list arrival)) :
  let st := broadcast_interleaved pydict send_text self w message schedule in
  let k := size (filter (delivers message) (active self) : gset WebSocket) in
  let events := concat (take (size (active self)) schedule) in
  last (log (snd st)) = Some (InfoCompleted k (size (active (fst st))))
  /\ active (fst st)
     = after_arrivals (active self) events
       ∖ filter (fails message) (active self)
  /\ (events = [] -> size (active (fst st)) = k)
  /\ exists between,
       log (snd st)
       = log w ++ InfoAttempting (size (active self)) :: between
               ++ [InfoCompleted k (size (active (fst st)))].
Proof.
  cbn zeta. unfold broadcast_interleaved.
  set (w0 := logged w (InfoAttempting (size (active self)))).
  pose proof (deliver_interleaved_effect message (elements (active self))
                schedule ∅ 0%nat (self, w0)) as Hd.
  destruct (deliver_interleaved pydict send_text message
              (elements (active self)) schedule ∅ 0%nat (self, w0))
    as [[disc n] st1].
  destruct Hd as (Hdisc & Hn & Hact & _ & extra1 & Hl1).
  cbn [fst snd] in Hact, Hl1.
  pose proof (drop_loop pydict send_text (elements disc) st1) as Hdrop.
  destruct (drop_log (elements disc) st1) as [extra2 Hl2].
  destruct (fold_left (drop pydict) (elements disc) st1) as [self' w2].
  cbn [fst snd] in *. cbn zeta in Hdrop.
  destruct Hdrop as (Ha & _).
  assert (Hfinal : active self'
                   = after_arrivals (active self)
                       (concat (take (size (active self)) schedule))
                     ∖ filter (fails message) (active self)).
  { rewrite Ha, Hact, list_to_set_elements_L, Hdisc,
      list_to_set_filter_elements.
    change (length (elements (active self))) with (size (active self)).
    set_solver. }
  assert (Hcount : n = size (filter (delivers message) (active self)
                             : gset WebSocket)).
  { rewrite Hn. cbn [Nat.add]. apply length_filter_elements. }
  rewrite <- Hcount. cbn [logged log].
  split; [apply last_snoc |]. split; [exact Hfinal |]. split.
  - intros Hnone. rewrite Hfinal, Hnone, Hcount. cbn [after_arrivals fold_left].
    f_equal. apply set_eq. intros c.
    rewrite elem_of_difference, !elem_of_filter.
    pose proof (delivers_or_fails send_text message c). tauto.
  - exists (extra1 ++ extra2).
    rewrite Hl2, Hl1. unfold w0. cbn [logged log].
    rewrite <- !app_assoc. reflexivity.
Qed.

(** A client that connects while a broadcast to two clients is under way
    makes the completion record read 2/3. *)
Example broadcast_completion_two_of_three :
  last (log (snd (broadcast_interleaved unit always_delivers
                    (fst (connect unit
                            (fst (connect unit (init unit) quiet 1%nat
                                    RunningLoop))
                            quiet 2%nat RunningLoop))
                    quiet "frame" [[Arrives 3%nat RunningLoop]])))
  = Some (InfoCompleted 2 3).
Proof. vm_compute. reflexivity. Qed.

Lemma from_thread_state
  (self : Manager) (w : World) (data : SensorData pydict) :
  let r := from_thread self w data in
  message_buffer pydict (manager pydict r) = message_buffer pydict self
  /\ buffer_size pydict (manager pydict r) = buffer_size pydict self
  /\ active (manager pydict r) ⊆ active self
  /\ (is_Some (raised pydict r) ->
      active (manager pydict r) = active self /\ world pydict r = w).
Proof.
  cbn zeta.
  assert (Hdispatch : forall self' target,
    let r := dispatch_from_thread pydict send_text json_dumps dispatched
               self' w data target in
    message_buffer pydict (manager pydict r) = message_buffer pydict self'
    /\ buffer_size pydict (manager pydict r) = buffer_size pydict self'
    /\ active (manager pydict r) ⊆ active self'
    /\ (is_Some (raised pydict r) ->
        active (manager pydict r) = active self' /\ world pydict r = w)).
  { intros self' target. cbn zeta. unfold dispatch_from_thread.
    destruct (json_dumps data) as [message | e];
      [| cbn [manager raised world]; repeat split; set_solver].
    destruct (run_coroutine_threadsafe target) as [[] | e];
      [| cbn [manager raised world]; repeat split; set_solver].
    destruct (future_result dispatched target 1) as [[[] | e] seconds].
    - destruct (broadcast_effect pydict send_text self' w message)
        as (Ha & Hb & Hs & _).
      destruct (Hub.broadcast pydict send_text self' w message) as [s1 w1].
      cbn [fst manager raised world] in *.
      repeat split; [assumption | assumption | set_solver | |];
        destruct H as [x Hx]; discriminate Hx.
    - cbn [manager raised world].
      repeat split; try set_solver; destruct H as [x Hx]; discriminate Hx. }
  unfold send_sensor_data_from_thread.
  destruct (loop pydict self) as [target |]; [apply Hdispatch |].
  destruct policy_get_event_loop as [target | e].
  - apply (Hdispatch (with_loop pydict self target) target).
  - destruct e; cbn [manager raised world]; repeat split; try set_solver;
      destruct H as [x Hx]; discriminate Hx.
Qed.

(** The thread path never writes to the buffer and never registers a
    connection, however the call ends; when it raises it leaves the active
    connections and the world as they were. *)
Theorem from_thread_never_buffers
  (self : Manager) (w : World) (data : SensorData pydict) :
  let r := from_thread self w data in
  message_buffer pydict (manager pydict r) = message_buffer pydict self
  /\ buffer_size pydict (manager pydict r) = buffer_size pydict self
  /\ active (manager pydict r) ⊆ active self
  /\ (is_Some (raised pydict r) ->
      active (manager pydict r) = active self /\ world pydict r = w).
Proof. exact (from_thread_state self w data). Qed.

(** With a stored loop that is not closed and a payload that serializes,
    the call from a thread returns normally after at most one second, and
    logs how the wait for the dispatched broadcast ended. *)
Theorem from_thread_returns
  (self : Manager) (w : World) (data : SensorData pydict)
  (target : EventLoop) :
  loop pydict self = Some target -> target <> ClosedLoop ->
  returns (json_dumps data) = true ->
  let r := from_thread self w data in
  raised pydict r = None
  /\ blocked pydict r <= 1
  /\ In (match fst (future_result dispatched target 1) with
         | Ok _ => InfoSentFromThread
         | Raise e => ErrorSendFromThread e
         end) (log (world pydict r)).
Proof.
  intros Hloop Hopen Hser. cbn zeta.
  unfold send_sensor_data_from_thread. rewrite Hloop.
  destruct (dispatch_from_thread_returns pydict send_text json_dumps dispatched
              self w data target Hser Hopen) as [Hraised Hblocked].
  split; [exact Hraised |]. split; [exact Hblocked |].
  unfold dispatch_from_thread.
  destruct (json_dumps data) as [message | e]; [| discriminate].
  destruct target; try contradiction; cbn [run_coroutine_threadsafe];
      destruct (future_result dispatched _ 1) as [[[] | e] seconds];
      cbn [fst];
      try destruct (Hub.broadcast pydict send_text self w message);
      cbn [world logged log]; apply in_or_app; right; now left.
Qed.

(** A personal message handles a closed connection only.  The call returns
    when the send succeeds, leaving the hub as it was, and when the send
    raises [WebSocketDisconnect], removing that socket and no other; any
    other exception of the send propagates, where [broadcast] would have
    caught it and removed the socket. *)
Theorem send_personal_message_outcome
  (self : Manager) (w : World) (message : string) (websocket : WebSocket) :
  match send_personal_message pydict send_text self w message websocket with
  | Ok (self', w') =>
    transcript w'
    = transcript w ++ [(websocket, message, send_text websocket message)]
    /\ message_buffer pydict self' = message_buffer pydict self
    /\ (delivers message websocket -> active self' = active self)
    /\ (fails message websocket ->
        send_text websocket message = Raise WebSocketDisconnect
        /\ active self' = active self ∖ {[websocket]})
  | Raise e =>
    send_text websocket message = Raise e
    /\ e <> WebSocketDisconnect
    /\ websocket ∉ active (fst (broadcast self w message))
  end.
Proof.
  unfold send_personal_message, Hub.delivers, Hub.fails.
  destruct (send_text websocket message) as [[] | e] eqn:E.
  - cbn [sent transcript returns]. repeat split; discriminate.
  - assert (Hgone : websocket ∉ active (fst (broadcast self w message))).
    { destruct (broadcast_effect pydict send_text self w message)
        as (Ha & _).
      rewrite Ha. intros Hin. apply elem_of_difference in Hin.
      destruct Hin as [Hin Hnot]. apply Hnot.
      apply elem_of_filter. split; [| exact Hin].
      unfold Hub.fails. now rewrite E. }
    destruct e; try (repeat split; [discriminate | exact Hgone]).
    cbn [disconnect sent logged transcript returns active_connections
         message_buffer].
    repeat split; discriminate.
Qed.

(** The two fields of the broadcasting task move together.  From a state in
    which they agree, any sequence of start and stop requests leaves them in
    agreement, broadcasting exactly when the last request was a start, and
    touches neither the connections nor the buffer. *)
Theorem broadcasting_flags (self : Manager) (requests : list task_request) :
  is_broadcasting pydict self = broadcast_task pydict self ->
  let final := fold_left (serve pydict) requests self in
  is_broadcasting pydict final = broadcast_task pydict final
  /\ is_broadcasting pydict final
     = match last requests with
       | Some Start => true
       | Some Stop => false
       | None => is_broadcasting pydict self
       end
  /\ active final = active self
  /\ message_buffer pydict final = message_buffer pydict self.
Proof.
  revert self. induction requests as [| request requests IH] using rev_ind;
    intros self Hagree; cbn zeta.
  - cbn. auto.
  - rewrite fold_left_app, last_snoc. cbn [fold_left].
    destruct (IH self Hagree) as (H1 & _ & H3 & H4).
    set (s := fold_left (serve pydict) requests self) in *.
    destruct request; cbn [serve];
      unfold start_broadcasting, stop_broadcasting; rewrite <- H1;
      destruct (is_broadcasting pydict s) eqn:E; cbn [andb negb];
      cbn [with_task is_broadcasting broadcast_task active_connections
           message_buffer]; rewrite ?E; auto.
Qed.

(** The hub registers nobody of its own accord: whatever operations are run
    on a fresh hub, every active connection is one that was connected. *)
Theorem run_registers_only_connected
  (ops : list (operation pydict)) (c : WebSocket) :
  c ∈ active (fst (run ops)) ->
  exists running, In (Connect pydict c running) ops.
Proof.
  unfold Hub.run.
  assert (Hstep : forall st op,
    c ∈ active (fst (apply st op)) ->
    c ∈ active (fst st) \/ exists running, op = Connect pydict c running).
  { intros [self w] op. cbn [fst].
    destruct op as [ws running | ws | message | data | data | data];
      cbn [Hub.apply].
    - cbn [connect fst active_connections]. intros Hin.
      apply elem_of_union in Hin. destruct Hin as [Hin | Hin]; [| now left].
      apply elem_of_singleton in Hin. subst ws. right. now exists running.
    - cbn [disconnect fst active_connections]. set_solver.
    - destruct (broadcast_effect pydict send_text self w message) as (Ha & _).
      rewrite Ha. set_solver.
    - cbn [add_to_buffer fst active_connections]. now left.
    - unfold send_sensor_data.
      destruct (json_dumps data) as [message | e]; cbn [mbind result_bind];
        [| now left].
      destruct (broadcast_effect pydict send_text self w message) as (Ha & _).
      destruct (Hub.broadcast pydict send_text self w message) as [s1 w1].
      cbn [fst add_to_buffer active_connections] in *. rewrite Ha. set_solver.
    - cbn [fst]. intros Hin. left.
      destruct (from_thread_state self w data) as (_ & _ & Hsub & _).
      now apply Hsub. }
  assert (Hfold : forall ops' st,
    c ∈ active (fst (fold_left apply ops' st)) ->
    c ∈ active (fst st) \/ exists running, In (Connect pydict c running) ops').
  { induction ops' as [| op ops' IH]; intros st Hin; [now left |].
    cbn [fold_left] in Hin. apply IH in Hin.
    destruct Hin as [Hin | [running Hin]].
    - apply Hstep in Hin. destruct Hin as [Hin | [running ->]]; [now left |].
      right. exists running. now left.
    - right. exists running. now right. }
  intros Hin. apply Hfold in Hin. destruct Hin as [Hin | Hin]; [| exact Hin].
  cbn [fst init active_connections] in Hin. set_solver.
Qed.

End Registration.

Lemma from_thread_returns_witness :
  loop unit (with_loop unit (init unit) IdleLoop) = Some IdleLoop
  /\ IdleLoop <> ClosedLoop
  /\ returns (serialize (frame 1)) = true
  /\ raised unit
       (send_sensor_data_from_thread unit always_delivers serialize
          (Raise RuntimeError) Never
          (with_loop unit (init unit) IdleLoop) quiet (frame 1)) = None
  /\ blocked unit
       (send_sensor_data_from_thread unit always_delivers serialize
          (Raise RuntimeError) Never
          (with_loop unit (init unit) IdleLoop) quiet (frame 1)) <= 1
  /\ In (ErrorSendFromThread TimeoutError)
       (log (world unit
               (send_sensor_data_from_thread unit always_delivers serialize
                  (Raise RuntimeError) Never
                  (with_loop unit (init unit) IdleLoop) quiet (frame 1)))).
Proof.
  assert (Hloop : loop unit (with_loop unit (init unit) IdleLoop)
                  = Some IdleLoop) by reflexivity.
  assert (Hopen : IdleLoop <> ClosedLoop) by discriminate.
  assert (Hser : returns (serialize (frame 1)) = true) by reflexivity.
  split; [exact Hloop |]. split; [exact Hopen |]. split; [exact Hser |].
  apply (from_thread_returns unit always_delivers serialize
           (Raise RuntimeError) Never
           (with_loop unit (init unit) IdleLoop) quiet (frame 1) IdleLoop
           Hloop Hopen Hser).
Defined.

Lemma broadcasting_flags_witness :
  is_broadcasting unit (init unit) = broadcast_task unit (init unit)
  /\ is_broadcasting unit
       (fold_left (serve unit) [Start; Start; Stop; Start] (init unit))
     = broadcast_task unit
         (fold_left (serve unit) [Start; Start; Stop; Start] (init unit))
  /\ is_broadcasting unit
       (fold_left (serve unit) [Start; Start; Stop; Start] (init unit))
     = true
  /\ active_connections unit
       (fold_left (serve unit) [Start; Start; Stop; Start] (init unit))
     = active_connections unit (init unit)
  /\ message_buffer unit
       (fold_left (serve unit) [Start; Start; Stop; Start] (init unit))
     = message_buffer unit (init unit).
Proof.
  assert (H : is_broadcasting unit (init unit) = broadcast_task unit (init unit))
    by reflexivity.
  split; [exact H |].
  apply (broadcasting_flags unit (init unit) [Start; Start; Stop; Start] H).
Defined.

Lemma run_registers_only_connected_witness :
  2%nat ∈ active_connections unit
            (fst (Hub.run unit odd_disconnected serialize (Raise RuntimeError)
                    Never
                    [Connect unit 1%nat RunningLoop;
                     Connect unit 2%nat RunningLoop;
                     SendSensorData unit (frame 1)]))
  /\ exists running,
       In (Connect unit 2%nat running)
         [Connect unit 1%nat RunningLoop;
          Connect unit 2%nat RunningLoop;
          SendSensorData unit (frame 1)].
Proof.
  assert (H : 2%nat ∈ active_connections unit
                (fst (Hub.run unit odd_disconnected serialize
                        (Raise RuntimeError) Never
                        [Connect unit 1%nat RunningLoop;
                         Connect unit 2%nat RunningLoop;
                         SendSensorData unit (frame 1)])))
    by (vm_compute; reflexivity).
  split; [exact H |].
  apply (run_registers_only_connected unit odd_disconnected serialize
           (Raise RuntimeError) Never _ 2%nat H).
Defined.


End HubFacts.

(** ** Spectra: normalization, peaks and the feature vector *)

Module SpectralFacts.
Import Spectral SpectralSpec.

Lemma fold_left_py_max_in (rest : list Q) :
  forall v, In (fold_left py_max rest v) (v :: rest).
Proof.
  induction rest as [| w rest IH]; intros v; cbn [fold_left]; [now left |].
  destruct (IH (py_max v w)) as [H | H]; [| right; now right].
  rewrite <- H. unfold py_max. destruct (Qltb v w); [right |]; now left.
Qed.


(** [np.max] and [np.min] of a non-empty array are elements of it that
    bound every element. *)
Lemma np_max_spec (xs : list Q) (m : Q) :
  np_max xs = Ok m -> In m xs /\ forall v, In v xs -> v <= m.
Proof.
  destruct xs as [| v rest]; [discriminate |]. intros [= <-].
  split; [apply fold_left_py_max_in |].
  destruct (RadarScanSpec.fold_left_py_max rest v) as [H1 H2].
  rewrite List.Forall_forall in H2.
  intros u [<- | Hu]; [exact H1 | now apply H2].
Qed.






(** *** Peaks *)

Lemma find_peaks_spec (intensities : list Q) (threshold : Q) (i : nat) :
  In i (find_peaks intensities threshold)
  <-> (1 <= i)%nat /\ (i + 1 < length intensities)%nat
      /\ nth (i - 1) intensities 0 < nth i intensities 0
      /\ nth (i + 1) intensities 0 < nth i intensities 0
      /\ threshold < nth i intensities 0.
Proof.
  unfold find_peaks.
  rewrite <- list_elem_of_In, list_elem_of_filter, elem_of_seq.
  rewrite !andb_True, !Is_true_true, !Qltb_lt.
  split; intros H; repeat split; try tauto; lia.
Qed.

(** The peaks of a spectrum lie strictly inside it and above the threshold,
    and no two of them are neighbours. *)
Theorem find_peaks_isolated (intensities : list Q) (threshold : Q) (i : nat) :
  In i (find_peaks intensities threshold) ->
  (1 <= i)%nat /\ (i + 1 < length intensities)%nat
  /\ threshold < nth i intensities 0
  /\ ~ In (i + 1)%nat (find_peaks intensities threshold)
  /\ ~ In (i - 1)%nat (find_peaks intensities threshold).
Proof.
  intros Hi. apply find_peaks_spec in Hi.
  destruct Hi as (H1 & H2 & H3 & H4 & H5).
  repeat split; try assumption.
  - intros Hn. apply find_peaks_spec in Hn.
    destruct Hn as (_ & _ & Hn & _).
    replace (i + 1 - 1)%nat with i in Hn by lia. lra.
  - intros Hp. apply find_peaks_spec in Hp.
    destruct Hp as (Hp1 & _ & _ & Hp & _).
    replace (i - 1 + 1)%nat with i in Hp by lia. lra.
Qed.

Lemma find_peaks_isolated_witness :
  In 1%nat (find_peaks [0.1; 0.9; 0.5; 0.8; 0.2] 0.3)
  /\ (1 <= 1)%nat /\ (1 + 1 < length [0.1; 0.9; 0.5; 0.8; 0.2]%Q)%nat
  /\ 0.3 < nth 1 [0.1; 0.9; 0.5; 0.8; 0.2] 0
  /\ ~ In (1 + 1)%nat (find_peaks [0.1; 0.9; 0.5; 0.8; 0.2] 0.3)
  /\ ~ In (1 - 1)%nat (find_peaks [0.1; 0.9; 0.5; 0.8; 0.2] 0.3).
Proof.
  assert (H : In 1%nat (find_peaks [0.1; 0.9; 0.5; 0.8; 0.2] 0.3))
    by (vm_compute; now left).
  split; [exact H |].
  apply (find_peaks_isolated [0.1; 0.9; 0.5; 0.8; 0.2] 0.3 1 H).
Defined.

(** *** The peak intensity of a band *)

Lemma select_masked_in (xs : list Q) :
  forall (mask : list bool) (v : Q),
    In v (select_masked xs mask)
    <-> exists k, nth_error xs k = Some v /\ nth_error mask k = Some true.
Proof.
  induction xs as [| x xs IH]; intros mask v.
  - cbn. split; [intros [] | intros ([| k] & H & _); discriminate H].
  - destruct mask as [| m mask].
    + cbn. split; [intros [] | intros ([| k] & _ & H); discriminate H].
    + cbn [select_masked]. destruct m.
      * cbn [In]. rewrite IH. split.
        -- intros [<- | (k & H1 & H2)]; [now exists 0%nat | now exists (S k)].
        -- intros ([| k] & H1 & H2); cbn in H1, H2;
             [left; congruence | right; now exists k].
      * rewrite IH. split.
        -- intros (k & H1 & H2). now exists (S k).
        -- intros ([| k] & H1 & H2); cbn in H1, H2;
             [discriminate | now exists k].
Qed.

(** With as many wavelengths as intensities, [get_peak_intensity] returns 0
    when no wavelength lies in the band, and otherwise the largest of the
    intensities whose wavelength does. *)
Theorem get_peak_intensity_value
  (wavelengths intensities : list Q) (band_start band_end : Q) :
  length wavelengths = length intensities ->
  exists r,
    get_peak_intensity wavelengths intensities band_start band_end = Ok r
    /\ ((r = 0
         /\ forall w, In w wavelengths -> ~ (band_start <= w <= band_end))
        \/ ((exists k w,
               nth_error wavelengths k = Some w
               /\ band_start <= w <= band_end
               /\ nth_error intensities k = Some r)
            /\ forall k w v,
                 nth_error wavelengths k = Some w ->
                 band_start <= w <= band_end ->
                 nth_error intensities k = Some v -> v <= r)).
Proof.
  intros Hlen. unfold get_peak_intensity.
  set (band := fun w => Qle_bool band_start w && Qle_bool w band_end).
  assert (Hband : forall w, band w = true <-> band_start <= w <= band_end).
  { intros w. unfold band. rewrite andb_true_iff, !Qle_bool_iff. tauto. }
  assert (Hmask : forall k,
    nth_error (map band wavelengths) k = Some true
    <-> exists w, nth_error wavelengths k = Some w
                  /\ band_start <= w <= band_end).
  { intros k. rewrite nth_error_map.
    destruct (nth_error wavelengths k) as [w |]; cbn [option_map].
    - split.
      + intros [= H]. exists w. split; [reflexivity | now apply Hband].
      + intros (w' & [= <-] & H). f_equal. now apply Hband.
    - split; [discriminate | intros (w' & H & _); discriminate H]. }
  rewrite np_any_map.
  destruct (existsb band wavelengths) eqn:Hany.
  - unfold boolean_index. rewrite length_map, <- Hlen, Nat.eqb_refl.
    cbn [mbind result_bind].
    pose proof (select_masked_nonempty intensities (map band wavelengths)
                  ltac:(rewrite length_map; lia)
                  ltac:(now rewrite np_any_map)) as Hne.
    destruct (np_max (select_masked intensities (map band wavelengths)))
      as [r | e] eqn:Hmax;
      [| destruct (select_masked _ _); [contradiction | discriminate]].
    exists r. split; [reflexivity |]. right.
    destruct (np_max_spec _ _ Hmax) as [Hin Hle]. split.
    + apply select_masked_in in Hin. destruct Hin as (k & H1 & H2).
      apply Hmask in H2. destruct H2 as (w & H2 & H3). now exists k, w.
    + intros k w v Hw Hb Hv. apply Hle. apply select_masked_in.
      exists k. split; [exact Hv |]. apply Hmask. now exists w.
  - exists 0. split; [reflexivity |]. left. split; [reflexivity |].
    intros w Hw Hb.
    assert (Hex : existsb band wavelengths = true).
    { apply existsb_exists. exists w. split; [exact Hw | now apply Hband]. }
    congruence.
Qed.

Lemma get_peak_intensity_value_witness :
  length [295; 300; 500]%Q = length [0.2; 0.7; 0.9]%Q
  /\ exists r,
    get_peak_intensity [295; 300; 500] [0.2; 0.7; 0.9] 290 310 = Ok r
    /\ ((r = 0
         /\ forall w, In w [295; 300; 500] -> ~ (290 <= w <= 310))
        \/ ((exists k w,
               nth_error [295; 300; 500] k = Some w
               /\ 290 <= w <= 310
               /\ nth_error [0.2; 0.7; 0.9] k = Some r)
            /\ forall k w v,
                 nth_error [295; 300; 500] k = Some w ->
                 290 <= w <= 310 ->
                 nth_error [0.2; 0.7; 0.9] k = Some v -> v <= r)).
Proof.
  assert (H : length [295; 300; 500]%Q = length [0.2; 0.7; 0.9]%Q)
    by reflexivity.
  split; [exact H |].
  apply (get_peak_intensity_value [295; 300; 500] [0.2; 0.7; 0.9] 290 310 H).
Defined.

(** *** The feature vector *)

(** The loop over the four reference signatures reads three bands only.
    The nine material features are the peak intensities of the iron band
    (290 to 310), the silica band (900 to 1000) and the carbon-hydrogen band
    (1600 to 1700) at positions 0, 4 and 8, and 0 at the six other
    positions; the features of the fourth signature, stone, are cut off. *)
Theorem extract_material_features_layout
  (wavelengths intensities features : list Q) :
  extract_material_features wavelengths intensities = Ok features ->
  exists fe si ch,
    features = [fe; 0; 0; 0; si; 0; 0; 0; ch]
    /\ get_peak_intensity wavelengths intensities 290 310 = Ok fe
    /\ get_peak_intensity wavelengths intensities 900 1000 = Ok si
    /\ get_peak_intensity wavelengths intensities 1600 1700 = Ok ch.
Proof.
  rewrite extract_material_features_unfold.
  destruct (get_peak_intensity wavelengths intensities 290 310) as [fe | e1];
    [| discriminate].
  destruct (get_peak_intensity wavelengths intensities 900 1000) as [si | e2];
    [| discriminate].
  destruct (get_peak_intensity wavelengths intensities 1600 1700) as [ch | e3];
    [| discriminate].
  cbn [mbind result_bind]. intros [= <-]. now exists fe, si, ch.
Qed.

Lemma extract_material_features_layout_witness :
  extract_material_features [300; 950; 1450] [0.2; 0.7; 0.9]
  = Ok [0.2; 0; 0; 0; 0.7; 0; 0; 0; 0]
  /\ exists fe si ch,
    [0.2; 0; 0; 0; 0.7; 0; 0; 0; 0] = [fe; 0; 0; 0; si; 0; 0; 0; ch]
    /\ get_peak_intensity [300; 950; 1450] [0.2; 0.7; 0.9] 290 310 = Ok fe
    /\ get_peak_intensity [300; 950; 1450] [0.2; 0.7; 0.9] 900 1000 = Ok si
    /\ get_peak_intensity [300; 950; 1450] [0.2; 0.7; 0.9] 1600 1700 = Ok ch.
Proof.
  assert (H : extract_material_features [300; 950; 1450] [0.2; 0.7; 0.9]
              = Ok [0.2; 0; 0; 0; 0.7; 0; 0; 0; 0])
    by (vm_compute; reflexivity).
  split; [exact H |].
  apply (extract_material_features_layout
           [300; 950; 1450] [0.2; 0.7; 0.9] _ H).
Defined.



End SpectralFacts.

(** ** Material prediction: confidence and reliability *)

Module ClassifierSpec.
Import Spectral Classifier.

Lemma clamp_confidence (base s : Q) :
  -0.2 <= s <= 0 ->
  0.05 <= py_max 0.05 (py_min 1.0 (base + s)) <= 1
  /\ py_max 0.05 (py_min 1.0 (base + s)) <= Qmax 0.05 base
  /\ Qmin 1 base - 0.2 <= py_max 0.05 (py_min 1.0 (base + s)).
Proof.
  intros Hs. unfold py_max, py_min.
  destruct (Q.max_spec 0.05 base) as [[? Hm] | [? Hm]];
    destruct (Q.min_spec 1 base) as [[? Hn] | [? Hn]];
    (destruct (Qltb (base + s) 1.0) eqn:E;
       [apply Qltb_lt in E | apply Qltb_ge in E]);
    case_Qltb; lra.
Qed.

Lemma adjustments_range (context : gmap string Q) :
  exists s,
    (forall base material,
       adjust_confidence_with_context base context material
       = py_max 0.05 (py_min 1.0 (base + s)))
    /\ -0.2 <= s <= 0
    /\ (context !! "temperature"%string = None ->
        context !! "humidity"%string = None ->
        context !! "depth"%string = None -> s = 0).
Proof.
  unfold adjust_confidence_with_context.
  destruct (context !! "temperature"%string) as [temp |];
    [destruct (Qltb 50 temp || Qltb temp (-10)) |];
    (destruct (context !! "humidity"%string) as [humidity |];
       [destruct (Qltb 90 humidity) |]);
    (destruct (context !! "depth"%string) as [depth |];
       [destruct (Qltb 100 depth) |]);
    cbn [app fold_left]; eexists;
    (split; [intros; reflexivity |]);
    (split; [vm_compute; split; discriminate |]);
    intros; try discriminate; reflexivity.
Qed.

(** The context can only lower the confidence.  The adjusted confidence lies
    between 0.05 and 1, is at most the larger of 0.05 and the base
    confidence, and is at least the base confidence (capped at 1) less 0.2;
    a context without temperature, humidity and depth leaves a base
    confidence between 0.05 and 1 as it is. *)
Theorem adjust_confidence_bounds
  (base_confidence : Q) (context : gmap string Q) (material : string) :
  let adjusted :=
    adjust_confidence_with_context base_confidence context material in
  0.05 <= adjusted <= 1
  /\ adjusted <= Qmax 0.05 base_confidence
  /\ Qmin 1 base_confidence - 0.2 <= adjusted
  /\ (context !! "temperature"%string = None ->
      context !! "humidity"%string = None ->
      context !! "depth"%string = None ->
      0.05 <= base_confidence <= 1 -> adjusted == base_confidence).
Proof.
  cbn zeta.
  destruct (adjustments_range context) as (s & Heq & Hs & Hnone).
  rewrite Heq.
  destruct (clamp_confidence base_confidence s Hs) as (H1 & H2 & H3).
  repeat split; try tauto.
  intros Ht Hh Hd Hb. rewrite (Hnone Ht Hh Hd).
  unfold py_max, py_min.
  destruct (Qltb (base_confidence + 0) 1.0) eqn:E;
    [apply Qltb_lt in E | apply Qltb_ge in E]; case_Qltb; lra.
Qed.

Section Model.

Variable scaled : Type.
Variable transform : list feature -> result scaled.
Variable predict : scaled -> string.
Variable predict_proba : scaled -> list Q.
Variable classes_ : list string.

#[local] Abbreviation predict_material :=
  (Classifier.predict_material scaled transform predict predict_proba classes_).

(** What the context does to a prediction.  A prediction made with a context
    is also made without it, from the same class probabilities.  If it is
    reliable with the context then it is reliable without it, names the same
    material, and reports a confidence above 0.6 that the context has not
    raised; if it is not reliable it names "unknown" with confidence 0.1. *)
Theorem predict_material_context
  (wavelengths intensities : list Q) (context : gmap string Q)
  (p : prediction) :
  predict_material wavelengths intensities (Some context) = Ok p ->
  exists p0,
    predict_material wavelengths intensities None = Ok p0
    /\ all_probabilities p = all_probabilities p0
    /\ (is_reliable p = true ->
        is_reliable p0 = true
        /\ material_type p = material_type p0
        /\ 0.6 < confidence p <= confidence p0)
    /\ (is_reliable p = false ->
        material_type p = "unknown"%string /\ confidence p = 0.1).
Proof.
  unfold Classifier.predict_material.
  destruct (preprocess_spectrum wavelengths intensities) as [features | e];
    [| discriminate].
  cbn [mbind result_bind].
  destruct (transform features) as [features_scaled | e]; [| discriminate].
  cbn [mbind result_bind].
  set (base := default 0 (_ !! predict features_scaled)).
  intros [= <-]. eexists. split; [reflexivity |].
  cbn [all_probabilities is_reliable material_type confidence].
  split; [reflexivity |].
  destruct (decide (context = ∅)) as [Hempty | Hfull].
  - destruct (Qltb 0.6 base) eqn:E; split; intros H; try discriminate;
      repeat split; try reflexivity; [apply Qltb_lt in E; exact E | lra].
  - destruct (adjustments_range context) as (s & Heq & Hs & _).
    destruct (clamp_confidence base s Hs) as (_ & Hup & _).
    rewrite <- (Heq base (predict features_scaled)) in Hup.
    set (adjusted := adjust_confidence_with_context base context _) in *.
    destruct (Qltb 0.6 adjusted) eqn:E; split; intros H; try discriminate;
      [| split; reflexivity].
    apply Qltb_lt in E.
    assert (Hbase : adjusted <= base).
    { destruct (Q.max_spec 0.05 base) as [[? Hm] | [? Hm]]; lra. }
    assert (Eb : Qltb 0.6 base = true) by (apply Qltb_lt; lra).
    rewrite Eb. repeat split; [exact E | exact Hbase].
Qed.

End Model.

Lemma predict_material_context_witness :
  exists p,
    Classifier.predict_material (list feature) identity_scaler says_metal
      metal_probabilities fitted_classes
      [300; 950; 1450] [2; 4; 3] (Some {[ "temperature"%string := 60 ]})
    = Ok p
    /\ confidence p == 0.8
    /\ exists p0,
      Classifier.predict_material (list feature) identity_scaler says_metal
        metal_probabilities fitted_classes [300; 950; 1450] [2; 4; 3] None
      = Ok p0
      /\ all_probabilities p = all_probabilities p0
      /\ (is_reliable p = true ->
          is_reliable p0 = true
          /\ material_type p = material_type p0
          /\ 0.6 < confidence p <= confidence p0)
      /\ (is_reliable p = false ->
          material_type p = "unknown"%string /\ confidence p = 0.1).
Proof.
  eexists. split; [vm_compute; reflexivity |].
  split; [reflexivity |].
  apply (predict_material_context (list feature) identity_scaler says_metal
           metal_probabilities fitted_classes
           [300; 950; 1450] [2; 4; 3] {[ "temperature"%string := 60 ]}).
  vm_compute. reflexivity.
Defined.

End ClassifierSpec.

(** ** The preservation index over several readings *)

Module MultiPointSpec.
Import Index MultiPoint.

Lemma fold_left_Zmin (rest : list Z) :
  forall t, (fold_left Z.min rest t <= t)%Z
            /\ forall u, In u rest -> (fold_left Z.min rest t <= u)%Z.
Proof.
  induction rest as [| w rest IH]; intros t; cbn [fold_left].
  - split; [lia | intros u []].
  - destruct (IH (Z.min t w)) as [H1 H2]. split; [lia |].
    intros u [<- | Hu]; [lia | now apply H2].
Qed.

Lemma fold_left_Zmax (rest : list Z) :
  forall t, (t <= fold_left Z.max rest t)%Z
            /\ forall u, In u rest -> (u <= fold_left Z.max rest t)%Z.
Proof.
  induction rest as [| w rest IH]; intros t; cbn [fold_left].
  - split; [lia | intros u []].
  - destruct (IH (Z.max t w)) as [H1 H2]. split; [lia |].
    intros u [<- | Hu]; [lia | now apply H2].
Qed.

Lemma index_percentage_range (temperature tds turbidity depth ph : Q) :
  0 <= fst (calculate_preservation_index temperature tds turbidity depth ph)
    <= 100.
Proof.
  unfold calculate_preservation_index. cbn [fst].
  apply clamp_bounds. lra.
Qed.

(** What the summary of several readings holds.  The percentage lies between
    0 and 100; ['readings_used'] counts every reading, with or without
    sensor values; the timestamp range is missing exactly when no reading
    has a timestamp, and otherwise contains every timestamp; and a quantity
    that no reading reports is averaged as its default: 20 for the
    temperature, 500 for TDS, 10 for turbidity, 2 for the depth (read from
    ['distance']) and 7 for pH. *)
Theorem multi_point_summary (sensor_readings : list reading) :
  let m := calculate_multi_point_preservation sensor_readings in
  0 <= preservation_percentage m <= 100
  /\ readings_used m = length sensor_readings
  /\ (timestamp_range m = None
      <-> forall r, In r sensor_readings -> timestamp r = None)
  /\ (forall a b r t,
        timestamp_range m = Some (a, b) ->
        In r sensor_readings -> timestamp r = Some t -> (a <= t <= b)%Z)
  /\ (forall a, averages_used m = Some a ->
        Forall
          (fun item : string * (averages -> Q) * Q =>
             let '(key, average, default) := item in
             sensor_values key sensor_readings = [] -> average a = default)
          [("temperature"%string, avg_temperature, 20.0);
           ("tds"%string, avg_tds, 500.0);
           ("turbidity"%string, avg_turbidity, 10.0);
           ("distance"%string, avg_depth, 2.0);
           ("ph"%string, avg_ph, 7.0)]).
Proof.
  cbn zeta. unfold calculate_multi_point_preservation.
  destruct sensor_readings as [| r0 rest] eqn:E.
  { cbn. repeat split; try lra; try discriminate. intros _ r []. }
  rewrite <- E. clear E r0 rest.
  set (temperatures := sensor_values "temperature" sensor_readings).
  set (tds_values := sensor_values "tds" sensor_readings).
  set (turbidity_values := sensor_values "turbidity" sensor_readings).
  set (depths := sensor_values "distance" sensor_readings).
  set (ph_values := sensor_values "ph" sensor_readings).
  pose proof (index_percentage_range (mean_or temperatures 20.0)
                (mean_or tds_values 500.0) (mean_or turbidity_values 10.0)
                (mean_or depths 2.0) (mean_or ph_values 7.0)) as Hrange.
  destruct (calculate_preservation_index _ _ _ _ _) as [pct scores_]
    eqn:Hidx.
  cbn [fst] in Hrange.
  cbn [preservation_percentage readings_used timestamp_range averages_used].
  assert (Hts : forall t, In t (omap timestamp sensor_readings)
                          <-> exists r, In r sensor_readings
                                        /\ timestamp r = Some t).
  { intros t. rewrite <- list_elem_of_In, list_elem_of_omap.
    split; intros (r & H1 & H2); exists r;
      [rewrite <- list_elem_of_In | rewrite list_elem_of_In]; tauto. }
  split; [exact Hrange |]. split; [reflexivity |]. split; [| split].
  - destruct (omap timestamp sensor_readings) as [| t ts] eqn:Et.
    + split; [| reflexivity]. intros _ r Hr.
      destruct (timestamp r) as [t |] eqn:Er; [| reflexivity].
      exfalso. apply (proj2 (Hts t)). exists r. split; assumption.
    + split; [discriminate |]. intros Hnone. exfalso.
      destruct (proj1 (Hts t) (or_introl eq_refl)) as (r & Hr & Hrt).
      rewrite (Hnone r Hr) in Hrt. discriminate.
  - intros a b r t Hab Hr Hrt.
    destruct (omap timestamp sensor_readings) as [| t0 ts] eqn:Et;
      [discriminate |].
    injection Hab as <- <-.
    assert (Hin : In t (t0 :: ts)) by (apply Hts; exists r; split; assumption).
    destruct (fold_left_Zmin ts t0) as [Hm1 Hm2].
    destruct (fold_left_Zmax ts t0) as [HM1 HM2].
    destruct Hin as [<- | Hin]; [lia |].
    specialize (Hm2 t Hin). specialize (HM2 t Hin). lia.
  - intros a [= <-].
    subst temperatures tds_values turbidity_values depths ph_values.
    repeat (apply List.Forall_cons;
            [cbv beta iota zeta;
             cbn [avg_temperature avg_tds avg_turbidity avg_depth avg_ph];
             intros Hempty; rewrite Hempty; reflexivity |]).
    apply List.Forall_nil.
Qed.

(** No data is scored in two ways: the empty list of readings scores 0, but
    readings that carry no sensor value at all are scored at the defaults
    (20 degrees, 500 ppm, 10 NTU, depth 2, pH 7), which is about 84. *)
Theorem multi_point_without_values (sensor_readings : list reading) :
  sensor_readings <> [] ->
  (forall r, In r sensor_readings -> sensors r = None) ->
  preservation_percentage (calculate_multi_point_preservation sensor_readings)
  == 7981 # 95
  /\ preservation_percentage (calculate_multi_point_preservation []) == 0.
Proof.
  intros Hne Hnone. split; [| reflexivity].
  assert (Hvalues : forall key, sensor_values key sensor_readings = []).
  { intros key. unfold sensor_values.
    induction sensor_readings as [| r rest IH]; [reflexivity |].
    cbn [omap list_omap]. rewrite (Hnone r (or_introl eq_refl)). cbn.
    destruct rest as [| r' rest']; [reflexivity |].
    apply IH; [discriminate |]. intros r1 Hr1. apply Hnone. now right. }
  unfold calculate_multi_point_preservation.
  destruct sensor_readings as [| r0 rest] eqn:E; [contradiction |].
  rewrite <- E in *. rewrite !Hvalues. cbn [mean_or].
  destruct (calculate_preservation_index 20.0 500.0 10.0 2.0 7.0)
    as [pct scores_] eqn:Hidx.
  cbn [preservation_percentage].
  change pct with (fst (pct, scores_)). rewrite <- Hidx.
  vm_compute. reflexivity.
Qed.

Lemma multi_point_without_values_witness :
  [ {| sensors := None; timestamp := Some 5%Z |} ] <> []
  /\ (forall r, In r [ {| sensors := None; timestamp := Some 5%Z |} ] ->
                sensors r = None)
  /\ preservation_percentage
       (calculate_multi_point_preservation
          [ {| sensors := None; timestamp := Some 5%Z |} ])
     == 7981 # 95
  /\ preservation_percentage (calculate_multi_point_preservation []) == 0.
Proof.
  assert (Hne : [ {| sensors := None; timestamp := Some 5%Z |} ] <> [])
    by discriminate.
  assert (Hnone : forall r,
             In r [ {| sensors := None; timestamp := Some 5%Z |} ] ->
             sensors r = None).
  { intros r [<- | []]. reflexivity. }
  split; [exact Hne |]. split; [exact Hnone |].
  apply (multi_point_without_values _ Hne Hnone).
Defined.

End MultiPointSpec.
